(** * aimux: session / subprocess orchestration engine

    A shallow embedding of the Go package [aimux] (files [aimux.go],
    [flow.go], [config.go], [util.go]) and of the error handling of
    [cmd/aimux/main.go], followed by the properties of the call-graph
    validator, the session identity resolver, the subprocess stream and
    the streaming response interpreter, and by further properties of
    the construction of contexts, the configuration loader, the prompt
    analysis and the address line of [cmd/aimux/main.go].

    Conventions of the embedding.
    - A Go [string] is a byte sequence: it is a Rocq [string] (a list of
      8-bit [ascii]); [len] is [String.length].
    - A Go [int] is a [Z]; where the source increments a value that the
      caller controls the 64-bit wrap-around is written out.
    - A [map[string]string] is a [gmap string string].
    - Functions of Go's standard library whose text is not part of the
      repository (encoding/json, path/filepath, Unicode upper-casing,
      time.ParseDuration) are the methods of the class [GoLib]; the
      definitions are parametric in them.  [RefLib] is a reference
      instance used to run the definitions on concrete inputs.  The
      Unicode paths of package [strings], the regular-expression
      engine, the decoders of [Message] and [Config] and
      [filepath.Dir] are the classes [GoUnicode], [GoRegexp],
      [GoDecode] and [GoPath], with reference instances of their own.
    - What the operating system answers (home directory, file contents,
      failing system calls, entropy, the loaded configuration) is the
      record [World].  Writes are not applied to a store: every
      operation the code performs on the outside world is appended, in
      program order, to a trace of [Event]s.
    - Calls to the logger ([Debug], [Warn], [Error]) only print to
      standard error and are left out. *)

From Stdlib Require Import ZArith String Ascii List Bool Lia.
From stdpp Require Import base option list gmap strings pretty.

#[local] Set Warnings "-register-all".
#[local] Open Scope string_scope.
#[local] Open Scope Z_scope.
#[local] Open Scope list_scope.

(* ===================================================================== *)
(** ** Strings (package [strings]) *)
(* ===================================================================== *)

Module GoStrings.

(** [strings.HasPrefix(s, p)] *)
Fixpoint HasPrefix (s p : string) : bool :=
  match p, s with
  | EmptyString, _ => true
  | String _ _, EmptyString => false
  | String a p', String b s' => if Ascii.eqb a b then HasPrefix s' p' else false
  end.

(** [strings.Contains(s, sub)] *)
Fixpoint Contains (s sub : string) : bool :=
  HasPrefix s sub ||
  match s with
  | EmptyString => false
  | String _ s' => Contains s' sub
  end.

(** [strings.HasSuffix(s, suf)] *)
Definition HasSuffix (s suf : string) : bool :=
  HasPrefix (String.rev s) (String.rev suf).

(** [strings.Split(s, sep)] for a non-empty separator (the only use in
    the package is [sep = "~"]): the pieces between the
    non-overlapping occurrences of [sep], scanning from the left.
    [cur] is the piece being read and [skip] the number of bytes of a
    separator still to be passed over. *)
Fixpoint split_go (sep : string) (cur : string) (skip : nat) (s : string) : list string :=
  match s with
  | EmptyString => [cur]
  | String c s' =>
      match skip with
      | S k => split_go sep cur k s'
      | O =>
          if HasPrefix s sep
          then cur :: split_go sep EmptyString (Nat.pred (String.length sep)) s'
          else split_go sep (cur +:+ String c EmptyString) O s'
      end
  end.

Definition Split (s sep : string) : list string := split_go sep EmptyString O s.

(** [strings.SplitN(s, sep, 2)]: at most two pieces, cut at the first
    occurrence of the (non-empty) separator. *)
Fixpoint splitN2_go (sep : string) (cur : string) (s : string) : list string :=
  match s with
  | EmptyString => [cur]
  | String c s' =>
      if HasPrefix s sep
      then [cur; String.substring (String.length sep) (String.length s) s]
      else splitN2_go sep (cur +:+ String c EmptyString) s'
  end.

Definition SplitN2 (s sep : string) : list string := splitN2_go sep EmptyString s.

(** [strings.ReplaceAll(s, old, new)] for a non-empty [old]. *)
Fixpoint replace_go (old new : string) (skip : nat) (s : string) : string :=
  match s with
  | EmptyString => EmptyString
  | String c s' =>
      match skip with
      | S k => replace_go old new k s'
      | O =>
          if HasPrefix s old
          then new +:+ replace_go old new (Nat.pred (String.length old)) s'
          else String c (replace_go old new O s')
      end
  end.

Definition ReplaceAll (s old new : string) : string := replace_go old new O s.

(** [s == t] on strings, as a boolean. *)
Definition eqb (s t : string) : bool := bool_decide (s = t).

End GoStrings.

(** The [i]-th element of a slice that the source indexes directly. *)
Definition index_or_empty (l : list string) (i : nat) : string := nth i l EmptyString.

(* ===================================================================== *)
(** ** Core types ([aimux.go]) *)
(* ===================================================================== *)

(** [type ID string] *)
Definition ID := string.

(** [type Context struct].  [ENV] is always an allocated map in the
    contexts the package builds ([InitContext], [ResumeContext]). *)
Record Context := mkContext {
  CID : ID;
  SID : ID;
  TOP : string;
  TAG : string;
  GEN : string;
  MOD : string;
  LVL : Z;
  WTF : bool;
  DIR : string;
  ENV : gmap string string;
}.

Definition set_SID (c : Context) (sid : ID) : Context :=
  mkContext (CID c) sid (TOP c) (TAG c) (GEN c) (MOD c) (LVL c) (WTF c) (DIR c) (ENV c).

Definition set_ENV (c : Context) (env : gmap string string) : Context :=
  mkContext (CID c) (SID c) (TOP c) (TAG c) (GEN c) (MOD c) (LVL c) (WTF c) (DIR c) env.

Definition set_LVL (c : Context) (lvl : Z) : Context :=
  mkContext (CID c) (SID c) (TOP c) (TAG c) (GEN c) (MOD c) lvl (WTF c) (DIR c) (ENV c).

(** [type Message struct]; the timestamp [At] is whatever [time.Now()]
    returns and is not represented. *)
Record Message := mkMessage {
  SessionID : ID;
  From : string;
  Body : string;
}.

(** A value decoded by encoding/json into [interface{}].  Numbers keep
    their literal: the package never inspects one. *)
Inductive JSON :=
| JNull
| JBool (b : bool)
| JNum (lit : string)
| JStr (s : string)
| JArr (items : list JSON)
| JObj (fields : gmap string JSON).

(** Type assertions [v.(string)], [v.(bool)], [v.(map[string]interface{})],
    [v.([]interface{})] on an optional map entry. *)
Definition as_string (v : option JSON) : option string :=
  match v with Some (JStr s) => Some s | _ => None end.
Definition as_bool (v : option JSON) : option bool :=
  match v with Some (JBool b) => Some b | _ => None end.
Definition as_map (v : option JSON) : option (gmap string JSON) :=
  match v with Some (JObj m) => Some m | _ => None end.
Definition as_list (v : option JSON) : option (list JSON) :=
  match v with Some (JArr l) => Some l | _ => None end.

(** Standard-library functions the package calls. *)
Class GoLib := {
  (** [json.Unmarshal(data, &m)] with [m map[string]interface{}];
      [None] when it returns an error. *)
  json_Unmarshal_map : string -> option (gmap string JSON);
  (** [json.Unmarshal(data, &ctx)] with [ctx Context]. *)
  json_Unmarshal_Context : string -> option Context;
  (** [filepath.Join(elem...)] *)
  filepath_Join : list string -> string;
  (** [string(runes)] after
      [runes[0] = []rune(strings.ToUpper(string(runes[0])))[0]],
      for a non-empty string. *)
  upper_first_rune : string -> string;
  (** [time.ParseDuration(s)], in nanoseconds. *)
  time_ParseDuration : string -> option Z;
}.

Definition aimuxDir := ".aimux".
Definition conversationsDir := "conversations".
Definition logFileName := "log.jsonl".
Definition contextFileName := "context.json".
Definition emptyModPlaceholder := "-".

(** [type BlockingError struct] *)
Record BlockingError := mkBlockingError {
  Code : Z;
  BlockMessage : string;
}.

(** What [bufio.Scanner.Err()] reports. *)
Inductive ScanError :=
| ErrTooLong                      (* bufio.ErrTooLong *)
| ErrRead (msg : string).         (* the error of the underlying reader *)

(** The error values the package returns, one constructor per site. *)
Inductive error :=
| EBlocking (b : BlockingError)   (* a BlockingError *)
| EHomeDir                        (* cannot determine home directory *)
| EOpen (path : string)           (* os.Open *)
| EScan (e : ScanError)           (* scanner.Err() of a log file *)
| ELogEmpty                       (* log file is empty *)
| EJSON                           (* json.Unmarshal of the last log line *)
| ENoSessionID                    (* no session ID found in last log line *)
| EInvalidSessionID (sid : string)(* invalid session ID format in log file *)
| EGenerateID                     (* generate ID: rand.Read failed *)
| ELoadConfig                     (* load config *)
| EUnknownGenus (gen : string)    (* unknown genus *)
| ENoExe (gen : string)           (* genus has no exe configured *)
| ECommandNotAllowed (cmd : string) (* command not in allowlist / not found *)
| ECreateDirectory (dir : string) (* create directory *)
| EOpenLogFile (path : string)    (* open log file *)
| EWriteOutput                    (* write output *)
| EFlushOutput                    (* flush output *)
| EReadStream (e : ScanError)     (* read stream *)
| ECreatePipe                     (* create stdout pipe *)
| EStart                          (* start <path> *)
| EFileClosed                     (* os.ErrClosed, from Close on an os.File *)
| EWaitCalled                     (* exec: Wait was already called *)
| EExit                           (* exec.ExitError: non-clean exit *)
| EKilledAfterTimeout             (* command did not exit cleanly, killed after timeout *)
| ECanceled.                      (* ctx.Err() *)

Inductive Result (A : Type) :=
| Ok (a : A)
| Err (e : error).
Arguments Ok {A} a.
Arguments Err {A} e.

Section Identity.
Context {lib : GoLib}.

Definition Tag2 (c : Context) : string := MOD c +:+ "~" +:+ GEN c.

Definition Tag3 (c : Context) : string :=
  if negb (GoStrings.eqb (MOD c) "") then MOD c +:+ "~" +:+ GEN c else GEN c.

Definition capitalize (s : string) : string :=
  if GoStrings.eqb s "" then "" else upper_first_rune s.

Definition formatSig (tag : string) : string :=
  if GoStrings.eqb tag "" || GoStrings.eqb tag "~" then "Main User"
  else if GoStrings.HasSuffix tag "~" then "Main User"
  else if GoStrings.Contains tag "~" then
    let parts := GoStrings.SplitN2 tag "~" in
    let md := index_or_empty parts 0 in
    let gen := index_or_empty parts 1 in
    if GoStrings.eqb gen "" then "Main User"
    else if GoStrings.eqb md "" then capitalize gen
    else capitalize md +:+ " " +:+ capitalize gen
  else capitalize tag.

Definition SigTop (c : Context) : string :=
  if GoStrings.eqb (TOP c) "" then "Main User" else formatSig (TOP c).

Definition SigTag (c : Context) : string := formatSig (Tag3 c).

(** [ValidateCall]: [None] is the [nil] error. *)
Definition ValidateCall (c : Context) : option BlockingError :=
  if 3 <=? LVL c then
    Some (mkBlockingError 3
            ("recursive call depth exceeded (" +:+ pretty (LVL c) +:+ ")"))
  else if negb (GoStrings.eqb (TAG c) "") && GoStrings.eqb (TAG c) (TOP c) then
    Some (mkBlockingError 1
            ("you (" +:+ SigTag c +:+ ") cannot call yourself"))
  else if negb (GoStrings.eqb (TOP c) "") && GoStrings.Contains (TOP c) "~"
          && GoStrings.eqb (index_or_empty (GoStrings.Split (TOP c) "~") 0) "engineer" then
    Some (mkBlockingError 4
            ("you (" +:+ SigTop c +:+ ") cannot call anyone; ask your caller instead"))
  else if negb (GoStrings.eqb (TOP c) "") && negb (GoStrings.Contains (TOP c) "~")
          && GoStrings.eqb (MOD c) "engineer" then
    Some (mkBlockingError 5
            ("you (" +:+ SigTop c +:+ ") cannot call " +:+ SigTag c
             +:+ "; ask your team instead"))
  else None.

End Identity.

(* ===================================================================== *)
(** ** The outside world *)
(* ===================================================================== *)

(** What [os.Stat] finds at a path: a regular file with its bytes, or a
    directory (whose [Size()] is system-dependent). *)
Inductive Node :=
| NFile (content : string)
| NDir (size : Z).

(** [type PersonaVars map[string]string] *)
Abbreviation PersonaVars := (gmap string string).

(** [GenusArgs.Prompt] is declared [any]: the decoder leaves a string,
    a list (whose elements are kept as [fmt.Sprint] prints them) or
    something else. *)
Inductive PromptSpec :=
| PromptString (s : string)
| PromptList (template : list string)
| PromptOther.

Record GenusArgs := mkGenusArgs {
  ArgsModel : list string;
  ArgsResume : list string;
  ArgsBranch : list string;
  ArgsNew : list string;
  ArgsPrompt : PromptSpec;
  ArgsOutput : list string;
  ArgsSafety : list string;
}.

Record GenusConfig := mkGenusConfig {
  GenusName : string;
  Exe : list string;
  Cmd : list string;
  Args : GenusArgs;
  GenusPersonas : gmap string PersonaVars;
}.

Record PersonaConfig := mkPersonaConfig {
  PersonaName : string;
  PersonaModel : string;
  PersonaModel2 : string;
  Hints : list string;
  Delegatees : list string;
}.

Record Config := mkConfig {
  Personas : gmap string PersonaConfig;
  Genera : gmap string GenusConfig;
}.

Record World := mkWorld {
  (** [os.UserHomeDir()]; [None] when it returns an error *)
  w_home : option string;
  (** the file system the read operations see, by path *)
  w_fs : gmap string Node;
  (** [LoadConfig()] *)
  w_config : Result Config;
  (** [Sys(c)], the generated system prompt (it reads templates and
      configuration) *)
  w_Sys : Context -> string;
  (** [os.Environ()] *)
  w_environ : list string;
  (** [runtime.GOOS] *)
  w_goos : string;
  (** [os.MkdirAll(dir, 0o755)] returns an error *)
  w_mkdir_fails : string -> bool;
  (** [os.OpenFile(path, O_CREATE|O_APPEND|O_WRONLY, 0o644)] returns an error *)
  w_open_fails : string -> bool;
  (** the [k]-th operation on the buffered sink ([WriteString], [Flush]),
      counted from 0 within one drain, returns an error *)
  w_sink_fails : nat -> bool;
}.

(** A byte stream handed to a [bufio.Scanner]: the bytes it delivers,
    then [io.EOF] ([None]) or another error. *)
Record Reader := mkReader {
  rd_data : string;
  rd_err : option string;
}.

(* ===================================================================== *)
(** ** Line scanning ([bufio.Scanner] with [bufio.ScanLines]) *)
(* ===================================================================== *)

Definition LF : ascii := "010"%char.
Definition CR : ascii := "013"%char.
Definition nl : string := String LF EmptyString.

(** [bufio.MaxScanTokenSize] *)
Definition MaxScanTokenSize : Z := 64 * 1024.

(** [dropCR] *)
Definition dropCR (s : string) : string :=
  if GoStrings.HasSuffix s (String CR EmptyString)
  then String.substring 0 (Nat.pred (String.length s)) s
  else s.

(** The tokens a scanner with buffer limit [max] yields on [data] and
    whether it stops with [ErrTooLong]: a line is delivered when its
    bytes before the newline (or before the end of the data) number
    fewer than [max]; the scanner gives up on the first line that does
    not fit.  [cur] holds the [n] bytes of the line read so far. *)
Fixpoint scan_go (max : Z) (cur : string) (n : Z) (data : string) : list string * bool :=
  match data with
  | EmptyString => if n =? 0 then ([], false) else ([dropCR cur], false)
  | String c rest =>
      if Ascii.eqb c LF then
        let '(ls, e) := scan_go max EmptyString 0 rest in (dropCR cur :: ls, e)
      else if max <=? n + 1 then ([], true)
      else scan_go max (cur +:+ String c EmptyString) (n + 1) rest
  end.

Definition scanLines (max : Z) (data : string) : list string * bool :=
  scan_go max EmptyString 0 data.

(** All the lines [for scanner.Scan()] visits on a reader, and the
    final [scanner.Err()]. *)
Definition scanReader (max : Z) (r : Reader) : list string * option ScanError :=
  let '(ls, long) := scanLines max (rd_data r) in
  (ls, if long then Some ErrTooLong else ErrRead <$> rd_err r).

(** [os.Open(path)] followed by a default scanner over the file; a
    directory opens but cannot be read. *)
Definition scanFile (w : World) (path : string) : option (list string * option ScanError) :=
  match w_fs w !! path with
  | None => None
  | Some (NDir _) => Some ([], Some (ErrRead "is a directory"))
  | Some (NFile data) => Some (scanReader MaxScanTokenSize (mkReader data None))
  end.

(* ===================================================================== *)
(** ** Identifiers ([util.go], [flow.go]) *)
(* ===================================================================== *)

Definition is_hex_digit (c : ascii) : bool :=
  let n := Z.of_nat (nat_of_ascii c) in
  ((48 <=? n) && (n <=? 57)) || ((97 <=? n) && (n <=? 102)) || ((65 <=? n) && (n <=? 70)).

(** The loop of [isValidUUID] from byte index [i].  The source ranges
    over runes with their byte offsets; a byte above 127 belongs to a
    rune that is neither a dash nor a hexadecimal digit, so that the
    test on bytes answers the same. *)
Fixpoint isValidUUID_go (i : nat) (s : string) : bool :=
  match s with
  | EmptyString => true
  | String c s' =>
      if Nat.eqb i 8 || Nat.eqb i 13 || Nat.eqb i 18 || Nat.eqb i 23 then
        if Ascii.eqb c "-"%char then isValidUUID_go (S i) s' else false
      else if negb (is_hex_digit c) then false
      else isValidUUID_go (S i) s'
  end.

Definition isValidUUID (s : string) : bool :=
  if negb (Nat.eqb (String.length s) 36) then false else isValidUUID_go 0 s.

Definition hex_digit (n : Z) : ascii :=
  ascii_of_nat (Z.to_nat (if n <? 10 then 48 + n else 87 + n)).

(** [%x] of one byte: two lower-case digits. *)
Definition hex_byte (b : Z) : string :=
  String (hex_digit (Z.shiftr b 4)) (String (hex_digit (Z.land b 15)) EmptyString).

(** [%x] of a byte slice. *)
Definition hex_bytes (bs : list Z) : string :=
  fold_right (fun b acc => hex_byte b +:+ acc) EmptyString bs.

(** [b[lo:hi]] *)
Definition slice (bs : list Z) (lo hi : nat) : list Z := firstn (hi - lo) (skipn lo bs).

(** The entropy [rand.Read] will deliver: one 16-byte block per call;
    when none is left the call returns an error. *)
Abbreviation Entropy := (list (list Z)).

(** [NewID] on the 16 bytes read. *)
Definition formatID (b : list Z) : ID :=
  let b := <[6%nat := Z.lor (Z.land (nth 6 b 0) 15) 64]> b in
  let b := <[8%nat := Z.lor (Z.land (nth 8 b 0) 63) 128]> b in
  hex_bytes (slice b 0 4) +:+ "-" +:+ hex_bytes (slice b 4 6) +:+ "-" +:+
  hex_bytes (slice b 6 8) +:+ "-" +:+ hex_bytes (slice b 8 10) +:+ "-" +:+
  hex_bytes (slice b 10 16).

Definition NewID (rnd : Entropy) : Result ID * Entropy :=
  match rnd with
  | [] => (Err EGenerateID, [])
  | b :: rnd' => (Ok (formatID b), rnd')
  end.

(* ===================================================================== *)
(** ** Storage locations ([aimux.go]) *)
(* ===================================================================== *)

Section Paths.
Context {lib : GoLib}.
Variable w : World.

Definition homeDir : Result string :=
  match w_home w with
  | Some home => Ok home
  | None => Err EHomeDir
  end.

Definition Dir1 (c : Context) : Result string :=
  match homeDir with
  | Err e => Err e
  | Ok home => Ok (filepath_Join [home; aimuxDir; conversationsDir; CID c; GEN c])
  end.

Definition Dir2 (c : Context) : Result string :=
  match Dir1 c with
  | Err e => Err e
  | Ok dir1 =>
      if negb (GoStrings.eqb (MOD c) "") then Ok (filepath_Join [dir1; MOD c]) else Ok dir1
  end.

Definition Log1 (c : Context) : Result string :=
  match Dir1 c with
  | Err e => Err e
  | Ok dir1 => Ok (filepath_Join [dir1; logFileName])
  end.

Definition Log2 (c : Context) : Result string :=
  match Dir1 c with
  | Err e => Err e
  | Ok dir1 =>
      let md := if GoStrings.eqb (MOD c) "" then emptyModPlaceholder else MOD c in
      Ok (filepath_Join [dir1; md; logFileName])
  end.

Definition Log3 (c : Context) : Result string :=
  match Dir2 c with
  | Err e => Err e
  | Ok dir2 => Ok (filepath_Join [dir2; logFileName])
  end.

(* =================================================================== *)
(** ** Session identity resolver ([flow.go]) *)
(* =================================================================== *)

(** [hasContent]: the path exists and has non-zero size. *)
Definition hasContent (path : string) : bool :=
  match w_fs w !! path with
  | None => false
  | Some (NFile data) => 0 <? Z.of_nat (String.length data)
  | Some (NDir size) => 0 <? size
  end.

(** [fileExists]: [os.Stat] succeeds. *)
Definition fileExists (path : string) : bool :=
  match w_fs w !! path with
  | None => false
  | Some _ => true
  end.

(** One log line counts as established: it decodes, and has a string
    [from] other than "user" or the [type] "assistant". *)
Definition line_established (line : string) : bool :=
  match json_Unmarshal_map line with
  | None => false
  | Some msg =>
      match as_string (msg !! "from") with
      | Some from => negb (GoStrings.eqb from "user")
      | None => false
      end
      ||
      match as_string (msg !! "type") with
      | Some msgType => GoStrings.eqb msgType "assistant"
      | None => false
      end
  end.

Definition hasEstablishedSession (path : string) : bool :=
  match scanFile w path with
  | None => false
  | Some (lines, _) => existsb line_established lines
  end.

(** [lastSessionID] *)
Definition lastSessionID (path : string) : Result ID :=
  match scanFile w path with
  | None => Err (EOpen path)
  | Some (lines, scanErr) =>
      let lastLine := List.last lines "" in
      match scanErr with
      | Some e => Err (EScan e)
      | None =>
          if GoStrings.eqb lastLine "" then Err ELogEmpty
          else
            match json_Unmarshal_map lastLine with
            | None => Err EJSON
            | Some data =>
                let found :=
                  match as_string (data !! "session_id") with
                  | Some s => Some s
                  | None => as_string (data !! "sessionId")
                  end in
                match found with
                | None => Err ENoSessionID
                | Some sid =>
                    if negb (isValidUUID sid) then Err (EInvalidSessionID sid)
                    else Ok sid
                end
            end
      end
  end.

(** [os.ReadFile] *)
Definition ReadFile (path : string) : option string :=
  match w_fs w !! path with
  | Some (NFile data) => Some data
  | _ => None
  end.

(** The identifier a readable, decodable snapshot with a non-empty
    [SID] carries (the first [if] of [DetermineSessionID]). *)
Definition savedSID (c : Context) : option ID :=
  match ReadFile (filepath_Join [DIR c; contextFileName]) with
  | None => None
  | Some data =>
      match json_Unmarshal_Context data with
      | Some savedCtx =>
          if negb (GoStrings.eqb (SID savedCtx) "") then Some (SID savedCtx) else None
      | None => None
      end
  end.

(** [DetermineSessionID]: the context as the call leaves it and the
    returned pair. *)
Definition DetermineSessionID (c : Context) : Context * Result ID :=
  match savedSID c with
  | Some sid => (c, Ok sid)
  | None =>
      match Log2 c with
      | Err e => (c, Err e)
      | Ok log2 =>
          match Log1 c with
          | Err e => (c, Err e)
          | Ok log1 =>
              if hasContent log2 then
                match lastSessionID log2 with
                | Err e => (c, Err e)
                | Ok sid => (set_SID c sid, Ok sid)
                end
              else if GoStrings.eqb (MOD c) "" && hasContent log1 then
                match lastSessionID log1 with
                | Err e => (c, Err e)
                | Ok sid => (set_SID c sid, Ok sid)
                end
              else (c, Ok (CID c))
          end
      end
  end.

(* =================================================================== *)
(** ** Session flags ([config.go], [flow.go]) *)
(* =================================================================== *)

(** [RenderFlags].  Go ranges over [vars] in an unspecified order; the
    substitutions are applied here in the order of [map_to_list]. *)
Definition render_one (vars : gmap string string) (t : string) : string :=
  fold_left (fun acc kv => GoStrings.ReplaceAll acc ("{{" +:+ kv.1 +:+ "}}") kv.2)
            (map_to_list vars) t.

Definition RenderFlags (template : list string) (vars : gmap string string) : list string :=
  map (render_one vars) template.

(** [buildSessionFlags]: the context as the call leaves it, the
    entropy left, and the returned flags with the new-session flag. *)
Definition buildSessionFlags (rnd : Entropy) (c : Context) (genus : GenusConfig)
           (personaVars : PersonaVars)
  : Context * Entropy * Result (list string * bool) :=
  match Log2 c with
  | Err e => (c, rnd, Err e)
  | Ok log2 =>
      match Log1 c with
      | Err e => (c, rnd, Err e)
      | Ok log1 =>
          let sidVars : gmap string string := personaVars ∪ {[ "sid" := SID c ]} in
          if hasEstablishedSession log2 then
            (c, rnd, Ok (RenderFlags (ArgsResume (Args genus)) sidVars, false))
          else if hasEstablishedSession log1 then
            if fileExists log2 && (0 <? Z.of_nat (length (ArgsBranch (Args genus)))) then
              (c, rnd, Ok (RenderFlags (ArgsBranch (Args genus)) sidVars, false))
            else
              (c, rnd, Ok (RenderFlags (ArgsResume (Args genus)) sidVars, false))
          else if fileExists log2 && negb (GoStrings.eqb (CID c) (SID c)) then
            match NewID rnd with
            | (Err e, rnd') => (c, rnd', Err e)
            | (Ok newSID, rnd') =>
                let c' := set_SID c newSID in
                let sidVars' := <[ "sid" := newSID ]> sidVars in
                (c', rnd', Ok (RenderFlags (ArgsNew (Args genus)) sidVars', true))
            end
          else
            (c, rnd, Ok (RenderFlags (ArgsNew (Args genus)) sidVars, true))
      end
  end.

End Paths.

(* ===================================================================== *)
(** ** Subprocess preparation ([config.go], [flow.go]) *)
(* ===================================================================== *)

(** The fields of [exec.Cmd] the package sets. *)
Record Command := mkCommand {
  cmd_Path : string;
  cmd_Args : list string;
  cmd_Env : list string;
  cmd_Stdin : option string;
  cmd_Setpgid : bool;
}.

(** [CommandStream]: a started process and its stdout pipe.
    [cs_stdout_closed] is the state of the pipe's [os.File],
    [cs_waited] records that [cmd.Wait] has returned
    ([cmd.ProcessState != nil]). *)
Record CommandStream := mkCommandStream {
  cs_cmd : Command;
  cs_timeout : Z;
  cs_stdout_closed : bool;
  cs_waited : bool;
}.

(** [LazyCommandStream]; [lcs_once] is the state of [sync.Once],
    [lcs_cancelled] that of the timeout context. *)
Record LazyCommandStream := mkLazy {
  lcs_cmd : Command;
  lcs_timeout : Z;
  lcs_once : bool;
  lcs_stream : option CommandStream;
  lcs_err : option error;
  lcs_cancelled : bool;
}.

(** Signed 64-bit wrap-around of Go's [int]. *)
Definition wrap64 (z : Z) : Z := (z + 2^63) mod 2^64 - 2^63.

(** [c.ENV[key]]: the zero value for a missing key. *)
Definition env_get (c : Context) (key : string) : string := default "" (ENV c !! key).

Section Prepare.
Context {lib : GoLib}.
Variable w : World.

Definition GetGenus (cfg : Config) (gen : string) : option GenusConfig := Genera cfg !! gen.

Definition GetGenusPersonaVars (cfg : Config) (gen md : string) : PersonaVars :=
  match Genera cfg !! gen with
  | None => ∅
  | Some genus =>
      match GenusPersonas genus !! md with
      | Some vars => vars
      | None =>
          let model2 := if GoStrings.eqb md "sonnet" then "haiku" else "sonnet" in
          <[ "model" := md ]> (<[ "model2" := model2 ]> ∅)
      end
  end.

(** [ValidateCommand]; it loads the configuration again. *)
Definition ValidateCommand (cmd : string) : option error :=
  match w_config w with
  | Err _ =>
      if GoStrings.eqb cmd "claude" || GoStrings.eqb cmd "codex" || GoStrings.eqb cmd "bash"
      then None else Some (ECommandNotAllowed cmd)
  | Ok cfg =>
      if existsb (fun kv : string * GenusConfig =>
                    (0 <? Z.of_nat (length (Exe kv.2)))
                    && GoStrings.eqb (index_or_empty (Exe kv.2) 0) cmd)
                 (map_to_list (Genera cfg))
      then None else Some (ECommandNotAllowed cmd)
  end.

(** The standard input of the child when the prompt is not sent on it
    (the [[]interface{}] and [default] arms of the type switch). *)
Definition plainStdin (useBashC : bool) (cmdArgs : string) (stdin : option string)
  : option string :=
  if useBashC then stdin
  else match stdin with
       | Some input =>
           if negb (GoStrings.eqb cmdArgs "") then Some (cmdArgs +:+ nl +:+ nl +:+ input)
           else Some input
       | None => if negb (GoStrings.eqb cmdArgs "") then Some cmdArgs else None
       end.

(** 30 minutes, in nanoseconds *)
Definition defaultTimeout : Z := 30 * 60 * 1000000000.

(** [CallGenus]: the context as the call leaves it, the entropy left,
    and the prepared stream or the error. *)
Definition CallGenus (rnd : Entropy) (c : Context) (cmdArgs : string) (stdin : option string)
  : Context * Entropy * Result LazyCommandStream :=
  match ValidateCall c with
  | Some b => (c, rnd, Err (EBlocking b))
  | None =>
  match w_config w with
  | Err _ => (c, rnd, Err ELoadConfig)
  | Ok cfg =>
  match GetGenus cfg (GEN c) with
  | None => (c, rnd, Err (EUnknownGenus (GEN c)))
  | Some genus =>
  if Nat.eqb (length (Exe genus)) 0 then (c, rnd, Err (ENoExe (GEN c))) else
  let exe0 := index_or_empty (Exe genus) 0 in
  match ValidateCommand exe0 with
  | Some e => (c, rnd, Err e)
  | None =>
  let modelPersona :=
    if negb (GoStrings.eqb (env_get c "AIMODEL") "") then env_get c "AIMODEL" else MOD c in
  let personaVars := GetGenusPersonaVars cfg (GEN c) modelPersona in
  let useBashC :=
    GoStrings.eqb exe0 "bash" && negb (GoStrings.eqb cmdArgs "")
    && bool_decide (stdin <> None) in
  let args := Cmd genus in
  let args := if useBashC then args ++ ["-c"; cmdArgs] else args in
  let args :=
    if 0 <? Z.of_nat (length (ArgsModel (Args genus)))
    then args ++ RenderFlags (ArgsModel (Args genus)) personaVars else args in
  match buildSessionFlags w rnd c genus personaVars with
  | (c1, rnd', Err e) => (c1, rnd', Err e)
  | (c1, rnd', Ok (sessionArgs, isNew)) =>
  let args := args ++ sessionArgs in
  let c2 := set_ENV c1 (<[ "_AIMUX_NEW_SESSION" := if isNew then "true" else "false" ]> (ENV c1)) in
  let args := args ++ ArgsOutput (Args genus) in
  let args := args ++ ArgsSafety (Args genus) in
  let systemPrompt :=
    if negb (GoStrings.eqb (env_get c2 "AISYS") "") then env_get c2 "AISYS"
    else w_Sys w (set_LVL c2 (wrap64 (LVL c2 + 1))) in
  let '(args, stdinContent) :=
    match ArgsPrompt (Args genus) with
    | PromptString sp =>
        if GoStrings.eqb sp "stdin" then
          match stdin with
          | Some input => (args, Some (systemPrompt +:+ nl +:+ nl +:+ input))
          | None =>
              if negb (GoStrings.eqb cmdArgs "")
              then (args, Some (systemPrompt +:+ nl +:+ nl +:+ cmdArgs))
              else (args, Some systemPrompt)
          end
        else (args, None)
    | PromptList template =>
        (args ++ RenderFlags template {[ "prompt" := systemPrompt ]},
         plainStdin useBashC cmdArgs stdin)
    | PromptOther => (args, plainStdin useBashC cmdArgs stdin)
    end in
  let timeout :=
    if negb (GoStrings.eqb (env_get c2 "AITIMEOUT") "") then
      match time_ParseDuration (env_get c2 "AITIMEOUT") with
      | Some t => if 0 <? t then t else defaultTimeout
      | None => defaultTimeout
      end
    else defaultTimeout in
  let fullArgs := skipn 1 (Exe genus) ++ args in
  let env :=
    w_environ w ++
    [ "AICID=" +:+ CID c2; "AISID=" +:+ SID c2; "AIGEN=" +:+ GEN c2;
      "AIMOD=" +:+ MOD c2; "AITAG=" +:+ TAG c2; "AITOP=" +:+ TOP c2;
      "AILVL=" +:+ pretty (wrap64 (LVL c2 + 1)) ] ++
    (if WTF c2 then ["AIWTF=1"] else []) in
  let cmd :=
    mkCommand exe0 fullArgs env stdinContent (negb (GoStrings.eqb (w_goos w) "windows")) in
  (c2, rnd', Ok (mkLazy cmd timeout false None None false))
  end end end end end.

End Prepare.

(* ===================================================================== *)
(** ** Subprocess stream ([flow.go]) *)
(* ===================================================================== *)

(** How the child behaves, as far as the stream can observe. *)
Record Child := mkChild {
  (** [cmd.StdoutPipe()] returns an error *)
  ch_pipe_fails : bool;
  (** [cmd.Start()] returns an error *)
  ch_start_fails : bool;
  (** once its stdout is closed the child exits before the 5 s bound *)
  ch_exits_in_time : bool;
  (** the child exits with a non-zero status *)
  ch_exit_error : bool;
}.

(** The operations a stream performs on its process and context. *)
Inductive LifeEvent :=
| LCancel                (* cancel() of the timeout context *)
| LStdoutPipe            (* cmd.StdoutPipe() *)
| LStart                 (* cmd.Start() *)
| LPipeClose             (* stdout.Close() *)
| LKillGroup             (* syscall.Kill(-pid, SIGKILL) *)
| LKillProcess           (* cmd.Process.Kill() *)
| LWait.                 (* cmd.Wait() *)

(** What [Read] reports (the bytes themselves are the [Reader] of the
    interpreter). *)
Inductive ReadOutcome :=
| ReadPipe                    (* the result of stdout.Read(p) *)
| ReadError (e : error)
| ReadPanic.                  (* nil pointer dereference *)

Section Lifecycle.
Variable goos : string.
Variable child : Child.

(** [cmd.Wait()]: a second call returns an error at once. *)
Definition cmd_Wait (cs : CommandStream) : CommandStream * option error :=
  if cs_waited cs then (cs, Some EWaitCalled)
  else (mkCommandStream (cs_cmd cs) (cs_timeout cs) true true,
        if ch_exit_error child then Some EExit else None).

(** [stdout.Close()] on the pipe's [os.File]: closing a closed file
    returns [os.ErrClosed]. *)
Definition stdout_Close (cs : CommandStream) : CommandStream * option error :=
  if cs_stdout_closed cs then (cs, Some EFileClosed)
  else (mkCommandStream (cs_cmd cs) (cs_timeout cs) true (cs_waited cs), None).

(** [killProcessGroup]; [cmd.Process] is set in every stream [start]
    builds. *)
Definition killProcessGroup : list LifeEvent :=
  if negb (GoStrings.eqb goos "windows") then [LKillGroup] else [LKillProcess].

(** [CommandStream.Close]; the deferred [cancel()] runs last. *)
Definition CommandStream_Close (cs : CommandStream)
  : CommandStream * option error * list LifeEvent :=
  match stdout_Close cs with
  | (cs1, Some err) =>
      let '(cs2, _) := cmd_Wait cs1 in
      (cs2, Some err, [LPipeClose] ++ killProcessGroup ++ [LWait; LCancel])
  | (cs1, None) =>
      if ch_exits_in_time child then
        let '(cs2, err) := cmd_Wait cs1 in
        (cs2, err, [LPipeClose; LWait; LCancel])
      else
        let '(cs2, _) := cmd_Wait cs1 in
        (cs2, Some EKilledAfterTimeout,
         [LPipeClose; LWait] ++ killProcessGroup ++ [LWait; LCancel])
  end.

(** [LazyCommandStream.start] *)
Definition LazyCommandStream_start (l : LazyCommandStream)
  : option CommandStream * option error * list LifeEvent :=
  if ch_pipe_fails child then (None, Some ECreatePipe, [LStdoutPipe; LCancel])
  else if ch_start_fails child then (None, Some EStart, [LStdoutPipe; LStart; LCancel])
  else (Some (mkCommandStream (lcs_cmd l) (lcs_timeout l) false false), None,
        [LStdoutPipe; LStart]).

(** [LazyCommandStream.Read] *)
Definition LazyCommandStream_Read (l : LazyCommandStream)
  : LazyCommandStream * ReadOutcome * list LifeEvent :=
  let '(l1, evs) :=
    if lcs_once l then (l, [])
    else
      let '(stream, err, evs) := LazyCommandStream_start l in
      (mkLazy (lcs_cmd l) (lcs_timeout l) true stream err
              (lcs_cancelled l || bool_decide (err <> None)), evs) in
  match lcs_err l1 with
  | Some e => (l1, ReadError e, evs)
  | None =>
      match lcs_stream l1 with
      | None => (l1, ReadPanic, evs)
      | Some _ =>
          if lcs_cancelled l1 then (l1, ReadError ECanceled, evs)
          else (l1, ReadPipe, evs)
      end
  end.

(** [LazyCommandStream.Close] *)
Definition LazyCommandStream_Close (l : LazyCommandStream)
  : LazyCommandStream * option error * list LifeEvent :=
  let '(l1, evs) :=
    if lcs_once l then (l, [])
    else (mkLazy (lcs_cmd l) (lcs_timeout l) true (lcs_stream l) (lcs_err l) true,
          [LCancel]) in
  match lcs_stream l1 with
  | Some cs =>
      let '(cs', err, evs') := CommandStream_Close cs in
      (mkLazy (lcs_cmd l1) (lcs_timeout l1) (lcs_once l1) (Some cs') (lcs_err l1) true,
       err, evs ++ evs')
  | None => (l1, None, evs)
  end.

End Lifecycle.

(* ===================================================================== *)
(** ** Streaming response interpreter ([flow.go]) *)
(* ===================================================================== *)

Definition MaxLineLength : Z := 1024 * 1024.
Definition MaxOutputSize : Z := 10 * 1024 * 1024.

Definition truncationNotice : string :=
  nl +:+ "[WARNING: Output truncated at 10MB limit]" +:+ nl.

(** What is appended to the log file: a line of the stream as it came,
    or a marshalled [Message]. *)
Inductive LogData :=
| LogRaw (line : string)
| LogMessage (m : Message).

(** The operations of a drain on the outside world.  [EvSaveContext c]
    is [saveContext(c)]: [os.WriteFile] of the marshalled [c] to
    [c.DIR/context.json].  An event records that the operation was
    performed, whether or not the system reported an error for it. *)
Inductive Event :=
| EvMkdirAll (dir : string)
| EvSaveContext (c : Context)
| EvOpenLog (path : string)
| EvLogWrite (d : LogData)
| EvLogClose
| EvSinkWrite (s : string)
| EvSinkFlush.

Definition is_sink_event (e : Event) : bool :=
  match e with
  | EvSinkWrite _ | EvSinkFlush => true
  | _ => false
  end.

(** The bytes handed to the sink. *)
Fixpoint sink_of (tr : list Event) : string :=
  match tr with
  | [] => EmptyString
  | EvSinkWrite s :: tr' => s +:+ sink_of tr'
  | _ :: tr' => sink_of tr'
  end.

(** The records appended to the log. *)
Fixpoint log_of (tr : list Event) : list LogData :=
  match tr with
  | [] => []
  | EvLogWrite d :: tr' => d :: log_of tr'
  | _ :: tr' => log_of tr'
  end.

(** The snapshots written, oldest first. *)
Fixpoint snapshots_of (tr : list Event) : list Context :=
  match tr with
  | [] => []
  | EvSaveContext c :: tr' => c :: snapshots_of tr'
  | _ :: tr' => snapshots_of tr'
  end.

(** Directory creation, snapshot write or log-file opening. *)
Definition is_storage_event (e : Event) : bool :=
  match e with
  | EvMkdirAll _ | EvSaveContext _ | EvOpenLog _ => true
  | _ => false
  end.

(** [detectFormat] *)
Definition detectFormat (firstLine : string) : string :=
  match firstLine with
  | EmptyString => "empty"
  | String c _ =>
      if Ascii.eqb c "{"%char || Ascii.eqb c "["%char then "json"
      else if Ascii.eqb c "<"%char then "xml"
      else "text"
  end.

(** The local variables of [StreamAndLog], the context it was handed,
    and the trace so far. *)
Record DrainState := mkDrain {
  d_ctx : Context;
  d_totalOutput : Z;
  d_lineNumber : Z;
  d_format : string;
  d_streamHasError : bool;
  d_pendingSID : ID;
  d_sidSaved : bool;
  d_sidLogged : bool;
  d_logFile : option string;
  d_trace : list Event;
}.

Definition emit (e : Event) (st : DrainState) : DrainState :=
  mkDrain (d_ctx st) (d_totalOutput st) (d_lineNumber st) (d_format st)
          (d_streamHasError st) (d_pendingSID st) (d_sidSaved st) (d_sidLogged st)
          (d_logFile st) (d_trace st ++ [e]).

Definition set_ctx (c : Context) (st : DrainState) : DrainState :=
  mkDrain c (d_totalOutput st) (d_lineNumber st) (d_format st)
          (d_streamHasError st) (d_pendingSID st) (d_sidSaved st) (d_sidLogged st)
          (d_logFile st) (d_trace st).

Definition add_output (n : Z) (st : DrainState) : DrainState :=
  mkDrain (d_ctx st) (d_totalOutput st + n) (d_lineNumber st) (d_format st)
          (d_streamHasError st) (d_pendingSID st) (d_sidSaved st) (d_sidLogged st)
          (d_logFile st) (d_trace st).

Definition next_line (st : DrainState) : DrainState :=
  mkDrain (d_ctx st) (d_totalOutput st) (d_lineNumber st + 1) (d_format st)
          (d_streamHasError st) (d_pendingSID st) (d_sidSaved st) (d_sidLogged st)
          (d_logFile st) (d_trace st).

Definition set_format (f : string) (st : DrainState) : DrainState :=
  mkDrain (d_ctx st) (d_totalOutput st) (d_lineNumber st) f
          (d_streamHasError st) (d_pendingSID st) (d_sidSaved st) (d_sidLogged st)
          (d_logFile st) (d_trace st).

Definition set_error (st : DrainState) : DrainState :=
  mkDrain (d_ctx st) (d_totalOutput st) (d_lineNumber st) (d_format st)
          true (d_pendingSID st) (d_sidSaved st) (d_sidLogged st)
          (d_logFile st) (d_trace st).

Definition set_pending (sid : ID) (st : DrainState) : DrainState :=
  mkDrain (d_ctx st) (d_totalOutput st) (d_lineNumber st) (d_format st)
          (d_streamHasError st) sid (d_sidSaved st) (d_sidLogged st)
          (d_logFile st) (d_trace st).

Definition set_sidSaved (st : DrainState) : DrainState :=
  mkDrain (d_ctx st) (d_totalOutput st) (d_lineNumber st) (d_format st)
          (d_streamHasError st) (d_pendingSID st) true (d_sidLogged st)
          (d_logFile st) (d_trace st).

Definition set_sidLogged (st : DrainState) : DrainState :=
  mkDrain (d_ctx st) (d_totalOutput st) (d_lineNumber st) (d_format st)
          (d_streamHasError st) (d_pendingSID st) (d_sidSaved st) true
          (d_logFile st) (d_trace st).

Definition set_logFile (f : option string) (st : DrainState) : DrainState :=
  mkDrain (d_ctx st) (d_totalOutput st) (d_lineNumber st) (d_format st)
          (d_streamHasError st) (d_pendingSID st) (d_sidSaved st) (d_sidLogged st)
          f (d_trace st).

(** The state at the entry of the loop. *)
Definition initDrain (c : Context) : DrainState :=
  mkDrain c 0 0 "" false "" false false None [].

(** How one iteration of the scanning loop ends. *)
Inductive Step :=
| Next (st : DrainState)                (* falls through or [continue] *)
| Break (st : DrainState)               (* [break] *)
| Return (st : DrainState) (e : error). (* [return err] *)

(** What a drain leaves behind. *)
Record Drained := mkDrained {
  res_ctx : Context;
  res_trace : list Event;
  res_err : option error;
}.

Section Interpreter.
Context {lib : GoLib}.
Variable w : World.

(** [bufWriter.WriteString(s)] and [bufWriter.Flush()]: the state
    after the call and whether the call returned an error. *)
Definition sink_failed (st : DrainState) : bool :=
  w_sink_fails w (length (filter (fun e => is_sink_event e = true) (d_trace st))).

Definition WriteString (s : string) (st : DrainState) : DrainState * bool :=
  (emit (EvSinkWrite s) st, sink_failed st).

Definition Flush (st : DrainState) : DrainState * bool :=
  (emit EvSinkFlush st, sink_failed st).

(** [saveContext(c)]; every caller in the drain only warns on error. *)
Definition saveContext (st : DrainState) : DrainState :=
  emit (EvSaveContext (d_ctx st)) st.

(** The body of [if format == "" && line != ""]. *)
Definition detect (line : string) (st : DrainState) : Step :=
  let st := set_format (detectFormat line) st in
  let st := emit (EvMkdirAll (DIR (d_ctx st))) st in
  if w_mkdir_fails w (DIR (d_ctx st)) then Return st (ECreateDirectory (DIR (d_ctx st)))
  else
    let st := saveContext st in
    match Log3 w (d_ctx st) with
    | Err e => Return st e
    | Ok log3 =>
        let st := emit (EvOpenLog log3) st in
        if w_open_fails w log3 then Return st (EOpenLogFile log3)
        else Next (set_logFile (Some log3) st)
    end.

(** The message of an error record: [.error.message], else
    [.result], else [.message], else a fixed text. *)
Definition errorMessage (data : gmap string JSON) : string :=
  let m :=
    match as_map (data !! "error") with
    | Some err => default "" (as_string (err !! "message"))
    | None => ""
    end in
  let m :=
    if GoStrings.eqb m "" then default m (as_string (data !! "result")) else m in
  let m :=
    if GoStrings.eqb m "" then default m (as_string (data !! "message")) else m in
  if GoStrings.eqb m "" then "Unknown API error" else m.

(** The concatenated [.content[].text] of a message object. *)
Definition contentText (msg : gmap string JSON) : string :=
  match as_list (msg !! "content") with
  | Some content =>
      fold_left (fun acc item =>
                   match item with
                   | JObj itemMap =>
                       match as_string (itemMap !! "text") with
                       | Some text => acc +:+ text
                       | None => acc
                       end
                   | _ => acc
                   end) content ""
  | None => ""
  end.

(** The session identifier an assistant record carries:
    [.session_id] when the key is present, else [.sessionId]; it
    counts when it is a non-empty string. *)
Definition observedSID (data : gmap string JSON) : option ID :=
  let raw :=
    match data !! "session_id" with
    | Some v => Some v
    | None => data !! "sessionId"
    end in
  match raw with
  | Some (JStr s) => if negb (GoStrings.eqb s "") then Some s else None
  | _ => None
  end.

(** The candidate is taken only while none is pending. *)
Definition collectSID (data : gmap string JSON) (st : DrainState) : DrainState :=
  match observedSID data with
  | Some newSID =>
      if GoStrings.eqb (d_pendingSID st) "" && negb (d_sidLogged st)
      then set_sidLogged (set_pending newSID st)
      else if GoStrings.eqb (d_pendingSID st) "" then set_pending newSID st
      else st
  | None => st
  end.

(** "Save pending SID immediately whenever it changes". *)
Definition flushSID (st : DrainState) : DrainState :=
  if negb (GoStrings.eqb (d_pendingSID st) "") && negb (d_streamHasError st)
     && negb (GoStrings.eqb (d_pendingSID st) (SID (d_ctx st)))
  then saveContext (set_sidSaved (set_ctx (set_SID (d_ctx st) (d_pendingSID st)) st))
  else st.

(** [isError]: the field [is_error] is the boolean [true]. *)
Definition isError (data : gmap string JSON) : bool :=
  default false (as_bool (data !! "is_error")).

(** "Mark stream as having error if we see is_error==true anywhere". *)
Definition markError (data : gmap string JSON) (st : DrainState) : DrainState :=
  if isError data then set_pending "" (set_error st) else st.

(** The explicit error types: [type] is "error", or "result" with
    [is_error]. *)
Definition isErrorRecord (data : gmap string JSON) : bool :=
  match as_string (data !! "type") with
  | Some t => GoStrings.eqb t "error" || (GoStrings.eqb t "result" && isError data)
  | None => false
  end.

(** The body for the explicit error types, up to its [continue]. *)
Definition handleErrorRecord (data : gmap string JSON) (st : DrainState) : Step :=
  let errorMsg := errorMessage data in
  if bool_decide (as_string (data !! "type") = Some "error") then
    let '(st, _) := WriteString (errorMsg +:+ nl) st in
    let '(st, _) := Flush st in
    Next st
  else Next st.

(** "Write JSON lines with session_id to log immediately". *)
Definition logSessionLine (line : string) (data : gmap string JSON) (st : DrainState)
  : DrainState :=
  if bool_decide (is_Some (data !! "session_id"))
     || bool_decide (is_Some (data !! "sessionId"))
  then emit (EvLogWrite (LogRaw (line +:+ nl))) st else st.

(** "Extract and output message text": the three content shapes; an
    assistant record also offers its session identifier. *)
Definition extractText (data : gmap string JSON) (st : DrainState) : DrainState * string :=
  if bool_decide (as_string (data !! "type") = Some "assistant") then
    (collectSID data st,
     match as_map (data !! "message") with
     | Some msg => contentText msg
     | None => ""
     end)
  else
    match as_map (data !! "message") with
    | Some msg => (st, contentText msg)
    | None =>
        match as_map (data !! "msg") with
        | Some msg => (st, default "" (as_string (msg !! "message")))
        | None => (st, "")
        end
    end.

(** "Write extracted text with error handling". *)
Definition writeExtracted (extractedText : string) (st : DrainState) : Step :=
  if negb (GoStrings.eqb extractedText "") then
    let st := add_output (Z.of_nat (String.length extractedText)) st in
    let '(st, failed) := WriteString extractedText st in
    if failed then Return st EWriteOutput
    else if GoStrings.Contains extractedText nl then Next (Flush st).1
    else Next st
  else Next st.

(** [case "json"] *)
Definition handleJSON (line : string) (st : DrainState) : Step :=
  match json_Unmarshal_map line with
  | None => Next st
  | Some data =>
      let st := markError data st in
      if isErrorRecord data then handleErrorRecord data st
      else
        let st := logSessionLine line data st in
        let '(st, extractedText) := extractText data st in
        let st := flushSID st in
        writeExtracted extractedText st
  end.

(** [case "text", "empty"] *)
Definition handleText (line : string) (st : DrainState) : Step :=
  let st := add_output (Z.of_nat (String.length line)) st in
  let '(st, failed) := WriteString (line +:+ nl) st in
  if failed then Return st EWriteOutput
  else
    let '(st, _) := Flush st in
    if negb (GoStrings.eqb line "") then
      Next (emit (EvLogWrite (LogMessage (mkMessage (SID (d_ctx st)) "assistant" line))) st)
    else Next st.

(** [default] *)
Definition handleOther (line : string) (st : DrainState) : Step :=
  let st := add_output (Z.of_nat (String.length line)) st in
  let '(st, failed) := WriteString (line +:+ nl) st in
  if failed then Return st EWriteOutput else Next st.

(** What follows format detection in one iteration: the output
    ceiling, then the switch on the format. *)
Definition dispatch (line : string) (st : DrainState) : Step :=
  if MaxOutputSize <=? d_totalOutput st then
    Break (WriteString truncationNotice st).1
  else if GoStrings.eqb (d_format st) "json" then handleJSON line st
  else if GoStrings.eqb (d_format st) "text" || GoStrings.eqb (d_format st) "empty"
  then handleText line st
  else handleOther line st.

(** One iteration of [for scanner.Scan()]. *)
Definition step (line : string) (st : DrainState) : Step :=
  let st := next_line st in
  if GoStrings.eqb (d_format st) "" && negb (GoStrings.eqb line "") then
    match detect line st with
    | Next st => dispatch line st
    | other => other
    end
  else dispatch line st.

(** The loop; [Next] at the end is the scanner running dry. *)
Fixpoint drain (lines : list string) (st : DrainState) : Step :=
  match lines with
  | [] => Next st
  | line :: rest =>
      match step line st with
      | Next st' => drain rest st'
      | other => other
      end
  end.

(** The code after the loop. *)
Definition finish (scanErr : option ScanError) (st : DrainState) : DrainState * option error :=
  let '(st, failed) := Flush st in
  if failed then (st, Some EFlushOutput)
  else
    match scanErr with
    | Some e => (st, Some (EReadStream e))
    | None =>
        if negb (d_streamHasError st) && negb (d_sidSaved st) then
          let st :=
            if negb (GoStrings.eqb (d_pendingSID st) "")
               && negb (GoStrings.eqb (d_pendingSID st) (SID (d_ctx st)))
            then set_ctx (set_SID (d_ctx st) (d_pendingSID st)) st
            else st in
          (saveContext st, None)
        else (st, None)
    end.

(** The deferred calls, in the order they run: the log file is
    closed if it was opened, then the sink is flushed. *)
Definition deferred (st : DrainState) : DrainState :=
  let st := if bool_decide (d_logFile st <> None) then emit EvLogClose st else st in
  (Flush st).1.

(** [StreamAndLog] on the lines the scanner delivers. *)
Definition StreamAndLog_lines (c : Context) (lines : list string)
           (scanErr : option ScanError) : Drained :=
  let '(st, err) :=
    match drain lines (initDrain c) with
    | Next st => finish scanErr st
    | Break st => finish None st
    | Return st e => (st, Some e)
    end in
  let st := deferred st in
  mkDrained (d_ctx st) (d_trace st) err.

(** [StreamAndLog(c, r, w)]; the scanner's buffer is capped at
    [MaxLineLength]. *)
Definition StreamAndLog (c : Context) (r : Reader) : Drained :=
  let '(lines, scanErr) := scanReader MaxLineLength r in
  StreamAndLog_lines c lines scanErr.

End Interpreter.

(* ===================================================================== *)
(** ** Exit status ([cmd/aimux/main.go]) *)
(* ===================================================================== *)

(** The status [handleError] exits with. *)
Definition handleError (err : error) : Z :=
  match err with
  | EBlocking blockErr => Code blockErr
  | _ => 1
  end.

(* ===================================================================== *)
(** ** A reference instance of the library functions *)
(* ===================================================================== *)

(** [RefLib] runs the definitions on concrete inputs.  It implements the
    part of each library function that the examples of this file use,
    and follows Go on that part:
    - the JSON decoder reads RFC 8259 texts (objects, arrays, strings
      with the simple escapes and [\uXXXX] outside the surrogate range,
      numbers, [true], [false], [null]); a later duplicate key replaces
      an earlier one; the top-level value of a map must be an object or
      [null]; invalid UTF-8 is not repaired and surrogate escapes are
      rejected;
    - the [Context] decoder matches the keys of the struct tags exactly;
    - [filepath_Join] joins the non-empty elements with a slash and does
      not clean the result (the examples pass clean elements);
    - [upper_first_rune] upper-cases an ASCII first letter;
    - [time_ParseDuration] reads a sequence of whole numbers with units
      ([h], [m], [s], [ms], [us], [ns]). *)
Module Ref.

Definition is_ws (c : ascii) : bool :=
  Ascii.eqb c " "%char || Ascii.eqb c "009"%char || Ascii.eqb c LF || Ascii.eqb c CR.

Fixpoint skip_ws (s : string) : string :=
  match s with
  | String c s' => if is_ws c then skip_ws s' else s
  | EmptyString => s
  end.

Definition code (c : ascii) : Z := Z.of_nat (nat_of_ascii c).
Definition chr (n : Z) : ascii := ascii_of_nat (Z.to_nat n).

Definition is_digit (c : ascii) : bool := (48 <=? code c) && (code c <=? 57).

Definition hex_val (c : ascii) : option Z :=
  let n := code c in
  if (48 <=? n) && (n <=? 57) then Some (n - 48)
  else if (97 <=? n) && (n <=? 102) then Some (n - 87)
  else if (65 <=? n) && (n <=? 70) then Some (n - 55)
  else None.

(** UTF-8 encoding of a code point of the basic plane. *)
Definition utf8 (n : Z) : string :=
  if n <? 128 then String (chr n) EmptyString
  else if n <? 2048 then
    String (chr (192 + Z.shiftr n 6)) (String (chr (128 + Z.land n 63)) EmptyString)
  else
    String (chr (224 + Z.shiftr n 12))
      (String (chr (128 + Z.land (Z.shiftr n 6) 63))
         (String (chr (128 + Z.land n 63)) EmptyString)).

(** The rest of a string literal after its opening quote. *)
Fixpoint parse_string (acc : string) (s : string) : option (string * string) :=
  match s with
  | EmptyString => None
  | String c rest =>
      if Ascii.eqb c "034"%char then Some (acc, rest)
      else if Ascii.eqb c "\"%char then
        match rest with
        | EmptyString => None
        | String e rest' =>
            let simple (x : ascii) := parse_string (acc +:+ String x EmptyString) rest' in
            if Ascii.eqb e "034"%char then simple "034"%char
            else if Ascii.eqb e "\"%char then simple "\"%char
            else if Ascii.eqb e "/"%char then simple "/"%char
            else if Ascii.eqb e "b"%char then simple "008"%char
            else if Ascii.eqb e "f"%char then simple "012"%char
            else if Ascii.eqb e "n"%char then simple LF
            else if Ascii.eqb e "r"%char then simple CR
            else if Ascii.eqb e "t"%char then simple "009"%char
            else if Ascii.eqb e "u"%char then
              match rest' with
              | String h1 (String h2 (String h3 (String h4 rest''))) =>
                  match hex_val h1, hex_val h2, hex_val h3, hex_val h4 with
                  | Some a, Some b, Some c', Some d =>
                      let n := ((a * 16 + b) * 16 + c') * 16 + d in
                      if (55296 <=? n) && (n <? 57344) then None
                      else parse_string (acc +:+ utf8 n) rest''
                  | _, _, _, _ => None
                  end
              | _ => None
              end
            else None
        end
      else if code c <? 32 then None
      else parse_string (acc +:+ String c EmptyString) rest
  end.

Fixpoint take_digits (acc : string) (s : string) : string * string :=
  match s with
  | String c s' => if is_digit c then take_digits (acc +:+ String c EmptyString) s' else (acc, s)
  | EmptyString => (acc, s)
  end.

(** The optional fraction of a number literal. *)
Definition parse_frac (s : string) : option (string * string) :=
  match s with
  | String c s' =>
      if Ascii.eqb c "."%char then
        let '(ds, r) := take_digits "" s' in
        if GoStrings.eqb ds "" then None else Some ("." +:+ ds, r)
      else Some ("", s)
  | EmptyString => Some ("", s)
  end.

(** The optional exponent of a number literal. *)
Definition parse_exp (s : string) : option (string * string) :=
  match s with
  | String c s' =>
      if Ascii.eqb c "e"%char || Ascii.eqb c "E"%char then
        let '(sg, s'') :=
          match s' with
          | String d r =>
              if Ascii.eqb d "+"%char || Ascii.eqb d "-"%char
              then (String d EmptyString, r) else ("", s')
          | EmptyString => ("", s')
          end in
        let '(ds, r) := take_digits "" s'' in
        if GoStrings.eqb ds "" then None
        else Some (String c EmptyString +:+ sg +:+ ds, r)
      else Some ("", s)
  | EmptyString => Some ("", s)
  end.

(** A number literal at the head of [s]. *)
Definition parse_number (s : string) : option (string * string) :=
  let '(sign, s1) :=
    match s with
    | String c s' => if Ascii.eqb c "-"%char then ("-", s') else ("", s)
    | EmptyString => ("", s)
    end in
  let '(int, s2) := take_digits "" s1 in
  if GoStrings.eqb int "" then None
  else if GoStrings.HasPrefix int "0" && negb (GoStrings.eqb int "0") then None
  else
    match parse_frac s2 with
    | None => None
    | Some (frac, s3) =>
        match parse_exp s3 with
        | None => None
        | Some (exp, s4) => Some (sign +:+ int +:+ frac +:+ exp, s4)
        end
    end.

(** A value at the head of [s] and what follows it. *)
Fixpoint parse_value (fuel : nat) (s : string) : option (JSON * string) :=
  match fuel with
  | O => None
  | S fuel' =>
      let s := skip_ws s in
      match s with
      | EmptyString => None
      | String c rest =>
          if Ascii.eqb c "{"%char then
            match skip_ws rest with
            | String c' rest' =>
                if Ascii.eqb c' "}"%char then Some (JObj ∅, rest')
                else parse_members fuel' ∅ (skip_ws rest)
            | EmptyString => None
            end
          else if Ascii.eqb c "["%char then
            match skip_ws rest with
            | String c' rest' =>
                if Ascii.eqb c' "]"%char then Some (JArr [], rest')
                else parse_elements fuel' [] rest
            | EmptyString => None
            end
          else if Ascii.eqb c "034"%char then
            match parse_string "" rest with
            | Some (str, rest') => Some (JStr str, rest')
            | None => None
            end
          else if GoStrings.HasPrefix s "true" then Some (JBool true, String.substring 4 (String.length s) s)
          else if GoStrings.HasPrefix s "false" then Some (JBool false, String.substring 5 (String.length s) s)
          else if GoStrings.HasPrefix s "null" then Some (JNull, String.substring 4 (String.length s) s)
          else
            match parse_number s with
            | Some (lit, rest') => Some (JNum lit, rest')
            | None => None
            end
      end
  end
with parse_members (fuel : nat) (acc : gmap string JSON) (s : string) : option (JSON * string) :=
  match fuel with
  | O => None
  | S fuel' =>
      match s with
      | String q rest =>
          if Ascii.eqb q "034"%char then
            match parse_string "" rest with
            | Some (key, rest1) =>
                match skip_ws rest1 with
                | String colon rest2 =>
                    if Ascii.eqb colon ":"%char then
                      match parse_value fuel' rest2 with
                      | Some (v, rest3) =>
                          let acc' := <[ key := v ]> acc in
                          match skip_ws rest3 with
                          | String d rest4 =>
                              if Ascii.eqb d ","%char then parse_members fuel' acc' (skip_ws rest4)
                              else if Ascii.eqb d "}"%char then Some (JObj acc', rest4)
                              else None
                          | EmptyString => None
                          end
                      | None => None
                      end
                    else None
                | EmptyString => None
                end
            | None => None
            end
          else None
      | EmptyString => None
      end
  end
with parse_elements (fuel : nat) (acc : list JSON) (s : string) : option (JSON * string) :=
  match fuel with
  | O => None
  | S fuel' =>
      match parse_value fuel' s with
      | Some (v, rest) =>
          match skip_ws rest with
          | String d rest' =>
              if Ascii.eqb d ","%char then parse_elements fuel' (acc ++ [v]) rest'
              else if Ascii.eqb d "]"%char then Some (JArr (acc ++ [v]), rest')
              else None
          | EmptyString => None
          end
      | None => None
      end
  end.

(** A whole text: one value, then only white space. *)
Definition decode (s : string) : option JSON :=
  match parse_value (2 * String.length s + 2) s with
  | Some (v, rest) => if GoStrings.eqb (skip_ws rest) "" then Some v else None
  | None => None
  end.

Definition Unmarshal_map (s : string) : option (gmap string JSON) :=
  match decode s with
  | Some (JObj m) => Some m
  | Some JNull => Some ∅
  | _ => None
  end.

(** Decimal integer literal. *)
Fixpoint digits_val (acc : Z) (s : string) : option Z :=
  match s with
  | EmptyString => Some acc
  | String c s' => if is_digit c then digits_val (acc * 10 + (code c - 48)) s' else None
  end.

Definition int_of_literal (lit : string) : option Z :=
  match lit with
  | String c s' =>
      if Ascii.eqb c "-"%char then
        if GoStrings.eqb s' "" then None else Z.opp <$> digits_val 0 s'
      else digits_val 0 lit
  | EmptyString => None
  end.

(** A field of a struct: absent or [null] leaves the zero value, a
    value of another type is an error. *)
Definition field_string (m : gmap string JSON) (k : string) : option string :=
  match m !! k with
  | None | Some JNull => Some ""
  | Some (JStr s) => Some s
  | Some _ => None
  end.

Definition field_bool (m : gmap string JSON) (k : string) : option bool :=
  match m !! k with
  | None | Some JNull => Some false
  | Some (JBool b) => Some b
  | Some _ => None
  end.

Definition field_int (m : gmap string JSON) (k : string) : option Z :=
  match m !! k with
  | None | Some JNull => Some 0
  | Some (JNum lit) =>
      match int_of_literal lit with
      | Some z => if (- 2^63 <=? z) && (z <? 2^63) then Some z else None
      | None => None
      end
  | Some _ => None
  end.

Definition string_entry (v : JSON) : option string :=
  match v with
  | JStr s => Some s
  | JNull => Some ""
  | _ => None
  end.

Definition field_env (m : gmap string JSON) (k : string) : option (gmap string string) :=
  match m !! k with
  | None | Some JNull => Some ∅
  | Some (JObj env) =>
      if forallb (fun kv : string * JSON => bool_decide (is_Some (string_entry kv.2)))
                 (map_to_list env)
      then Some (omap string_entry env) else None
  | Some _ => None
  end.

Definition Unmarshal_Context (s : string) : option Context :=
  match decode s with
  | Some JNull => Some (mkContext "" "" "" "" "" "" 0 false "" ∅)
  | Some (JObj m) =>
      match field_string m "cid", field_string m "sid", field_string m "top",
            field_string m "tag", field_string m "gen", field_string m "mod",
            field_int m "lvl", field_bool m "wtf", field_string m "dir", field_env m "env" with
      | Some cid, Some sid, Some top, Some tag, Some gen, Some md,
        Some lvl, Some wtf, Some dir, Some env =>
          Some (mkContext cid sid top tag gen md lvl wtf dir env)
      | _, _, _, _, _, _, _, _, _, _ => None
      end
  | _ => None
  end.

Fixpoint join_with (sep : string) (l : list string) : string :=
  match l with
  | [] => ""
  | [x] => x
  | x :: rest => x +:+ sep +:+ join_with sep rest
  end.

Definition Join (elems : list string) : string :=
  join_with "/" (List.filter (fun e => negb (GoStrings.eqb e "")) elems).

Definition upper_first (s : string) : string :=
  match s with
  | String c rest =>
      if (97 <=? code c) && (code c <=? 122) then String (chr (code c - 32)) rest else s
  | EmptyString => s
  end.

Definition unit_ns (u : string) : option Z :=
  if GoStrings.eqb u "ns" then Some 1
  else if GoStrings.eqb u "us" then Some 1000
  else if GoStrings.eqb u "ms" then Some 1000000
  else if GoStrings.eqb u "s" then Some 1000000000
  else if GoStrings.eqb u "m" then Some 60000000000
  else if GoStrings.eqb u "h" then Some 3600000000000
  else None.

Fixpoint take_letters (acc : string) (s : string) : string * string :=
  match s with
  | String c s' => if is_digit c then (acc, s) else take_letters (acc +:+ String c EmptyString) s'
  | EmptyString => (acc, s)
  end.

Fixpoint duration_go (fuel : nat) (acc : Z) (s : string) : option Z :=
  match fuel with
  | O => None
  | S fuel' =>
      if GoStrings.eqb s "" then Some acc
      else
        let '(ds, r) := take_digits "" s in
        let '(u, r') := take_letters "" r in
        match digits_val 0 ds, unit_ns u with
        | Some n, Some k => if GoStrings.eqb ds "" then None else duration_go fuel' (acc + n * k) r'
        | _, _ => None
        end
  end.

Definition ParseDuration (s : string) : option Z :=
  if GoStrings.eqb s "" then None else duration_go (String.length s) 0 s.

(** JSON texts are written in this file with an apostrophe in the
    place of every double quote. *)
Fixpoint json (s : string) : string :=
  match s with
  | EmptyString => EmptyString
  | String c s' => String (if Ascii.eqb c "'"%char then "034"%char else c) (json s')
  end.

End Ref.

Definition RefLib : GoLib := {|
  json_Unmarshal_map := Ref.Unmarshal_map;
  json_Unmarshal_Context := Ref.Unmarshal_Context;
  filepath_Join := Ref.Join;
  upper_first_rune := Ref.upper_first;
  time_ParseDuration := Ref.ParseDuration;
|}.



(* ===================================================================== *)
(** * Specifications and examples *)
(* ===================================================================== *)

(** The vocabulary of the properties, the decision procedures as the
    specification words them (names ending in [_spec]), and the
    concrete inputs on which the definitions are run. *)

(** *** Call-graph validator *)

(** The outcome of validation as the specification names it. *)
Inductive DenyCode :=
| SelfCall
| DepthExceeded
| TerminalRoleViolation
| UndifferentiatedToTerminalViolation.

Inductive Outcome :=
| Allowed
| Denied (code : DenyCode).

(** The status surfaced to a human-facing caller. *)
Definition exit_code (d : DenyCode) : Z :=
  match d with
  | SelfCall => 1
  | DepthExceeded => 3
  | TerminalRoleViolation => 4
  | UndifferentiatedToTerminalViolation => 5
  end.

(** The role component of a tag: what stands before the first role
    separator, when the tag holds one. *)
Fixpoint role_component (tag : string) : option string :=
  match tag with
  | EmptyString => None
  | String c rest =>
      if Ascii.eqb c "~"%char then Some EmptyString
      else String c <$> role_component rest
  end.

Definition terminal_role : string := "engineer".
Definition MaxDepth : Z := 3.

(** The decision table as the specification words it: rule 4 fires for
    every caller tag without a role component. *)
Definition validate_spec (c : Context) : Outcome :=
  if bool_decide (MaxDepth <= LVL c) then Denied DepthExceeded
  else if bool_decide (TAG c <> "" /\ TAG c = TOP c) then Denied SelfCall
  else if bool_decide (role_component (TOP c) = Some terminal_role)
       then Denied TerminalRoleViolation
  else if bool_decide (role_component (TOP c) = None /\ MOD c = terminal_role)
       then Denied UndifferentiatedToTerminalViolation
  else Allowed.

(** The same table with rule 4 restricted to a caller that exists
    (a non-empty caller tag). *)
Definition validate_table (c : Context) : Outcome :=
  if bool_decide (MaxDepth <= LVL c) then Denied DepthExceeded
  else if bool_decide (TAG c <> "" /\ TAG c = TOP c) then Denied SelfCall
  else if bool_decide (role_component (TOP c) = Some terminal_role)
       then Denied TerminalRoleViolation
  else if bool_decide (TOP c <> "" /\ role_component (TOP c) = None /\ MOD c = terminal_role)
       then Denied UndifferentiatedToTerminalViolation
  else Allowed.

(** The exit status a validation result leads to, [None] when the call
    goes on. *)
Definition validation_exit (r : option BlockingError) : option Z :=
  (fun b => handleError (EBlocking b)) <$> r.

Definition outcome_exit (o : Outcome) : option Z :=
  match o with
  | Allowed => None
  | Denied d => Some (exit_code d)
  end.

(** A person at the terminal asks the engineer persona directly. *)
Definition ctx_user_to_engineer : Context :=
  mkContext "11111111-1111-4111-8111-111111111111" "11111111-1111-4111-8111-111111111111"
            "" "engineer~claude" "claude" "engineer" 0 false
            "/home/u/.aimux/conversations/11111111-1111-4111-8111-111111111111/claude/engineer" ∅.

(** *** Examples for the session identity resolver *)

Definition cid1 : ID := "11111111-1111-4111-8111-111111111111".
Definition sid2 : ID := "22222222-2222-4222-8222-222222222222".
Definition sid3 : ID := "33333333-3333-4333-8333-333333333333".

(** A genus in the style of the embedded configuration. *)
Definition claudeGenus : GenusConfig :=
  mkGenusConfig "claude" ["claude"] []
    (mkGenusArgs ["--model"; "{{model}}"]
                 ["--resume"; "{{sid}}"]
                 ["--resume"; "{{sid}}"; "--fork-session"]
                 ["--session-id"; "{{sid}}"]
                 (PromptList ["--append-system-prompt"; "{{prompt}}"])
                 ["--print"; "--verbose"; "--output-format=stream-json"]
                 ["--dangerously-skip-permissions"])
    {[ "architect" := {[ "model" := "opus" ]} ]}.

Definition config0 : Config := mkConfig ∅ {[ "claude" := claudeGenus ]}.

(** A world in which no system call fails, over a given file system. *)
Definition world_of (fs : gmap string Node) : World :=
  mkWorld (Some "/home/u") fs (Ok config0) (fun _ => "PARTNER PROTOCOL") [] "linux"
          (fun _ => false) (fun _ => false) (fun _ => false).

(** The architect persona of conversation [cid1], as [ResumeContext]
    builds it before it resolves the session. *)
Definition ctx_architect : Context :=
  mkContext cid1 cid1 "" "architect~claude" "claude" "architect" 0 false
            "/home/u/.aimux/conversations/11111111-1111-4111-8111-111111111111/claude/architect" ∅.

Definition log2_architect : string :=
  "/home/u/.aimux/conversations/11111111-1111-4111-8111-111111111111/claude/architect/log.jsonl".

Definition log1_claude : string :=
  "/home/u/.aimux/conversations/11111111-1111-4111-8111-111111111111/claude/log.jsonl".

(** The persona log holds one record, written for the user's prompt
    under session [sid2]; there is no snapshot. *)
Definition fs_user_only : gmap string Node :=
  {[ log2_architect :=
       NFile (Ref.json "{'session_id':'22222222-2222-4222-8222-222222222222','at':'2025-01-01T00:00:00Z','from':'user','body':'hello'}" +:+ nl) ]}.

(** The same log after an answer was recorded under session [sid3]. *)
Definition fs_answered : gmap string Node :=
  {[ log2_architect :=
       NFile (Ref.json "{'session_id':'22222222-2222-4222-8222-222222222222','at':'2025-01-01T00:00:00Z','from':'user','body':'hello'}" +:+ nl +:+
              Ref.json "{'session_id':'33333333-3333-4333-8333-333333333333','at':'2025-01-01T00:00:01Z','from':'assistant','body':'hi'}" +:+ nl) ]}.

Section ResolverSpec.
Context {lib : GoLib}.
Variable w : World.

(** The resolver as the specification words it: a log counts when it
    has a record whose origin is not the user. *)
Definition DetermineSessionID_spec (c : Context) : Result ID :=
  match savedSID w c with
  | Some sid => Ok sid
  | None =>
      match Log2 w c, Log1 w c with
      | Ok log2, Ok log1 =>
          if hasEstablishedSession w log2 then lastSessionID w log2
          else if bool_decide (MOD c = "") && hasEstablishedSession w log1
               then lastSessionID w log1
          else Ok (CID c)
      | Err e, _ => Err e
      | _, Err e => Err e
      end
  end.

End ResolverSpec.

(** *** Examples for the session flags *)

(** The persona log exists and is empty. *)
Definition fs_empty_log2 : gmap string Node := {[ log2_architect := NFile "" ]}.

(** The architect persona after a branch: the session differs from the
    conversation. *)
Definition ctx_branched : Context := set_SID ctx_architect sid2.

(** Sixteen bytes of entropy. *)
Definition block1 : list Z := [1; 2; 3; 4; 5; 6; 255; 8; 255; 10; 11; 12; 13; 14; 15; 255].

(** [c'] differs from [c] at most in [SID]. *)
Definition only_SID (c c' : Context) : Prop := c' = set_SID c (SID c').

(** [c'] differs from [c] at most in [SID] and [ENV]. *)
Definition only_SID_ENV (c c' : Context) : Prop := c' = set_ENV (set_SID c (SID c')) (ENV c').

(** *** Vocabulary for the streaming interpreter *)

(** The state an iteration ends in. *)
Definition step_state (s : Step) : DrainState :=
  match s with
  | Next st | Break st | Return st _ => st
  end.

(** A reader that delivers [data] and then reports the end of the
    stream. *)
Definition reader_of (data : string) : Reader := mkReader data None.

(** The entry of a record is a non-empty string [m]. *)
Definition holds_text (v : option JSON) (m : string) : Prop := v = Some (JStr m) /\ m <> "".

(** The entry of a record is absent, not a string, or the empty string. *)
Definition no_text (v : option JSON) : Prop := forall m, v = Some (JStr m) -> m = "".

(** The entry [message] of the object a record holds under [error]. *)
Definition nested_error_message (data : gmap string JSON) : option JSON :=
  match data !! "error" with
  | Some (JObj err) => err !! "message"
  | _ => None
  end.

(** *** Examples for the streaming interpreter *)

(** A record typed "error". *)
Definition error_line : string := Ref.json "{'type':'error','message':'boom'}".

Definition error_data : gmap string JSON :=
  <[ "type" := JStr "error" ]> (<[ "message" := JStr "boom" ]> ∅).

(** The record typed "error", then an assistant record under the
    session [sid2]. *)
Definition error_then_assistant : string :=
  error_line +:+ nl +:+
  Ref.json "{'type':'assistant','session_id':'22222222-2222-4222-8222-222222222222','message':{'content':[{'text':'hi'}]}}" +:+ nl.

(** A world with an empty file system in which no system call fails. *)
Definition world0 : World := world_of ∅.

(** Two assistant records, the second under another session. *)
Definition two_sid_stream : string :=
  Ref.json "{'type':'assistant','session_id':'22222222-2222-4222-8222-222222222222','message':{'content':[{'text':'hi'}]}}" +:+ nl +:+
  Ref.json "{'type':'assistant','session_id':'33333333-3333-4333-8333-333333333333','message':{'content':[{'text':'ho'}]}}" +:+ nl.

(** [n] copies of a line, each ended by a newline. *)
Fixpoint repeat_line (n : nat) (line : string) : string :=
  match n with
  | O => ""
  | S k => line +:+ nl +:+ repeat_line k line
  end.

(** What handling [n] copies of a non-empty plain-text line adds to the
    trace. *)
Fixpoint text_events (c : Context) (line : string) (n : nat) : list Event :=
  match n with
  | O => []
  | S k =>
      [EvSinkWrite (line +:+ nl); EvSinkFlush;
       EvLogWrite (LogMessage (mkMessage (SID c) "assistant" line))]
      ++ text_events c line k
  end.

(** The storage operations of a trace: directory creation, snapshot
    writes, log-file opening. *)
Definition storage_events (tr : list Event) : list Event :=
  List.filter is_storage_event tr.

(** *** Examples for the subprocess stream *)

(** A child that starts, and exits cleanly once its output is closed. *)
Definition child_ok : Child := mkChild false false true false.

(** A prepared stream. *)
Definition prepared0 : LazyCommandStream :=
  mkLazy (mkCommand "claude" ["--print"] [] None true) 1800000000000 false None None false.

(** [Close] called twice: the two results and the states in between. *)
Definition close_twice (goos : string) (child : Child) (l : LazyCommandStream)
  : (LazyCommandStream * option error * list LifeEvent)
    * (LazyCommandStream * option error * list LifeEvent) :=
  let r1 := LazyCommandStream_Close goos child l in
  (r1, LazyCommandStream_Close goos child r1.1.1).

(** The stream after a first [Read]. *)
Definition started (child : Child) (l : LazyCommandStream) : LazyCommandStream :=
  (LazyCommandStream_Read child l).1.1.

(** A value a byte can hold. *)
Definition is_byte (b : Z) : Prop := 0 <= b < 256.

(** *** Examples for the subprocess preparation *)

(** The architect persona with a timeout of 90 seconds requested. *)
Definition ctx_timeout : Context := set_ENV ctx_architect {[ "AITIMEOUT" := "90s" ]}.

(** The stream a successful call prepared. *)
Definition stream_of (r : Context * Entropy * Result LazyCommandStream) : LazyCommandStream :=
  match r.2 with
  | Ok l => l
  | Err _ => prepared0
  end.

Definition call_with_timeout : Context * Entropy * Result LazyCommandStream :=
  CallGenus (lib := RefLib) world0 [] ctx_timeout "hello" None.

(** *** Vocabulary for plain streams *)

(** The lines of a stream as they are echoed: each followed by a
    newline. *)
Definition echo (lines : list string) : string :=
  fold_right (fun line acc => line +:+ nl +:+ acc) "" lines.

(** The bytes counted for a list of lines: their lengths without the
    newlines. *)
Definition total_len (lines : list string) : Z :=
  fold_right (fun line acc => Z.of_nat (String.length line) + acc) 0 lines.

(** The first non-empty line of a stream, the one the format is
    detected on. *)
Definition first_nonempty (lines : list string) : string :=
  hd "" (List.filter (fun line => negb (GoStrings.eqb line "")) lines).

(** The records a stream of format [f] leaves in the log: one assistant
    message per non-empty line for plain text, nothing for a format the
    interpreter does not know. *)
Definition plain_log (f : string) (sid : ID) (lines : list string) : list LogData :=
  if GoStrings.eqb f "text" then
    map (fun line => LogMessage (mkMessage sid "assistant" line))
        (List.filter (fun line => negb (GoStrings.eqb line "")) lines)
  else [].

(** *** Examples for plain streams *)

(** Two lines of prose with a blank line between them. *)
Definition prose_stream : string := "hello" +:+ nl +:+ nl +:+ "world" +:+ nl.

(** A stream that opens with a tag. *)
Definition markup_stream : string := "<answer>" +:+ nl +:+ "42" +:+ nl +:+ "</answer>" +:+ nl.

Definition log3_architect : string := log2_architect.

(* ===================================================================== *)
(** ** Further library functions *)
(* ===================================================================== *)

(** The functions of this part are called by the construction of
    contexts, the configuration loader, the prompt analysis and the
    command line.  Where Go's function has a fast path for ASCII input
    and a Unicode path, the fast path is written out and the Unicode
    path is a method of the class [GoUnicode]; the regular-expression
    engine is the class [GoRegexp] and the decoders of [Message] and
    [Config] are the class [GoDecode]. *)

(** The value of a byte. *)
Definition byte_val (c : ascii) : Z := Z.of_nat (nat_of_ascii c).

(** [utf8.RuneSelf]: the bytes below it are the ASCII characters. *)
Definition RuneSelf : Z := 128.

Fixpoint isASCII (s : string) : bool :=
  match s with
  | EmptyString => true
  | String c s' => if RuneSelf <=? byte_val c then false else isASCII s'
  end.

(** The decoded form of a configuration file: a map that the text does
    not mention stays [nil]. *)
Record RawConfig := mkRawConfig {
  rawPersonas : option (gmap string PersonaConfig);
  rawGenera : option (gmap string GenusConfig);
}.

Class GoUnicode := {
  (** [strings.Map(unicode.ToLower, s)], the path of [strings.ToLower]
      for a string with a byte above 127 *)
  unicode_ToLower : string -> string;
  (** [strings.TrimFunc(s, unicode.IsSpace)] *)
  unicode_TrimFunc_IsSpace : string -> string;
  (** [strings.TrimRightFunc(s, unicode.IsSpace)] *)
  unicode_TrimRightFunc_IsSpace : string -> string;
  (** [strings.FieldsFunc(s, unicode.IsSpace)] *)
  unicode_FieldsFunc_IsSpace : string -> list string;
}.

Class GoRegexp := {
  (** [regexp.Compile(pattern)] followed by [re.FindStringSubmatch(text)]:
      [None] when the pattern does not compile, the empty list for
      [nil] (no match) *)
  regexp_FindStringSubmatch : string -> string -> option (list string);
}.

Class GoDecode := {
  (** [json.Unmarshal(data, &msg)] with [msg Message] *)
  json_Unmarshal_Message : string -> option Message;
  (** [json.Unmarshal(data, &cfg)] with [cfg Config] *)
  json_Unmarshal_Config : string -> option RawConfig;
}.

(** [asciiSpace] of package [strings]: tab, newline, vertical tab, form
    feed, carriage return, space. *)
Definition asciiSpace (c : ascii) : bool :=
  ((9 <=? byte_val c) && (byte_val c <=? 13)) || (byte_val c =? 32).

(** The lower-case form of an ASCII byte. *)
Definition lower_byte (c : ascii) : ascii :=
  if (65 <=? byte_val c) && (byte_val c <=? 90)
  then ascii_of_nat (Z.to_nat (byte_val c + 32)) else c.

Fixpoint map_bytes (f : ascii -> ascii) (s : string) : string :=
  match s with
  | EmptyString => EmptyString
  | String c s' => String (f c) (map_bytes f s')
  end.

(** The first loop of [strings.TrimSpace]: what is left once the
    leading ASCII white space is dropped, and whether the loop ran into
    a byte above 127. *)
Fixpoint trim_ascii (s : string) : string * bool :=
  match s with
  | EmptyString => (s, false)
  | String c s' =>
      if RuneSelf <=? byte_val c then (s, true)
      else if asciiSpace c then trim_ascii s'
      else (s, false)
  end.

(** [strings.Count(s, substr)] for a non-empty [substr]: the number of
    non-overlapping occurrences, counted from the left. *)
Fixpoint count_go (sub : string) (skip : nat) (s : string) : Z :=
  match s with
  | EmptyString => 0
  | String c s' =>
      match skip with
      | S k => count_go sub k s'
      | O =>
          if GoStrings.HasPrefix s sub
          then 1 + count_go sub (Nat.pred (String.length sub)) s'
          else count_go sub O s'
      end
  end.

Definition strings_Count (s substr : string) : Z := count_go substr O s.

(** [strings.Join(elems, sep)] *)
Fixpoint strings_Join (elems : list string) (sep : string) : string :=
  match elems with
  | [] => ""
  | [x] => x
  | x :: rest => x +:+ sep +:+ strings_Join rest sep
  end.

(** The fields of an ASCII string: the maximal runs of bytes that are
    not white space.  [cur] is the field being read. *)
Fixpoint fields_go (cur : string) (s : string) : list string :=
  match s with
  | EmptyString => if GoStrings.eqb cur "" then [] else [cur]
  | String c s' =>
      if asciiSpace c then
        if GoStrings.eqb cur "" then fields_go "" s' else cur :: fields_go "" s'
      else fields_go (cur +:+ String c EmptyString) s'
  end.

(** [strconv.Atoi(s)]: an optional sign and at least one decimal digit,
    the value within the 64-bit range; [None] is an error. *)
Fixpoint atoi_digits (acc : Z) (s : string) : option Z :=
  match s with
  | EmptyString => Some acc
  | String c s' =>
      if (48 <=? byte_val c) && (byte_val c <=? 57)
      then atoi_digits (acc * 10 + (byte_val c - 48)) s'
      else None
  end.

Definition strconv_Atoi (s : string) : option Z :=
  let '(neg, digits) :=
    match s with
    | String c s' =>
        if Ascii.eqb c "-"%char then (true, s')
        else if Ascii.eqb c "+"%char then (false, s')
        else (false, s)
    | EmptyString => (false, s)
    end in
  if GoStrings.eqb digits "" then None
  else
    match atoi_digits 0 digits with
    | None => None
    | Some n =>
        let v := if neg then - n else n in
        if (- 2^63 <=? v) && (v <? 2^63) then Some v else None
    end.

(** [os.Getenv(key)] for a non-empty key, on a Unix system: the value
    of the first entry of the environment that has this key, the empty
    string when there is none. *)
Fixpoint getenv_go (environ : list string) (key : string) : string :=
  match environ with
  | [] => ""
  | entry :: rest =>
      if GoStrings.HasPrefix entry (key +:+ "=")
      then String.substring (String.length key + 1) (String.length entry) entry
      else getenv_go rest key
  end.

Definition os_Getenv (w : World) (key : string) : string := getenv_go (w_environ w) key.

Section Text.
Context {uni : GoUnicode}.

(** [strings.ToLower] *)
Definition strings_ToLower (s : string) : string :=
  if isASCII s then map_bytes lower_byte s else unicode_ToLower s.

(** [strings.TrimSpace]: the second loop runs from the end over what
    the first one left. *)
Definition strings_TrimSpace (s : string) : string :=
  let '(s1, nonASCII) := trim_ascii s in
  if nonASCII then unicode_TrimFunc_IsSpace s1
  else
    let '(r, nonASCII) := trim_ascii (String.rev s1) in
    if nonASCII then unicode_TrimRightFunc_IsSpace (String.rev r)
    else String.rev r.

(** [strings.Fields] *)
Definition strings_Fields (s : string) : list string :=
  if isASCII s then fields_go "" s else unicode_FieldsFunc_IsSpace s.

End Text.

(* ===================================================================== *)
(** ** Parameters of a context ([util.go]) *)
(* ===================================================================== *)

(** The errors of the functions that build a context. *)
Inductive SetupError :=
| EInvalidCid                        (* invalid cid: must be UUID format *)
| EInvalidGen                        (* invalid gen: must be alphanumeric/dash/dot/underscore *)
| EInvalidMod                        (* invalid mod: must be alphanumeric/dash/dot/underscore *)
| ENoConversation                    (* conversation does not exist *)
| ECreateBranchDirectory (dir : string) (* create branch directory *)
| EWriteFile (path : string)         (* os.WriteFile *)
| EPackage (e : error).              (* an error of the functions above, passed on *)

Inductive SetupResult (A : Type) :=
| Done (a : A)
| Fail (e : SetupError).
Arguments Done {A} a.
Arguments Fail {A} e.

Definition is_identifier_char (c : ascii) : bool :=
  let r := byte_val c in
  ((48 <=? r) && (r <=? 57)) || ((65 <=? r) && (r <=? 90)) || ((97 <=? r) && (r <=? 122))
  || Ascii.eqb c "-"%char || Ascii.eqb c "."%char || Ascii.eqb c "_"%char.

(** The loop of [isValidIdentifier].  As in [isValidUUID] the source
    ranges over runes; a byte above 127 belongs to a rune outside the
    accepted set. *)
Fixpoint isValidIdentifier_go (s : string) : bool :=
  match s with
  | EmptyString => true
  | String c s' => if negb (is_identifier_char c) then false else isValidIdentifier_go s'
  end.

Definition isValidIdentifier (s : string) : bool :=
  if Nat.eqb (String.length s) 0 || (64 <? Z.of_nat (String.length s)) then false
  else isValidIdentifier_go s.

(** [ValidateContextParams]: [None] is the [nil] error. *)
Definition ValidateContextParams (cid gen md : string) : option SetupError :=
  if negb (GoStrings.eqb cid "") && negb (isValidUUID cid) then Some EInvalidCid
  else if negb (isValidIdentifier gen) then Some EInvalidGen
  else if negb (GoStrings.eqb md "") && negb (isValidIdentifier md) then Some EInvalidMod
  else None.

Definition set_TOP (c : Context) (top : string) : Context :=
  mkContext (CID c) (SID c) top (TAG c) (GEN c) (MOD c) (LVL c) (WTF c) (DIR c) (ENV c).

Definition set_TAG (c : Context) (tag : string) : Context :=
  mkContext (CID c) (SID c) (TOP c) tag (GEN c) (MOD c) (LVL c) (WTF c) (DIR c) (ENV c).

Definition set_WTF (c : Context) (wtf : bool) : Context :=
  mkContext (CID c) (SID c) (TOP c) (TAG c) (GEN c) (MOD c) (LVL c) wtf (DIR c) (ENV c).

Definition set_DIR (c : Context) (dir : string) : Context :=
  mkContext (CID c) (SID c) (TOP c) (TAG c) (GEN c) (MOD c) (LVL c) (WTF c) dir (ENV c).

(** [truncate] *)
Definition truncate (s : string) (maxLen : Z) : string :=
  if maxLen <=? 0 then ""
  else if Z.of_nat (String.length s) <=? maxLen then s
  else if maxLen <=? 3 then "..."
  else String.substring 0 (Z.to_nat (maxLen - 3)) s +:+ "...".

Section Setup.
Context {lib : GoLib} {uni : GoUnicode}.
Variable w : World.

(** [NormalizeUUID] *)
Definition NormalizeUUID (s : string) : string := strings_ToLower s.

(* =================================================================== *)
(** ** Construction of a context ([flow.go]) *)
(* =================================================================== *)

(** [InitContext]: the result and the entropy left.  It performs no
    operation on the file system. *)
Definition InitContext (rnd : Entropy) (gen model : string)
  : SetupResult Context * Entropy :=
  match ValidateContextParams "" gen model with
  | Some e => (Fail e, rnd)
  | None =>
      match NewID rnd with
      | (Err e, rnd') => (Fail (EPackage e), rnd')
      | (Ok cid, rnd') =>
          let ctx := mkContext cid cid "" "" gen model 0 false "" ∅ in
          let ctx :=
            if negb (GoStrings.eqb (os_Getenv w "AITAG") "")
            then set_TOP ctx (os_Getenv w "AITAG") else ctx in
          let ctx :=
            if negb (GoStrings.eqb (os_Getenv w "AILVL") "") then
              match strconv_Atoi (os_Getenv w "AILVL") with
              | Some lvl => set_LVL ctx lvl
              | None => ctx
              end
            else ctx in
          let ctx := set_TAG ctx (Tag3 ctx) in
          match Dir2 w ctx with
          | Err e => (Fail (EPackage e), rnd')
          | Ok dir => (Done (set_DIR ctx dir), rnd')
          end
      end
  end.

(** [ResumeContext].  [stat_not_exist] says for which paths the error
    of a failing [os.Stat] satisfies [os.IsNotExist]: the conversation
    is refused only then, and after another failure of [os.Stat] the
    code goes on to read the snapshot.  The decoder leaves [saved.ENV]
    [nil] when the snapshot has no environment, and the context then
    keeps its fresh empty map: in both cases the environment of the
    result holds what the snapshot holds. *)
Definition ResumeContext (stat_not_exist : string -> bool) (cid : ID) (gen model : string)
  : SetupResult Context :=
  match ValidateContextParams cid gen model with
  | Some e => Fail e
  | None =>
      let ctx := mkContext cid cid "" "" gen model 0 false "" ∅ in
      let ctx :=
        if negb (GoStrings.eqb (os_Getenv w "AITAG") "")
        then set_TOP ctx (os_Getenv w "AITAG") else ctx in
      let ctx :=
        if negb (GoStrings.eqb (os_Getenv w "AILVL") "") then
          match strconv_Atoi (os_Getenv w "AILVL") with
          | Some lvl => set_LVL ctx lvl
          | None => ctx
          end
        else ctx in
      let ctx := set_TAG ctx (Tag3 ctx) in
      match Dir2 w ctx with
      | Err e => Fail (EPackage e)
      | Ok dir =>
          let ctx := set_DIR ctx dir in
          match DetermineSessionID w ctx with
          | (_, Err e) => Fail (EPackage e)
          | (ctx, Ok sid) =>
              let ctx := set_SID ctx sid in
              let ctxPath := filepath_Join [DIR ctx; contextFileName] in
              if negb (fileExists w ctxPath) && stat_not_exist ctxPath
              then Fail ENoConversation
              else
                match ReadFile w ctxPath with
                | Some data =>
                    match json_Unmarshal_Context data with
                    | Some saved => Done (set_WTF (set_ENV ctx (ENV saved)) (WTF saved))
                    | None => Done ctx
                    end
                | None => Done ctx
                end
          end
      end
  end.

(** [Branch]: the context as the call leaves it, the entropy left, the
    operations on the file system and the error.  [writefile_fails] says
    for which paths [os.WriteFile] returns an error. *)
Definition Branch (writefile_fails : string -> bool) (rnd : Entropy) (ctx : Context)
  : Context * Entropy * list Event * option SetupError :=
  match NewID rnd with
  | (Err e, rnd') => (ctx, rnd', [], Some (EPackage e))
  | (Ok newSID, rnd') =>
      let ctx := set_LVL (set_SID ctx newSID) 0 in
      match Dir2 w ctx with
      | Err e => (ctx, rnd', [], Some (EPackage e))
      | Ok dir =>
          let ctx := set_DIR ctx dir in
          if w_mkdir_fails w (DIR ctx)
          then (ctx, rnd', [EvMkdirAll (DIR ctx)], Some (ECreateBranchDirectory (DIR ctx)))
          else
            let path := filepath_Join [DIR ctx; contextFileName] in
            if writefile_fails path
            then (ctx, rnd', [EvMkdirAll (DIR ctx); EvSaveContext ctx], Some (EWriteFile path))
            else (ctx, rnd', [EvMkdirAll (DIR ctx); EvSaveContext ctx], None)
      end
  end.

End Setup.

(** *** Examples for the construction of a context *)

(** The engineer persona of conversation [cid1]. *)
Definition ctx_engineer : Context :=
  mkContext cid1 cid1 "" "engineer~claude" "claude" "engineer" 0 false
            "/home/u/.aimux/conversations/11111111-1111-4111-8111-111111111111/claude/engineer" ∅.

(** The architect persona as a process started by the engineer builds
    it: the caller tag is the engineer's tag, the depth is 1. *)
Definition ctx_architect_from_engineer : Context :=
  set_LVL (set_TOP ctx_architect "engineer~claude") 1.

(* ===================================================================== *)
(** ** Referenced conversations ([flow.go]) *)
(* ===================================================================== *)

(** The errors of [loadMessagesFromLog]. *)
Inductive LogError :=
| EOpenLog (path : string)           (* open log *)
| EScanLog (e : ScanError).          (* scan log *)

Inductive LogResult :=
| Messages (messages : list Message)
| LogFailed (e : LogError).

(** The errors of [LoadReferencedContext]; [ENoLogs] carries the last
    error of the search, [None] when there was none. *)
Inductive RefError :=
| ERefEmpty                          (* refCID cannot be empty *)
| EGetHomeDir                        (* get home dir *)
| ENoLogs (lastErr : option LogError). (* no logs found for CID *)

Inductive RefResult :=
| RefMessages (messages : list Message)
| RefFailed (e : RefError).

Section Referenced.
Context {lib : GoLib} {uni : GoUnicode} {dec : GoDecode}.
Variable w : World.

(** The loop of [loadMessagesFromLog]: blank lines and lines that do
    not decode are skipped. *)
Fixpoint loadMessages_go (lines : list string) (messages : list Message) : list Message :=
  match lines with
  | [] => messages
  | line :: rest =>
      if GoStrings.eqb (strings_TrimSpace line) "" then loadMessages_go rest messages
      else
        match json_Unmarshal_Message line with
        | None => loadMessages_go rest messages
        | Some msg => loadMessages_go rest (messages ++ [msg])
        end
  end.

(** [loadMessagesFromLog].  The slice it returns without an error is
    [nil] exactly when it holds no message. *)
Definition loadMessagesFromLog (logPath : string) : LogResult :=
  match scanFile w logPath with
  | None => LogFailed (EOpenLog logPath)
  | Some (lines, scanErr) =>
      let messages := loadMessages_go lines [] in
      match scanErr with
      | Some e => LogFailed (EScanLog e)
      | None => Messages messages
      end
  end.

(** The search loop of [LoadReferencedContext]: it stops at the first
    log that is read without an error. *)
Fixpoint loadFirst (logPaths : list string) (lastErr : option LogError)
  : list Message * option LogError :=
  match logPaths with
  | [] => ([], lastErr)
  | logPath :: rest =>
      match loadMessagesFromLog logPath with
      | Messages messages => (messages, lastErr)
      | LogFailed err => loadFirst rest (Some err)
      end
  end.

(** [LoadReferencedContext] *)
Definition LoadReferencedContext (refCID : ID) (maxMessages : Z) : RefResult :=
  if GoStrings.eqb refCID "" then RefFailed ERefEmpty
  else
    let maxMessages := if maxMessages <=? 0 then 20 else maxMessages in
    match w_home w with
    | None => RefFailed EGetHomeDir
    | Some homeDir =>
        let conversationDir :=
          filepath_Join [homeDir; ".aimux"; "conversations"; refCID; "claude"] in
        let logPaths :=
          [ filepath_Join [conversationDir; "log.jsonl"];
            filepath_Join [conversationDir; "architect"; "log.jsonl"];
            filepath_Join [conversationDir; "engineer"; "log.jsonl"] ] in
        let '(messages, lastErr) := loadFirst logPaths None in
        if bool_decide (messages = []) then RefFailed (ENoLogs lastErr)
        else if maxMessages <? Z.of_nat (length messages)
        then RefMessages (skipn (Z.to_nat (Z.of_nat (length messages) - maxMessages)) messages)
        else RefMessages messages
    end.

End Referenced.

(* ===================================================================== *)
(** ** Analysis of the prompt ([flow.go]) *)
(* ===================================================================== *)

Definition TAB : ascii := "009"%char.

Section Prompt.
Context {uni : GoUnicode} {re : GoRegexp}.

(** The loop of [stripCodeBlocks]. *)
Fixpoint stripCodeBlocks_go (inFencedBlock : bool) (lines : list string) : list string :=
  match lines with
  | [] => []
  | line :: rest =>
      if GoStrings.HasPrefix (strings_TrimSpace line) "```"
      then stripCodeBlocks_go (negb inFencedBlock) rest
      else if inFencedBlock || GoStrings.HasPrefix line "    "
                || GoStrings.HasPrefix line (String TAB EmptyString)
      then stripCodeBlocks_go inFencedBlock rest
      else line :: stripCodeBlocks_go inFencedBlock rest
  end.

(** [stripCodeBlocks] *)
Definition stripCodeBlocks (text : string) : string :=
  strings_Join (stripCodeBlocks_go false (GoStrings.Split text nl)) nl.

(** [hasKeywords] *)
Definition hasKeywords (text : string) (keywords : list string) : bool :=
  let lowerText := strings_ToLower text in
  existsb (fun kw => GoStrings.Contains lowerText (strings_ToLower kw)) keywords.

(** [regexpFindString] *)
Definition regexpFindString (pattern text : string) : string :=
  match regexp_FindStringSubmatch pattern text with
  | None => ""
  | Some matches => if 1 <? Z.of_nat (length matches) then index_or_empty matches 1 else ""
  end.

(** The first non-empty result of a list of patterns, as the loops of
    [extractCIDReference] and [extractGoal] look for it. *)
Fixpoint firstMatch (patterns : list string) (text : string) : string :=
  match patterns with
  | [] => ""
  | pattern :: rest =>
      if negb (GoStrings.eqb (regexpFindString pattern text) "")
      then regexpFindString pattern text
      else firstMatch rest text
  end.

(** [extractCIDReference] *)
Definition extractCIDReference (text : string) : string :=
  firstMatch
    [ "(?i)from\s+CID[:\s]+([0-9a-f]{8}-[0-9a-f]{4}-[0-9a-f]{4}-[0-9a-f]{4}-[0-9a-f]{12})";
      "(?i)CID[:\s]+([0-9a-f]{8}-[0-9a-f]{4}-[0-9a-f]{4}-[0-9a-f]{4}-[0-9a-f]{12})";
      "(?i)\[CID[:\s]+([0-9a-f]{8}-[0-9a-f]{4}-[0-9a-f]{4}-[0-9a-f]{4}-[0-9a-f]{12})\]";
      "(?i)from\s+CID[:\s]+([-0-9a-z]+)";
      "(?i)CID[:\s]+([-0-9a-z]+)";
      "(?i)\[CID[:\s]+([-0-9a-z]+)\]" ]
    text.

(** [extractGoal]: the first match is trimmed and cut to 100 bytes. *)
Definition extractGoal (text : string) : string :=
  let found :=
    firstMatch
      [ "(?i)goal:\s*(.+?)(?:\n|$)";
        "(?i)(?:I|we)\s+want\s+to\s+(.+?)(?:\n|$)";
        "(?i)(?:let'?s|lets)\s+(.+?)(?:\n|$)";
        "(?i)objective:\s*(.+?)(?:\n|$)" ]
      text in
  if negb (GoStrings.eqb found "") then
    let found := strings_TrimSpace found in
    if 100 <? Z.of_nat (String.length found)
    then String.substring 0 97 found +:+ "..."
    else found
  else "".

(** The number of pairs of [**] in the prompt. *)
Definition boldCount (prompt : string) : Z := Z.quot (strings_Count prompt "**") 2.

(** The asterisks the bold pairs do not account for, before the guard
    against a negative number. *)
Definition remainingAsterisks (prompt : string) : Z :=
  strings_Count prompt "*" - boldCount prompt * 4.

Definition italicCount (prompt : string) : Z :=
  Z.quot (if remainingAsterisks prompt <? 0 then 0 else remainingAsterisks prompt) 2.

(** [InferFlowHints] *)
Definition InferFlowHints (prompt : string) : gmap string string :=
  let hints : gmap string string := ∅ in
  let cleanPrompt := stripCodeBlocks prompt in
  let lowerPrompt := strings_ToLower cleanPrompt in
  let questionCount := strings_Count cleanPrompt "?" in
  let hints :=
    if 3 <=? questionCount then <[ "PHASE_HINT" := "explore" ]> hints
    else if hasKeywords lowerPrompt ["review"; "critique"; "evaluate"]
    then <[ "PHASE_HINT" := "review" ]> hints
    else if hasKeywords lowerPrompt ["test"; "verify"; "check"; "validate"]
    then <[ "PHASE_HINT" := "test" ]> hints
    else if hasKeywords lowerPrompt ["design"; "architect"; "structure"; "plan"]
    then <[ "PHASE_HINT" := "design" ]> hints
    else if hasKeywords lowerPrompt ["implement"; "build"; "code"; "write"; "create"]
    then <[ "PHASE_HINT" := "implement" ]> hints
    else hints in
  let hints :=
    if 2 <=? boldCount prompt then <[ "TEMP_HINT" := "high" ]> hints
    else if (boldCount prompt =? 1) || (1 <=? italicCount prompt)
    then <[ "TEMP_HINT" := "medium" ]> hints
    else hints in
  let hints :=
    if negb (GoStrings.eqb (extractCIDReference cleanPrompt) "")
    then <[ "REF_CID" := extractCIDReference cleanPrompt ]> hints else hints in
  let hints :=
    if negb (GoStrings.eqb (extractGoal cleanPrompt) "")
    then <[ "GOAL_HINT" := extractGoal cleanPrompt ]> hints else hints in
  hints.

End Prompt.

(* ===================================================================== *)
(** ** The address line ([cmd/aimux/main.go]) *)
(* ===================================================================== *)

(** An ASCII letter, a digit or a hyphen. *)
Definition is_token_char (c : ascii) : bool :=
  let r := byte_val c in
  ((97 <=? r) && (r <=? 122)) || ((65 <=? r) && (r <=? 90)) || ((48 <=? r) && (r <=? 57))
  || Ascii.eqb c "-"%char.

(** [stripPunctuation].  The source ranges over runes and writes back
    the ones it keeps; the runes it keeps are single bytes, and every
    byte above 127 belongs to a rune it drops. *)
Fixpoint stripPunctuation (s : string) : string :=
  match s with
  | EmptyString => EmptyString
  | String c s' =>
      if is_token_char c then String c (stripPunctuation s') else stripPunctuation s'
  end.

(** [classifyToken] *)
Definition classifyToken (cfg : Config) (token : string) : string :=
  if bool_decide (is_Some (Genera cfg !! token)) then "genus"
  else if bool_decide (is_Some (Personas cfg !! token)) then "global_persona"
  else if existsb (fun kv : string * GenusConfig =>
                     bool_decide (is_Some (GenusPersonas kv.2 !! token)))
                  (map_to_list (Genera cfg))
  then "model_name"
  else "unknown".

(** [inferGenus].  Go ranges over the map in an unspecified order; the
    genera are visited here in the order of [map_to_list]. *)
Definition inferGenus (cfg : Config) (modelName : string) : string :=
  match List.find (fun kv : string * GenusConfig =>
                     bool_decide (is_Some (GenusPersonas kv.2 !! modelName)))
                  (map_to_list (Genera cfg)) with
  | Some kv => kv.1
  | None => ""
  end.

(** The first loop of [parseHUDLine]: the index of the first byte that
    is not a letter, a digit, a hyphen, a space or a tab, and -1 when
    there is none. *)
Fixpoint delimIdx_go (i : Z) (line : string) : Z :=
  match line with
  | EmptyString => -1
  | String c rest =>
      if negb (is_token_char c || Ascii.eqb c " "%char || Ascii.eqb c TAB) then i
      else delimIdx_go (i + 1) rest
  end.

Section Address.
Context {uni : GoUnicode}.

(** One iteration of the loop over the tokens; the state is
    [(persona, genus, modelOverride)]. *)
Definition classify_step (cfg : Config) (st : string * string * string) (token : string)
  : string * string * string :=
  let '(persona, genus, modelOverride) := st in
  let normalized := strings_ToLower (stripPunctuation token) in
  let typ := classifyToken cfg normalized in
  if GoStrings.eqb typ "genus" then
    (persona, (if GoStrings.eqb genus "" then normalized else genus), modelOverride)
  else if GoStrings.eqb typ "global_persona" then
    ((if GoStrings.eqb persona "" then normalized else persona), genus, modelOverride)
  else if GoStrings.eqb typ "model_name" then
    let modelOverride := if GoStrings.eqb modelOverride "" then normalized else modelOverride in
    let genus := if GoStrings.eqb genus "" then inferGenus cfg normalized else genus in
    (persona, genus, modelOverride)
  else st.

(** [parseHUDLine]: [(persona, genus, modelOverride)]. *)
Definition parseHUDLine (cfg : Config) (line : string) : string * string * string :=
  let line := strings_TrimSpace line in
  if GoStrings.eqb line "" then ("", "", "")
  else
    let delimIdx := delimIdx_go 0 line in
    let addressPart :=
      if 0 <=? delimIdx then String.substring 0 (Z.to_nat delimIdx) line else line in
    let tokens := strings_Fields addressPart in
    if Nat.eqb (length tokens) 0 then ("", "", "")
    else
      let '(persona, genus, modelOverride) := fold_left (classify_step cfg) tokens ("", "", "") in
      if GoStrings.eqb genus "" then ("", "", "")
      else if GoStrings.eqb persona "" && negb (GoStrings.eqb modelOverride "")
      then (modelOverride, genus, modelOverride)
      else if GoStrings.eqb persona ""
      then (strings_ToLower (stripPunctuation (index_or_empty tokens 0)), genus, modelOverride)
      else (persona, genus, modelOverride).

End Address.

(** *** Vocabulary for the address line *)

(** Every byte of the string satisfies [p]. *)
Fixpoint string_forall (p : ascii -> bool) (s : string) : bool :=
  match s with
  | EmptyString => true
  | String c s' => p c && string_forall p s'
  end.

(* ===================================================================== *)
(** ** Loading the configuration ([config.go]) *)
(* ===================================================================== *)

Definition templatesDir := "templates".
Definition hintsDir := "hints".
Definition configFile := "config.json".

(** The errors of [DefaultConfig] and [LoadConfig]. *)
Inductive ConfigError :=
| EInvalidEmbedded                   (* invalid embedded config.json *)
| EInvalidConfig (path : string)     (* invalid config at <path> *)
| ELoadDefault.                      (* load default config *)

Inductive ConfigResult :=
| Loaded (cfg : Config)
| ConfigFailed (e : ConfigError).

(** The operations of [LoadConfig] that change the file system. *)
Inductive ConfigOp :=
| CfgMkdirAll (dir : string)
| CfgWriteFile (path data : string).

(** [initConfigMaps]: a [nil] map becomes an empty one. *)
Definition initConfigMaps (cfg : RawConfig) : Config :=
  mkConfig (default ∅ (rawPersonas cfg)) (default ∅ (rawGenera cfg)).

(** One of the two merge loops of [LoadConfig]: an entry of the
    defaults is added under a key the configuration does not have.
    The defaults are visited in the order of [map_to_list]. *)
Definition mergeMissing {A : Type} (defaults cfg : gmap string A) : gmap string A :=
  fold_left (fun acc kv => if bool_decide (is_Some (acc !! kv.1)) then acc
                           else <[ kv.1 := kv.2 ]> acc)
            (map_to_list defaults) cfg.

(** [GetPersonaHints] *)
Definition GetPersonaHints (cfg : Config) (persona : string) : list string :=
  match Personas cfg !! persona with
  | Some r => Hints r
  | None => []
  end.

Section Configuration.
Context {lib : GoLib} {dec : GoDecode}.
Variable w : World.
(** The bytes of the embedded file [config.json]. *)
Variable defaultConfigJSON : string.
(** The paths for which [os.WriteFile] returns an error. *)
Variable writefile_fails : string -> bool.

(** [DefaultConfig] *)
Definition DefaultConfig : ConfigResult :=
  match json_Unmarshal_Config defaultConfigJSON with
  | None => ConfigFailed EInvalidEmbedded
  | Some cfg => Loaded (initConfigMaps cfg)
  end.

(** [LoadConfig]: the operations performed and the result.  When the
    file is missing and has just been written, it is read back as the
    bytes written.  In the directory that has just been created
    [os.Stat] is taken to fail on the file only when the file does not
    exist. *)
Definition LoadConfig : list ConfigOp * ConfigResult :=
  match w_home w with
  | None => ([], DefaultConfig)
  | Some home =>
      let cfgDir := filepath_Join [home; aimuxDir] in
      let configPath := filepath_Join [cfgDir; configFile] in
      if w_mkdir_fails w cfgDir then ([CfgMkdirAll cfgDir], DefaultConfig)
      else
        let tmplDir := filepath_Join [cfgDir; templatesDir] in
        let ops := [CfgMkdirAll cfgDir; CfgMkdirAll tmplDir] in
        if w_mkdir_fails w tmplDir then (ops, DefaultConfig)
        else
          let missing := negb (fileExists w configPath) in
          let ops := if missing then ops ++ [CfgWriteFile configPath defaultConfigJSON] else ops in
          if missing && writefile_fails configPath then (ops, DefaultConfig)
          else
            match (if missing then Some defaultConfigJSON else ReadFile w configPath) with
            | None => (ops, DefaultConfig)
            | Some data =>
                match json_Unmarshal_Config data with
                | None => (ops, ConfigFailed (EInvalidConfig configPath))
                | Some raw =>
                    let cfg := initConfigMaps raw in
                    match DefaultConfig with
                    | ConfigFailed _ => (ops, ConfigFailed ELoadDefault)
                    | Loaded defaults =>
                        (ops, Loaded (mkConfig (mergeMissing (Personas defaults) (Personas cfg))
                                               (mergeMissing (Genera defaults) (Genera cfg))))
                    end
                end
            end
  end.

End Configuration.

(* ===================================================================== *)
(** ** From the prompt to the call ([flow.go], [cmd/aimux/main.go]) *)
(* ===================================================================== *)

Class GoPath := {
  (** [filepath.Dir(path)] *)
  filepath_Dir : string -> string;
}.

(** The errors of [AppendMessage], which it returns as it gets them. *)
Inductive AppendError :=
| EAppendLog3 (e : error)            (* the error of Log3 *)
| EAppendMkdir (dir : string)        (* os.MkdirAll *)
| EAppendOpen (path : string)        (* os.OpenFile *)
| EAppendWrite (path : string).      (* f.Write *)

(** The prompt as [main] logs it: the arguments, and a mark when the
    standard input is passed on. *)
Definition loggedPrompt (cmdArgs : string) (stdinReader : option string) : string :=
  if bool_decide (stdinReader <> None) && negb (GoStrings.eqb cmdArgs "")
  then cmdArgs +:+ " <<STDIN"
  else if bool_decide (stdinReader <> None) then "<<STDIN"
  else cmdArgs.

Section Exchange.
Context {lib : GoLib} {uni : GoUnicode} {re : GoRegexp} {pth : GoPath}.
Variable w : World.
(** The paths for which a write to the opened log returns an error. *)
Variable append_fails : string -> bool.

(** [AppendMessage]: the operations performed and the error.  The
    deferred [f.Close()] runs on every path that opened the file. *)
Definition AppendMessage (c : Context) (from body : string)
  : list Event * option AppendError :=
  match Log3 w c with
  | Err e => ([], Some (EAppendLog3 e))
  | Ok log3 =>
      let msg := mkMessage (SID c) from body in
      let dir := filepath_Dir log3 in
      if w_mkdir_fails w dir then ([EvMkdirAll dir], Some (EAppendMkdir dir))
      else if w_open_fails w log3
      then ([EvMkdirAll dir; EvOpenLog log3], Some (EAppendOpen log3))
      else
        let ops := [EvMkdirAll dir; EvOpenLog log3; EvLogWrite (LogMessage msg); EvLogClose] in
        if append_fails log3 then (ops, Some (EAppendWrite log3)) else (ops, None)
  end.

(** [main], from the logging of the user's prompt to the call of the
    genus, once the context and the overrides of the command line are
    settled: the flow hints are stored in the environment of the
    context, the prompt is appended to the log (a failure only prints a
    warning), and the genus is called.  The result is the operations of
    [AppendMessage], the context, the entropy left and what [CallGenus]
    returned. *)
Definition main_call (rnd : Entropy) (ctx : Context) (cmdArgs : string)
           (stdinReader : option string)
  : list Event * Context * Entropy * Result LazyCommandStream :=
  let loggedPrompt := loggedPrompt cmdArgs stdinReader in
  let flowHints := InferFlowHints loggedPrompt in
  let ctx :=
    set_ENV ctx (fold_left (fun env kv => <[ "AI" +:+ kv.1 := kv.2 ]> env)
                           (map_to_list flowHints) (ENV ctx)) in
  let '(ops, _) := AppendMessage ctx "user" loggedPrompt in
  let '(ctx, rnd, r) := CallGenus w rnd ctx cmdArgs stdinReader in
  (ops, ctx, rnd, r).

End Exchange.

(** *** Vocabulary for the log file *)

(** An operation on the log file: opening, appending, closing. *)
Definition is_log_event (e : Event) : bool :=
  match e with
  | EvOpenLog _ | EvLogWrite _ | EvLogClose => true
  | _ => false
  end.

Definition is_log_write (e : Event) : bool :=
  match e with
  | EvLogWrite _ => true
  | _ => false
  end.

(** The operations of a trace on the log file, in order. *)
Definition log_events (tr : list Event) : list Event := List.filter is_log_event tr.

(** From [st] to [st'] the format and the log file are kept and the
    only operations on the log file are writes. *)
Definition log_extends (st st' : DrainState) : Prop :=
  d_format st' = d_format st
  /\ d_logFile st' = d_logFile st
  /\ exists writes, log_events (d_trace st') = log_events (d_trace st) ++ writes
                    /\ Forall (fun e => is_log_write e = true) writes
                    /\ (d_format st = "" -> writes = []).

(** The log file of a state while the loop runs: not opened as long as
    no format is detected, opened without an error and only written to
    afterwards. *)
Definition log_open (w : World) (st : DrainState) : Prop :=
  (d_format st = "" /\ d_logFile st = None /\ log_events (d_trace st) = [])
  \/ (d_format st <> ""
      /\ exists p writes, d_logFile st = Some p /\ w_open_fails w p = false
                          /\ log_events (d_trace st) = EvOpenLog p :: writes
                          /\ Forall (fun e => is_log_write e = true) writes).

(** The log file of a state the loop may end in: as above, or never
    opened, or opened with an error. *)
Definition log_settled (w : World) (st : DrainState) : Prop :=
  (d_logFile st = None
   /\ (log_events (d_trace st) = []
       \/ exists p, log_events (d_trace st) = [EvOpenLog p] /\ w_open_fails w p = true))
  \/ (exists p writes, d_logFile st = Some p /\ w_open_fails w p = false
                       /\ log_events (d_trace st) = EvOpenLog p :: writes
                       /\ Forall (fun e => is_log_write e = true) writes).

(** How an iteration of the loop ends, as far as the log file goes. *)
Definition log_after (w : World) (s : Step) : Prop :=
  match s with
  | Next st | Break st => log_open w st
  | Return st _ => log_settled w st
  end.

(** A reference instance of [GoUnicode]: it treats every byte above
    127 as a character without case that is not white space, and so
    follows Go on the strings whose runes above 127 are of that kind
    (on ASCII strings the methods are not called at all). *)
Definition RefUnicode : GoUnicode := {|
  unicode_ToLower := map_bytes lower_byte;
  unicode_TrimFunc_IsSpace := fun s =>
    String.rev (trim_ascii (String.rev (trim_ascii s).1)).1;
  unicode_TrimRightFunc_IsSpace := fun s => String.rev (trim_ascii (String.rev s)).1;
  unicode_FieldsFunc_IsSpace := fields_go "";
|}.

(** The context a successful construction returned. *)
Definition built (r : SetupResult Context) : Context :=
  match r with
  | Done c => c
  | Fail _ => ctx_architect
  end.

(** A conversation started at the terminal: the environment holds no
    caller tag and no depth. *)
Definition fresh_conversation : SetupResult Context * Entropy :=
  InitContext (lib := RefLib) world0 [block1] "claude" "architect".

(** A call made at depth 2, and the world of the child it starts: the
    environment is the one of the command. *)
Definition call_at_depth2 : Context * Entropy * Result LazyCommandStream :=
  CallGenus (lib := RefLib) world0 [] (set_LVL ctx_architect 2) "hello" None.

Definition child_world : World :=
  mkWorld (Some "/home/u") ∅ (Ok config0) (fun _ => "PARTNER PROTOCOL")
          (cmd_Env (lcs_cmd (stream_of call_at_depth2))) "linux"
          (fun _ => false) (fun _ => false) (fun _ => false).

Definition child_conversation : SetupResult Context * Entropy :=
  InitContext (lib := RefLib) child_world [block1] "claude" "engineer".

(** The snapshot of the architect persona, as [saveContext] writes it
    once the session [sid2] is established. *)
Definition snapshot_architect : string :=
  Ref.json "{'cid':'11111111-1111-4111-8111-111111111111','sid':'22222222-2222-4222-8222-222222222222','top':'','tag':'architect~claude','gen':'claude','mod':'architect','lvl':0,'wtf':false,'dir':'/home/u/.aimux/conversations/11111111-1111-4111-8111-111111111111/claude/architect'}" +:+ nl.

Definition fs_snapshot : gmap string Node :=
  {[ "/home/u/.aimux/conversations/11111111-1111-4111-8111-111111111111/claude/architect/context.json"
       := NFile snapshot_architect ]}.

Definition resumed_conversation : SetupResult Context :=
  ResumeContext (lib := RefLib) (world_of fs_snapshot) (fun _ => true) cid1 "claude" "architect".

Definition branched_conversation : Context * Entropy * list Event * option SetupError :=
  Branch (lib := RefLib) world0 (fun _ => false) [block1] ctx_architect.

(** A reference decoder of configuration files, built on the reference
    JSON decoder.  It reads the objects, the strings and the arrays of
    strings of a configuration; a key that is absent or [null] leaves
    the zero value; keys are matched exactly; a prompt template is a
    string or an array of strings. *)
Module RefConfig.

Definition strings_of (v : option JSON) : option (list string) :=
  match v with
  | None | Some JNull => Some []
  | Some (JArr items) =>
      mapM (fun item => match item with JStr s => Some s | _ => None end) items
  | Some _ => None
  end.

Definition object_of (v : option JSON) : option (gmap string JSON) :=
  match v with
  | None | Some JNull => Some ∅
  | Some (JObj m) => Some m
  | Some _ => None
  end.

(** A map of values read by [f]: the error, else [nil] or the map. *)
Definition map_of {A : Type} (f : JSON -> option A) (v : option JSON)
  : option (option (gmap string A)) :=
  match v with
  | None | Some JNull => Some None
  | Some (JObj m) =>
      if forallb (fun kv : string * JSON => bool_decide (is_Some (f kv.2))) (map_to_list m)
      then Some (Some (omap f m)) else None
  | Some _ => None
  end.

Definition string_of (v : JSON) : option string :=
  match v with
  | JStr s => Some s
  | _ => None
  end.

Definition persona_of (v : JSON) : option PersonaConfig :=
  match v with
  | JObj m =>
      match Ref.field_string m "name", Ref.field_string m "model", Ref.field_string m "model2",
            strings_of (m !! "hints"), strings_of (m !! "delegatees") with
      | Some name, Some model, Some model2, Some hints, Some delegatees =>
          Some (mkPersonaConfig name model model2 hints delegatees)
      | _, _, _, _, _ => None
      end
  | _ => None
  end.

Definition prompt_of (v : option JSON) : option PromptSpec :=
  match v with
  | None | Some JNull => Some PromptOther
  | Some (JStr s) => Some (PromptString s)
  | Some (JArr items) => PromptList <$> strings_of (Some (JArr items))
  | Some _ => Some PromptOther
  end.

Definition args_of (v : option JSON) : option GenusArgs :=
  match object_of v with
  | Some m =>
      match strings_of (m !! "model"), strings_of (m !! "resume"), strings_of (m !! "branch"),
            strings_of (m !! "new"), prompt_of (m !! "prompt"), strings_of (m !! "output"),
            strings_of (m !! "safety") with
      | Some model, Some resume, Some branch, Some new, Some prompt, Some output, Some safety =>
          Some (mkGenusArgs model resume branch new prompt output safety)
      | _, _, _, _, _, _, _ => None
      end
  | None => None
  end.

Definition vars_of (v : JSON) : option PersonaVars :=
  match map_of string_of (Some v) with
  | Some m => Some (default ∅ m)
  | None => None
  end.

Definition genus_of (v : JSON) : option GenusConfig :=
  match v with
  | JObj m =>
      match Ref.field_string m "name", strings_of (m !! "exe"), strings_of (m !! "cmd"),
            args_of (m !! "args"), map_of vars_of (m !! "personas") with
      | Some name, Some exe, Some cmd, Some args, Some personas =>
          Some (mkGenusConfig name exe cmd args (default ∅ personas))
      | _, _, _, _, _ => None
      end
  | _ => None
  end.

Definition Unmarshal_Config (s : string) : option RawConfig :=
  match Ref.decode s with
  | Some JNull => Some (mkRawConfig None None)
  | Some (JObj m) =>
      match map_of persona_of (m !! "personas"), map_of genus_of (m !! "genera") with
      | Some personas, Some genera => Some (mkRawConfig personas genera)
      | _, _ => None
      end
  | _ => None
  end.

(** A [Message] is read from an object whose [session_id], [from] and
    [body] are strings; [at] may be absent, [null] or a string, which
    is not checked to be a time; [tags] is not looked at. *)
Definition Unmarshal_Message (s : string) : option Message :=
  match Ref.decode s with
  | Some JNull => Some (mkMessage "" "" "")
  | Some (JObj m) =>
      match Ref.field_string m "session_id", Ref.field_string m "from",
            Ref.field_string m "body", Ref.field_string m "at" with
      | Some sid, Some from, Some body, Some _ => Some (mkMessage sid from body)
      | _, _, _, _ => None
      end
  | _ => None
  end.

End RefConfig.

Definition RefDecode : GoDecode := {|
  json_Unmarshal_Message := RefConfig.Unmarshal_Message;
  json_Unmarshal_Config := RefConfig.Unmarshal_Config;
|}.

(** *** Examples for referenced conversations *)

Definition ref_log1 : string := "/home/u/.aimux/conversations/11111111-1111-4111-8111-111111111111/claude/log.jsonl".

Definition ref_log_architect : string :=
  "/home/u/.aimux/conversations/11111111-1111-4111-8111-111111111111/claude/architect/log.jsonl".

(** The undifferentiated log holds three messages. *)
Definition fs_three_messages : gmap string Node :=
  {[ ref_log1 :=
       NFile (Ref.json "{'session_id':'22222222-2222-4222-8222-222222222222','at':'2025-01-01T00:00:00Z','from':'user','body':'one'}" +:+ nl +:+
              Ref.json "{'session_id':'22222222-2222-4222-8222-222222222222','at':'2025-01-01T00:00:01Z','from':'assistant','body':'two'}" +:+ nl +:+
              Ref.json "{'session_id':'22222222-2222-4222-8222-222222222222','at':'2025-01-01T00:00:02Z','from':'user','body':'three'}" +:+ nl) ]}.

(** The undifferentiated log exists and holds a blank line only; the
    log of the architect persona holds a message. *)
Definition fs_blank_first_log : gmap string Node :=
  {[ ref_log1 := NFile ("  " +:+ nl);
     ref_log_architect :=
       NFile (Ref.json "{'session_id':'22222222-2222-4222-8222-222222222222','at':'2025-01-01T00:00:00Z','from':'assistant','body':'plan'}" +:+ nl) ]}.

(** The messages a successful load returned. *)
Definition loaded (r : RefResult) : list Message :=
  match r with
  | RefMessages ms => ms
  | RefFailed _ => []
  end.

Definition last_two_messages : RefResult :=
  LoadReferencedContext (lib := RefLib) (uni := RefUnicode) (dec := RefDecode)
    (world_of fs_three_messages) cid1 2.

(** *** Examples for the address line *)

Definition address_line : string := "  Architect Claude, please review the plan" +:+ nl.

(** *** Examples for the configuration *)

(** An embedded configuration with two genera. *)
Definition embedded_config : string :=
  Ref.json "{'personas':{'architect':{'name':'architect','model':'opus','model2':'sonnet','hints':['Plan first']}},'genera':{'claude':{'name':'claude','exe':['claude'],'args':{'new':['--session-id','{{sid}}'],'prompt':['--append-system-prompt','{{prompt}}']}},'bash':{'name':'bash','exe':['bash'],'args':{'prompt':'stdin'}}}}".

(** A configuration file that replaces the executable of [claude]. *)
Definition user_config : string :=
  Ref.json "{'genera':{'claude':{'name':'claude','exe':['my-claude']}}}".

Definition config_path : string := "/home/u/.aimux/config.json".

Definition fs_user_config : gmap string Node := {[ config_path := NFile user_config ]}.

(** The configuration a successful load returned. *)
Definition loaded_config (r : ConfigResult) : Config :=
  match r with
  | Loaded cfg => cfg
  | ConfigFailed _ => mkConfig ∅ ∅
  end.

(** The decoded form of a text that decodes. *)
Definition raw_of (s : string) : RawConfig :=
  default (mkRawConfig None None) (RefConfig.Unmarshal_Config s).

(** *** Examples for the call from the command line *)

(** A stand-in for the expression engine on texts that hold neither a
    reference nor a goal: it finds no match. *)
Definition RefRegexp : GoRegexp := {| regexp_FindStringSubmatch := fun _ _ => Some [] |}.

(** [filepath.Dir] on a clean absolute path: what stands before the
    last slash. *)
Fixpoint drop_last_component (r : string) : string :=
  match r with
  | EmptyString => EmptyString
  | String c r' => if Ascii.eqb c "/"%char then r' else drop_last_component r'
  end.

Definition RefPath : GoPath := {|
  filepath_Dir := fun path =>
    let d := String.rev (drop_last_component (String.rev path)) in
    if GoStrings.eqb d "" then "/" else d;
|}.

(** The architect persona called at depth 3. *)
Definition ctx_too_deep : Context := set_LVL ctx_architect 3.

Definition denied_call : list Event * Context * Entropy * Result LazyCommandStream :=
  main_call (lib := RefLib) (uni := RefUnicode) (re := RefRegexp) (pth := RefPath)
            world0 (fun _ => false) [] ctx_too_deep "hello" None.

(* ===================================================================== *)
(** * Properties *)
(* ===================================================================== *)

(** ** Strings *)

Lemma eqb_true (s t : string) : GoStrings.eqb s t = true <-> s = t.
Proof. unfold GoStrings.eqb. apply bool_decide_eq_true. Qed.

Lemma eqb_false (s t : string) : GoStrings.eqb s t = false <-> s <> t.
Proof. unfold GoStrings.eqb. apply bool_decide_eq_false. Qed.

Lemma eqb_refl (s : string) : GoStrings.eqb s s = true.
Proof. by apply eqb_true. Qed.

Lemma append_cons (c : ascii) (s t : string) : String c s +:+ t = String c (s +:+ t).
Proof. reflexivity. Qed.

Lemma append_nil_l (s : string) : "" +:+ s = s.
Proof. reflexivity. Qed.

Lemma append_nil_r (s : string) : s +:+ "" = s.
Proof. induction s as [|c s IH]; [done|]. rewrite append_cons. by f_equal. Qed.

Lemma append_assoc (s t u : string) : (s +:+ t) +:+ u = s +:+ (t +:+ u).
Proof. induction s as [|c s IH]; [done|]. rewrite !append_cons. by f_equal. Qed.

Lemma HasPrefix_nil (s : string) : GoStrings.HasPrefix s "" = true.
Proof. by destruct s. Qed.

Lemma Contains_role (s : string) :
  GoStrings.Contains s "~" = bool_decide (role_component s <> None).
Proof.
  induction s as [|c s IH]; [done|].
  cbn [GoStrings.Contains GoStrings.HasPrefix role_component].
  rewrite Ascii.eqb_sym.
  destruct (Ascii.eqb c "~") eqn:E.
  - by rewrite HasPrefix_nil.
  - rewrite IH. cbn. destruct (role_component s); done.
Qed.

Lemma split_go_head (cur s : string) :
  nth 0 (GoStrings.split_go "~" cur 0 s) EmptyString
  = cur +:+ default s (role_component s).
Proof.
  revert cur. induction s as [|c s IH]; intros cur.
  - cbn. by rewrite append_nil_r.
  - cbn [GoStrings.split_go GoStrings.HasPrefix role_component].
    rewrite Ascii.eqb_sym.
    destruct (Ascii.eqb c "~") eqn:E.
    + rewrite HasPrefix_nil. cbn. by rewrite append_nil_r.
    + rewrite IH. rewrite append_assoc. cbn.
      destruct (role_component s); done.
Qed.

Lemma Split_head (s : string) :
  index_or_empty (GoStrings.Split s "~") 0 = default s (role_component s).
Proof. unfold index_or_empty, GoStrings.Split. by rewrite split_go_head. Qed.

Section Validator.
Context {lib : GoLib}.

(** Validation computes the decision table in which rule 4 asks for a
    non-empty caller tag. *)
Lemma ValidateCall_table (c : Context) :
  validation_exit (ValidateCall c) = outcome_exit (validate_table c).
Proof.
  unfold ValidateCall, validate_table, MaxDepth, terminal_role.
  destruct (Z.leb_spec 3 (LVL c)) as [Hl|Hl].
  { rewrite bool_decide_eq_true_2 by lia. done. }
  rewrite bool_decide_eq_false_2 by lia.
  destruct (bool_decide (TAG c <> "" /\ TAG c = TOP c)) eqn:Eself.
  { apply bool_decide_eq_true in Eself as [Hne Heq].
    apply eqb_false in Hne. apply eqb_true in Heq. rewrite Hne, Heq. done. }
  apply bool_decide_eq_false in Eself.
  assert (negb (GoStrings.eqb (TAG c) "") && GoStrings.eqb (TAG c) (TOP c) = false) as ->.
  { destruct (GoStrings.eqb (TAG c) "") eqn:E1; [done|].
    destruct (GoStrings.eqb (TAG c) (TOP c)) eqn:E2; [|done].
    exfalso. apply Eself. split; [by apply eqb_false | by apply eqb_true]. }
  rewrite Contains_role, Split_head.
  destruct (role_component (TOP c)) as [r|] eqn:Er.
  - assert (GoStrings.eqb (TOP c) "" = false) as ->.
    { apply eqb_false. intros E. rewrite E in Er. done. }
    change (default (TOP c) (Some r)) with r.
    cbn [negb andb]. rewrite (bool_decide_eq_true_2 (Some r <> None)) by done.
    cbn [negb andb].
    destruct (GoStrings.eqb r "engineer") eqn:Eeng.
    + apply eqb_true in Eeng. subst r. rewrite bool_decide_eq_true_2 by done. done.
    + apply eqb_false in Eeng.
      rewrite (bool_decide_eq_false_2 (Some r = Some "engineer")) by congruence.
      rewrite bool_decide_eq_false_2 by (intros (_ & ? & _); done). done.
  - rewrite (bool_decide_eq_false_2 (None <> None)) by (intros E; by apply E).
    rewrite (bool_decide_eq_false_2 (None = Some "engineer")) by done.
    cbn [negb andb].
    destruct (GoStrings.eqb (TOP c) "") eqn:Etop; cbn [negb andb].
    + apply eqb_true in Etop.
      rewrite bool_decide_eq_false_2 by (intros (? & _); done). done.
    + apply eqb_false in Etop.
      destruct (GoStrings.eqb (MOD c) "engineer") eqn:Emod.
      * apply eqb_true in Emod. rewrite bool_decide_eq_true_2 by done. done.
      * apply eqb_false in Emod.
        rewrite bool_decide_eq_false_2 by (intros (_ & _ & ?); done). done.
Qed.

End Validator.

(** C1 (as stated, refuted): the specification's table denies a call
    whose caller tag is empty and whose persona is the terminal role
    with undifferentiated-to-terminal-violation; the code allows it. *)
Lemma C1_counterexample :
  validate_spec ctx_user_to_engineer = Denied UndifferentiatedToTerminalViolation
  /\ ValidateCall (lib := RefLib) ctx_user_to_engineer = None.
Proof. split; vm_compute; reflexivity. Qed.

(** C1 (amended): for every session context, validation applies the
    four rules in order, first match winning: depth >= 3 is denied with
    code 3; else a non-empty callee tag equal to the caller tag with
    code 1; else a caller tag whose role component is the terminal role
    with code 4; else a non-empty caller tag without role component,
    when the persona is the terminal role, with code 5; otherwise the
    call is allowed.  The code of the error is the exit status. *)
Theorem C1_validate_decision_table (lib : GoLib) (c : Context) :
  Code <$> ValidateCall c = outcome_exit (validate_table c)
  /\ validation_exit (ValidateCall c) = outcome_exit (validate_table c).
Proof.
  pose proof (ValidateCall_table c) as Ht.
  split; [|exact Ht].
  rewrite <- Ht. unfold validation_exit. by destruct (ValidateCall c).
Qed.

(** C10: with an empty caller tag validation can deny only for depth:
    below depth 3 the call is allowed whatever genus, persona and
    callee tag are, and from depth 3 on the denial is depth-exceeded. *)
Theorem C10_top_level_call_only_depth (lib : GoLib) (c : Context) :
  TOP c = "" ->
  (LVL c < 3 -> ValidateCall c = None)
  /\ (3 <= LVL c -> Code <$> ValidateCall c = Some 3).
Proof.
  intros Htop.
  pose proof (ValidateCall_table c) as Ht.
  assert (validate_table c = if bool_decide (3 <= LVL c) then Denied DepthExceeded else Allowed)
    as Htab.
  { unfold validate_table, MaxDepth. rewrite Htop.
    destruct (bool_decide (3 <= LVL c)); [done|].
    rewrite bool_decide_eq_false_2 by (intros [? ?]; congruence).
    cbn [role_component].
    rewrite bool_decide_eq_false_2 by done.
    rewrite bool_decide_eq_false_2 by (intros [? _]; done). done. }
  rewrite Htab in Ht. split; intros Hl.
  - rewrite bool_decide_eq_false_2 in Ht by lia.
    destruct (ValidateCall c); [discriminate | done].
  - rewrite bool_decide_eq_true_2 in Ht by lia.
    unfold validation_exit in Ht. destruct (ValidateCall c); [|discriminate].
    cbn in *. done.
Qed.

(** C10 at a concrete input: a person calls the engineer persona of
    [claude] from the terminal. *)
Lemma C10_witness :
  TOP ctx_user_to_engineer = ""
  /\ (LVL ctx_user_to_engineer < 3 -> ValidateCall (lib := RefLib) ctx_user_to_engineer = None)
  /\ (3 <= LVL ctx_user_to_engineer ->
      Code <$> ValidateCall (lib := RefLib) ctx_user_to_engineer = Some 3).
Proof.
  split; [reflexivity|].
  apply (C10_top_level_call_only_depth RefLib ctx_user_to_engineer). reflexivity.
Defined.

(** ** Session identity resolver *)

Section Resolver.
Context {lib : GoLib}.
Variable w : World.

(** The last line of a readable log decides the identifier. *)
Lemma lastSessionID_last_record (path data line : string) (lines : list string)
      (m : gmap string JSON) (sid : string) :
  w_fs w !! path = Some (NFile data) ->
  scanLines MaxScanTokenSize data = (lines, false) ->
  List.last lines "" = line ->
  line <> "" ->
  json_Unmarshal_map line = Some m ->
  m !! "session_id" = Some (JStr sid) ->
  isValidUUID sid = true ->
  lastSessionID w path = Ok sid.
Proof.
  intros Hfs Hscan Hlast Hne Hdec Hsid Hv.
  unfold lastSessionID, scanFile, scanReader. rewrite Hfs. cbn [rd_data rd_err].
  rewrite Hscan. cbn. rewrite Hlast.
  apply eqb_false in Hne. rewrite Hne, Hdec, Hsid. cbn. by rewrite Hv.
Qed.

(** The resolver goes by the size of the logs, in this order: snapshot,
    persona log, undifferentiated log (empty persona only),
    conversation identifier. *)
Lemma DetermineSessionID_cases (c : Context) (log1 log2 : string) :
  Log1 w c = Ok log1 ->
  Log2 w c = Ok log2 ->
  (DetermineSessionID w c).2 =
    match savedSID w c with
    | Some sid => Ok sid
    | None =>
        if hasContent w log2 then lastSessionID w log2
        else if bool_decide (MOD c = "") && hasContent w log1 then lastSessionID w log1
        else Ok (CID c)
    end.
Proof.
  intros H1 H2. unfold DetermineSessionID. rewrite H1, H2.
  destruct (savedSID w c); [done|].
  destruct (hasContent w log2).
  { by destruct (lastSessionID w log2). }
  unfold GoStrings.eqb.
  destruct (bool_decide (MOD c = "") && hasContent w log1); [|done].
  by destruct (lastSessionID w log1).
Qed.

End Resolver.

(** C2 (as stated, refuted): a persona log that holds only a
    user-origin record does not fall through to the conversation
    identifier: the resolver returns the session of that record. *)
Lemma C2_counterexample :
  MOD ctx_architect <> ""
  /\ savedSID (lib := RefLib) (world_of fs_user_only) ctx_architect = None
  /\ hasEstablishedSession (lib := RefLib) (world_of fs_user_only) log2_architect = false
  /\ DetermineSessionID_spec (lib := RefLib) (world_of fs_user_only) ctx_architect
     = Ok (CID ctx_architect)
  /\ (DetermineSessionID (lib := RefLib) (world_of fs_user_only) ctx_architect).2 = Ok sid2
  /\ sid2 <> CID ctx_architect.
Proof. repeat split; try (vm_compute; reflexivity); vm_compute; discriminate. Qed.

(** C2 (amended): for every context whose log paths can be computed the
    resolver decides in this order: (a) a readable snapshot that
    decodes with a non-empty SessionID wins; (b) else, if the persona
    log exists with non-zero size, the result is what is extracted from
    its last line (whatever the origin of that record), an extraction
    failure being returned as the error; (c) else, if Persona is empty
    and the undifferentiated log has non-zero size, the same from that
    log; (d) else ConversationID.  In (b) a last line that decodes with
    a string session_id in UUID form yields that identifier. *)
Theorem C2_resolver_priority (lib : GoLib) (w : World) (c : Context) (log1 log2 : string) :
  Log1 w c = Ok log1 ->
  Log2 w c = Ok log2 ->
  (forall sid, savedSID w c = Some sid -> (DetermineSessionID w c).2 = Ok sid)
  /\ (savedSID w c = None -> hasContent w log2 = true ->
      (DetermineSessionID w c).2 = lastSessionID w log2)
  /\ (savedSID w c = None -> hasContent w log2 = false ->
      MOD c = "" -> hasContent w log1 = true ->
      (DetermineSessionID w c).2 = lastSessionID w log1)
  /\ (savedSID w c = None -> hasContent w log2 = false ->
      MOD c <> "" \/ hasContent w log1 = false ->
      (DetermineSessionID w c).2 = Ok (CID c))
  /\ (forall data lines line m sid,
        savedSID w c = None ->
        w_fs w !! log2 = Some (NFile data) ->
        data <> "" ->
        scanLines MaxScanTokenSize data = (lines, false) ->
        List.last lines "" = line -> line <> "" ->
        json_Unmarshal_map line = Some m ->
        m !! "session_id" = Some (JStr sid) ->
        isValidUUID sid = true ->
        DetermineSessionID w c = (set_SID c sid, Ok sid)).
Proof.
  intros H1 H2. pose proof (DetermineSessionID_cases w c log1 log2 H1 H2) as Hc.
  repeat split.
  - intros sid Hs. by rewrite Hc, Hs.
  - intros Hs Hl. by rewrite Hc, Hs, Hl.
  - intros Hs Hl Hm Hl1. rewrite Hc, Hs, Hl, Hl1. by rewrite bool_decide_eq_true_2.
  - intros Hs Hl [Hm | Hl1]; rewrite Hc, Hs, Hl.
    + by rewrite bool_decide_eq_false_2.
    + rewrite Hl1. by rewrite andb_false_r.
  - intros data lines line m sid Hs Hfs Hne Hscan Hlast Hline Hdec Hsid Hv.
    unfold DetermineSessionID. rewrite Hs, H2, H1.
    assert (hasContent w log2 = true) as ->.
    { unfold hasContent. rewrite Hfs. destruct data; [done|].
      apply Z.ltb_lt. cbn [String.length]. lia. }
    by rewrite (lastSessionID_last_record w log2 data line lines m sid).
Qed.

(** C2 at a concrete input: the persona log ends with an assistant
    record and there is no snapshot. *)
Lemma C2_witness :
  Log1 (lib := RefLib) (world_of fs_answered) ctx_architect = Ok log1_claude
  /\ Log2 (lib := RefLib) (world_of fs_answered) ctx_architect = Ok log2_architect
  /\ (DetermineSessionID (lib := RefLib) (world_of fs_answered) ctx_architect).2
     = lastSessionID (lib := RefLib) (world_of fs_answered) log2_architect.
Proof.
  split; [reflexivity|]. split; [reflexivity|].
  apply (C2_resolver_priority RefLib (world_of fs_answered) ctx_architect
           log1_claude log2_architect); [reflexivity | reflexivity | | ];
    vm_compute; reflexivity.
Defined.

(** ** Session flags *)

Lemma only_SID_refl (c : Context) : only_SID c c.
Proof. by destruct c. Qed.

Lemma only_SID_set (c : Context) (sid : ID) : only_SID c (set_SID c sid).
Proof. by destruct c. Qed.

Lemma only_SID_trans (c1 c2 c3 : Context) : only_SID c1 c2 -> only_SID c2 c3 -> only_SID c1 c3.
Proof. unfold only_SID. intros -> ->. by destruct c1. Qed.

Lemma only_SID_CID (c c' : Context) : only_SID c c' -> CID c' = CID c.
Proof. unfold only_SID. intros ->. by destruct c. Qed.

Lemma only_SID_ENV_weaken (c c' : Context) : only_SID c c' -> only_SID_ENV c c'.
Proof. unfold only_SID, only_SID_ENV. intros ->. by destruct c. Qed.

Lemma only_SID_ENV_CID (c c' : Context) : only_SID_ENV c c' -> CID c' = CID c.
Proof. unfold only_SID_ENV. intros ->. by destruct c. Qed.

Lemma entropy_consumed (b : list Z) (rest : Entropy) : rest <> b :: rest.
Proof. intros E. apply (f_equal length) in E. cbn in E. lia. Qed.

Section SessionFlags.
Context {lib : GoLib}.
Variable w : World.

(** What [buildSessionFlags] does when neither log is established. *)
Lemma buildSessionFlags_new (rnd : Entropy) (c : Context) (genus : GenusConfig)
      (personaVars : PersonaVars) (log1 log2 : string) :
  Log1 w c = Ok log1 ->
  Log2 w c = Ok log2 ->
  hasEstablishedSession w log2 = false ->
  hasEstablishedSession w log1 = false ->
  buildSessionFlags w rnd c genus personaVars =
    if fileExists w log2 && negb (GoStrings.eqb (CID c) (SID c)) then
      match rnd with
      | [] => (c, [], Err EGenerateID)
      | b :: rest =>
          (set_SID c (formatID b), rest,
           Ok (RenderFlags (ArgsNew (Args genus))
                 (<[ "sid" := formatID b ]> (personaVars ∪ {[ "sid" := SID c ]})), true))
      end
    else
      (c, rnd, Ok (RenderFlags (ArgsNew (Args genus)) (personaVars ∪ {[ "sid" := SID c ]}), true)).
Proof.
  intros H1 H2 He2 He1. unfold buildSessionFlags. rewrite H1, H2, He2, He1.
  destruct (fileExists w log2 && negb (GoStrings.eqb (CID c) (SID c))); [|done].
  by destruct rnd.
Qed.

(** [buildSessionFlags] changes at most [SID]. *)
Lemma buildSessionFlags_frame (rnd : Entropy) (c : Context) (genus : GenusConfig)
      (personaVars : PersonaVars) :
  only_SID c (buildSessionFlags w rnd c genus personaVars).1.1.
Proof.
  unfold buildSessionFlags.
  destruct (Log2 w c); [|apply only_SID_refl].
  destruct (Log1 w c); [|apply only_SID_refl].
  repeat case_match; cbn; try apply only_SID_refl; apply only_SID_set.
Qed.

(** [CallGenus] changes at most [SID] and [ENV]. *)
Lemma CallGenus_frame (rnd : Entropy) (c : Context) (cmdArgs : string) (stdin : option string) :
  only_SID_ENV c (CallGenus w rnd c cmdArgs stdin).1.1.
Proof.
  unfold CallGenus.
  pose proof (only_SID_refl c) as Hr. apply only_SID_ENV_weaken in Hr.
  destruct (ValidateCall c); [exact Hr|].
  destruct (w_config w) as [cfg|]; [|exact Hr].
  destruct (GetGenus cfg (GEN c)) as [genus|]; [|exact Hr].
  destruct (length (Exe genus) =? 0)%nat; [exact Hr|].
  destruct (ValidateCommand w _); [exact Hr|].
  match goal with |- context [buildSessionFlags w rnd c genus ?pv] =>
    pose proof (buildSessionFlags_frame rnd c genus pv) as Hf;
    destruct (buildSessionFlags w rnd c genus pv) as [[c1 rnd'] res] end.
  cbn in Hf.
  destruct res as [[sessionArgs isNew]|e].
  - cbv zeta.
    match goal with |- context [match ?x with pair _ _ => _ end] => destruct x end.
    cbn. unfold only_SID in Hf; rewrite Hf; by destruct c.
  - cbn. by apply only_SID_ENV_weaken.
Qed.

End SessionFlags.

(** C8: when neither log is established, a new SessionID is minted
    (entropy is drawn and the context's SessionID replaced by the fresh
    identifier, which is the one rendered into the flags) exactly when
    the persona log exists on disk, even empty, and ConversationID
    differs from SessionID; when they are equal nothing is minted and
    the context is untouched.  The function returns the changed context
    and nothing else: it performs no write. *)
Theorem C8_mint_only_when_branched (lib : GoLib) (w : World) (b : list Z) (rest : Entropy)
        (c : Context) (genus : GenusConfig) (personaVars : PersonaVars) (log1 log2 : string) :
  Log1 w c = Ok log1 ->
  Log2 w c = Ok log2 ->
  hasEstablishedSession w log2 = false ->
  hasEstablishedSession w log1 = false ->
  let r := buildSessionFlags w (b :: rest) c genus personaVars in
  (r.1.2 <> b :: rest <-> fileExists w log2 = true /\ CID c <> SID c)
  /\ (fileExists w log2 = true /\ CID c <> SID c ->
      r = (set_SID c (formatID b), rest,
           Ok (RenderFlags (ArgsNew (Args genus))
                 (<[ "sid" := formatID b ]> (personaVars ∪ {[ "sid" := SID c ]})), true)))
  /\ (CID c = SID c -> r.1.1 = c /\ r.1.2 = b :: rest)
  /\ (fileExists w log2 = false -> r.1.1 = c /\ r.1.2 = b :: rest).
Proof.
  intros H1 H2 He2 He1 r.
  pose proof (buildSessionFlags_new w (b :: rest) c genus personaVars log1 log2 H1 H2 He2 He1) as Hb.
  fold r in Hb.
  destruct (fileExists w log2) eqn:Hf; cbn [andb] in Hb.
  - destruct (GoStrings.eqb (CID c) (SID c)) eqn:He; cbn [negb] in Hb; rewrite Hb.
    + apply eqb_true in He.
      repeat split; try done; try (intros [_ ?]; done); intros Hne; by destruct Hne.
    + apply eqb_false in He.
      repeat split; try done; intros _; cbn; apply entropy_consumed.
  - rewrite Hb.
    repeat split; try done; try (intros [? _]; done); intros Hne; by destruct Hne.
Qed.

(** C8 at a concrete input: the persona log exists and is empty, the
    session differs from the conversation. *)
Lemma C8_witness :
  let r := buildSessionFlags (lib := RefLib) (world_of fs_empty_log2) [block1] ctx_branched
             claudeGenus {[ "model" := "opus" ]} in
  (r.1.2 <> [block1] <->
   fileExists (world_of fs_empty_log2) log2_architect = true /\ CID ctx_branched <> SID ctx_branched)
  /\ SID r.1.1 = "01020304-0506-4f08-bf0a-0b0c0d0e0fff".
Proof.
  split.
  - apply (C8_mint_only_when_branched RefLib (world_of fs_empty_log2) block1 [] ctx_branched
             claudeGenus {[ "model" := "opus" ]} log1_claude log2_architect);
      vm_compute; reflexivity.
  - vm_compute; reflexivity.
Defined.

(** ** Streaming response interpreter: the context *)

Section InterpreterFacts.
Context {lib : GoLib}.
Variable w : World.

Lemma flushSID_ctx (st : DrainState) : only_SID (d_ctx st) (d_ctx (flushSID st)).
Proof.
  unfold flushSID. case_match; cbn; [apply only_SID_set | apply only_SID_refl].
Qed.

Lemma collectSID_ctx (data : gmap string JSON) (st : DrainState) :
  d_ctx (collectSID data st) = d_ctx st.
Proof. unfold collectSID. by repeat case_match. Qed.

Lemma markError_ctx (data : gmap string JSON) (st : DrainState) :
  d_ctx (markError data st) = d_ctx st.
Proof. unfold markError. by case_match. Qed.

Lemma handleErrorRecord_ctx (data : gmap string JSON) (st : DrainState) :
  d_ctx (step_state (handleErrorRecord w data st)) = d_ctx st.
Proof. unfold handleErrorRecord, WriteString, Flush. by case_match. Qed.

Lemma logSessionLine_ctx (line : string) (data : gmap string JSON) (st : DrainState) :
  d_ctx (logSessionLine line data st) = d_ctx st.
Proof. unfold logSessionLine. by case_match. Qed.

Lemma extractText_ctx (data : gmap string JSON) (st : DrainState) :
  d_ctx (extractText data st).1 = d_ctx st.
Proof. unfold extractText. repeat case_match; cbn; by rewrite ?collectSID_ctx. Qed.

Lemma writeExtracted_ctx (text : string) (st : DrainState) :
  d_ctx (step_state (writeExtracted w text st)) = d_ctx st.
Proof. unfold writeExtracted, WriteString, Flush. by repeat case_match. Qed.

Lemma handleJSON_ctx (line : string) (st : DrainState) :
  only_SID (d_ctx st) (d_ctx (step_state (handleJSON w line st))).
Proof.
  unfold handleJSON.
  destruct (json_Unmarshal_map line) as [data|]; [|apply only_SID_refl].
  cbv zeta. case_match.
  - rewrite handleErrorRecord_ctx, markError_ctx. apply only_SID_refl.
  - destruct (extractText data _) as [st1 text] eqn:Hx.
    rewrite writeExtracted_ctx.
    pose proof (flushSID_ctx st1) as Hf.
    assert (d_ctx st1 = d_ctx st) as Hc.
    { change st1 with (st1, text).1. rewrite <- Hx.
      by rewrite extractText_ctx, logSessionLine_ctx, markError_ctx. }
    by rewrite Hc in Hf.
Qed.

Lemma handleText_ctx (line : string) (st : DrainState) :
  d_ctx (step_state (handleText w line st)) = d_ctx st.
Proof. unfold handleText, WriteString, Flush. by repeat case_match. Qed.

Lemma handleOther_ctx (line : string) (st : DrainState) :
  d_ctx (step_state (handleOther w line st)) = d_ctx st.
Proof. unfold handleOther, WriteString. by repeat case_match. Qed.

Lemma dispatch_ctx (line : string) (st : DrainState) :
  only_SID (d_ctx st) (d_ctx (step_state (dispatch w line st))).
Proof.
  unfold dispatch. repeat case_match.
  - apply only_SID_refl.
  - apply handleJSON_ctx.
  - rewrite handleText_ctx. apply only_SID_refl.
  - rewrite handleOther_ctx. apply only_SID_refl.
Qed.

Lemma detect_ctx (line : string) (st : DrainState) :
  d_ctx (step_state (detect w line st)) = d_ctx st.
Proof. unfold detect, saveContext. by repeat case_match. Qed.

Lemma step_ctx (line : string) (st : DrainState) :
  only_SID (d_ctx st) (d_ctx (step_state (step w line st))).
Proof.
  unfold step. case_match.
  - pose proof (detect_ctx line (next_line st)) as Hd.
    destruct (detect w line (next_line st)) as [st'| |]; cbn in Hd |- *.
    + rewrite <- Hd. apply dispatch_ctx.
    + rewrite Hd. apply only_SID_refl.
    + rewrite Hd. apply only_SID_refl.
  - apply (dispatch_ctx line (next_line st)).
Qed.

Lemma drain_ctx (lines : list string) (st : DrainState) :
  only_SID (d_ctx st) (d_ctx (step_state (drain w lines st))).
Proof.
  revert st. induction lines as [|line rest IH]; intros st; cbn [drain].
  - apply only_SID_refl.
  - pose proof (step_ctx line st) as Hs.
    destruct (step w line st) as [st'| |]; cbn in Hs |- *; [|done|done].
    eapply only_SID_trans; [exact Hs | apply IH].
Qed.

Lemma finish_ctx (scanErr : option ScanError) (st : DrainState) :
  only_SID (d_ctx st) (d_ctx (finish w scanErr st).1).
Proof.
  unfold finish, Flush, saveContext.
  repeat case_match; simplify_eq; cbn; try apply only_SID_refl; apply only_SID_set.
Qed.

Lemma deferred_ctx (st : DrainState) : d_ctx (deferred w st) = d_ctx st.
Proof. unfold deferred, Flush. by case_match. Qed.

(** The drain changes at most [SID]. *)
Lemma StreamAndLog_lines_frame (c : Context) (lines : list string) (scanErr : option ScanError) :
  only_SID c (res_ctx (StreamAndLog_lines w c lines scanErr)).
Proof.
  unfold StreamAndLog_lines.
  pose proof (drain_ctx lines (initDrain c)) as Hd.
  destruct (drain w lines (initDrain c)) as [st|st|st e]; cbn in Hd.
  - pose proof (finish_ctx scanErr st) as Hf.
    destruct (finish w scanErr st) as [st' err]. cbn in Hf. cbn [res_ctx].
    rewrite deferred_ctx. eapply only_SID_trans; eauto.
  - pose proof (finish_ctx None st) as Hf.
    destruct (finish w None st) as [st' err]. cbn in Hf. cbn [res_ctx].
    rewrite deferred_ctx. eapply only_SID_trans; eauto.
  - cbn [res_ctx]. by rewrite deferred_ctx.
Qed.

Lemma StreamAndLog_frame (c : Context) (r : Reader) :
  only_SID c (res_ctx (StreamAndLog w c r)).
Proof.
  unfold StreamAndLog. destruct (scanReader MaxLineLength r) as [lines scanErr].
  apply StreamAndLog_lines_frame.
Qed.

End InterpreterFacts.

(** C9: building the session flags, preparing the call and draining the
    stream leave ConversationID as it was: of the fields of the context
    the first and the last change at most SessionID, the second at most
    SessionID and the Extensions map. *)
Theorem C9_conversation_id_unchanged (lib : GoLib) (w : World) (rnd : Entropy) (c : Context)
        (genus : GenusConfig) (personaVars : PersonaVars) (cmdArgs : string)
        (stdin : option string) (r : Reader) :
  let c1 := (buildSessionFlags w rnd c genus personaVars).1.1 in
  let c2 := (CallGenus w rnd c cmdArgs stdin).1.1 in
  let c3 := res_ctx (StreamAndLog w c r) in
  (CID c1 = CID c /\ only_SID c c1)
  /\ (CID c2 = CID c /\ only_SID_ENV c c2)
  /\ (CID c3 = CID c /\ only_SID c c3).
Proof.
  cbv zeta.
  pose proof (buildSessionFlags_frame w rnd c genus personaVars) as H1.
  pose proof (CallGenus_frame w rnd c cmdArgs stdin) as H2.
  pose proof (StreamAndLog_frame w c r) as H3.
  repeat split; try done.
  - by apply only_SID_CID.
  - by apply only_SID_ENV_CID.
  - by apply only_SID_CID.
Qed.

(** ** Streaming response interpreter: error records *)

Lemma snapshots_of_app (tr1 tr2 : list Event) :
  snapshots_of (tr1 ++ tr2) = snapshots_of tr1 ++ snapshots_of tr2.
Proof.
  induction tr1 as [|e tr1 IH]; [done|].
  destruct e; cbn; by rewrite ?IH.
Qed.

Lemma sink_of_app (tr1 tr2 : list Event) :
  sink_of (tr1 ++ tr2) = sink_of tr1 +:+ sink_of tr2.
Proof.
  induction tr1 as [|e tr1 IH]; [done|].
  destruct e; cbn [sink_of app]; rewrite ?IH; try done.
  by rewrite append_assoc.
Qed.

Lemma log_of_app (tr1 tr2 : list Event) :
  log_of (tr1 ++ tr2) = log_of tr1 ++ log_of tr2.
Proof.
  induction tr1 as [|e tr1 IH]; [done|].
  destruct e; cbn; by rewrite ?IH.
Qed.

Section ErrorRecords.
Context {lib : GoLib}.
Variable w : World.

Lemma isError_true (data : gmap string JSON) :
  as_bool (data !! "is_error") = Some true -> isError data = true.
Proof. unfold isError. by intros ->. Qed.

(** With the error flag set the context is not touched. *)
Lemma flushSID_error (st : DrainState) :
  d_streamHasError st = true -> flushSID st = st.
Proof. unfold flushSID. intros ->. by rewrite andb_false_r. Qed.

Lemma collectSID_error (data : gmap string JSON) (st : DrainState) :
  d_streamHasError (collectSID data st) = d_streamHasError st.
Proof. unfold collectSID. by repeat case_match. Qed.

Lemma collectSID_trace (data : gmap string JSON) (st : DrainState) :
  d_trace (collectSID data st) = d_trace st.
Proof. unfold collectSID. by repeat case_match. Qed.

Lemma collectSID_pending_empty (data : gmap string JSON) (st : DrainState) :
  d_pendingSID st = "" ->
  d_pendingSID (collectSID data st) = ""
  \/ Some (d_pendingSID (collectSID data st)) = observedSID data.
Proof.
  intros Hp. unfold collectSID. rewrite Hp.
  destruct (observedSID data); [|by left].
  cbn. destruct (d_sidLogged st); cbn; by right.
Qed.

Lemma extractText_error (data : gmap string JSON) (st : DrainState) :
  d_streamHasError (extractText data st).1 = d_streamHasError st.
Proof. unfold extractText. repeat case_match; cbn; by rewrite ?collectSID_error. Qed.

Lemma extractText_trace (data : gmap string JSON) (st : DrainState) :
  d_trace (extractText data st).1 = d_trace st.
Proof. unfold extractText. repeat case_match; cbn; by rewrite ?collectSID_trace. Qed.

Lemma extractText_pending_empty (data : gmap string JSON) (st : DrainState) :
  d_pendingSID st = "" ->
  d_pendingSID (extractText data st).1 = ""
  \/ Some (d_pendingSID (extractText data st).1) = observedSID data.
Proof.
  intros Hp. unfold extractText.
  repeat case_match; cbn; first [by left | by apply collectSID_pending_empty].
Qed.

Lemma logSessionLine_fields (line : string) (data : gmap string JSON) (st : DrainState) :
  d_streamHasError (logSessionLine line data st) = d_streamHasError st
  /\ d_pendingSID (logSessionLine line data st) = d_pendingSID st
  /\ exists evs, d_trace (logSessionLine line data st) = d_trace st ++ evs
                 /\ snapshots_of evs = [] /\ sink_of evs = "".
Proof.
  unfold logSessionLine. case_match; cbn; repeat split; try done.
  - by eexists.
  - exists []. by rewrite app_nil_r.
Qed.

Lemma writeExtracted_fields (text : string) (st : DrainState) :
  d_streamHasError (step_state (writeExtracted w text st)) = d_streamHasError st
  /\ d_pendingSID (step_state (writeExtracted w text st)) = d_pendingSID st
  /\ d_sidSaved (step_state (writeExtracted w text st)) = d_sidSaved st
  /\ exists evs, d_trace (step_state (writeExtracted w text st)) = d_trace st ++ evs
                 /\ snapshots_of evs = [] /\ log_of evs = [] /\ sink_of evs = text.
Proof.
  unfold writeExtracted, WriteString, Flush.
  repeat case_match; simplify_eq; cbn; repeat split; try done;
    rewrite <- ?app_assoc; try (eexists; split; [reflexivity|]; cbn; by rewrite ?append_nil_r).
  exists []. rewrite app_nil_r. cbn. repeat split; try done.
  symmetry. apply eqb_true. by destruct (GoStrings.eqb text "").
Qed.

(** A record whose [is_error] is true. *)
Lemma handleJSON_is_error (line : string) (st : DrainState) (data : gmap string JSON) :
  json_Unmarshal_map line = Some data ->
  as_bool (data !! "is_error") = Some true ->
  let s := handleJSON w line st in
  d_streamHasError (step_state s) = true
  /\ handleJSON w line (set_pending "" st) = s
  /\ (d_pendingSID (step_state s) = ""
      \/ Some (d_pendingSID (step_state s)) = observedSID data)
  /\ d_ctx (step_state s) = d_ctx st
  /\ exists evs, d_trace (step_state s) = d_trace st ++ evs /\ snapshots_of evs = [].
Proof.
  intros Hdec Herr. apply isError_true in Herr. cbv zeta.
  unfold handleJSON. rewrite Hdec. cbv zeta. unfold markError. rewrite Herr.
  split; [|split; [done|]].
  - case_match.
    + unfold handleErrorRecord, WriteString, Flush. by case_match.
    + destruct (extractText data _) as [st1 text] eqn:Hx.
      assert (d_streamHasError st1 = true) as He.
      { change st1 with (st1, text).1. rewrite <- Hx.
        rewrite extractText_error.
        by destruct (logSessionLine_fields line data (set_pending "" (set_error st))) as [-> _]. }
      rewrite (flushSID_error st1 He).
      by destruct (writeExtracted_fields text st1) as [-> _].
  - case_match.
    + unfold handleErrorRecord, WriteString, Flush.
      case_match; cbn; (split; [by left|]); (split; [done|]).
      * rewrite <- app_assoc. by eexists.
      * exists []. by rewrite app_nil_r.
    + destruct (extractText data _) as [st1 text] eqn:Hx.
      destruct (logSessionLine_fields line data (set_pending "" (set_error st)))
        as (Hl1 & Hl2 & evs1 & Hl3 & Hl4 & _).
      assert (d_streamHasError st1 = true) as He.
      { change st1 with (st1, text).1. rewrite <- Hx. by rewrite extractText_error, Hl1. }
      rewrite (flushSID_error st1 He).
      destruct (writeExtracted_fields text st1) as (_ & Hw2 & _ & evs2 & Hw3 & Hw4 & _).
      rewrite Hw2, Hw3, writeExtracted_ctx.
      assert (st1 = (extractText data (logSessionLine line data (set_pending "" (set_error st)))).1)
        as -> by by rewrite Hx.
      split; [|split].
      * by apply extractText_pending_empty.
      * by rewrite extractText_ctx, logSessionLine_ctx.
      * rewrite extractText_trace, Hl3. cbn. rewrite <- app_assoc.
        eexists; split; [reflexivity|]. by rewrite snapshots_of_app, Hl4, Hw4.
Qed.

(** A record typed "error": its message goes to the sink, nothing is
    logged. *)
Lemma handleJSON_type_error (line : string) (st : DrainState) (data : gmap string JSON) :
  json_Unmarshal_map line = Some data ->
  as_string (data !! "type") = Some "error" ->
  exists st',
    handleJSON w line st = Next st'
    /\ d_trace st' = d_trace st ++ [EvSinkWrite (errorMessage data +:+ nl); EvSinkFlush]
    /\ d_ctx st' = d_ctx st
    /\ d_sidSaved st' = d_sidSaved st
    /\ d_streamHasError st' = d_streamHasError st || isError data
    /\ (d_pendingSID st' = "" \/ d_pendingSID st' = d_pendingSID st).
Proof.
  intros Hdec Hty. unfold handleJSON. rewrite Hdec. cbv zeta.
  unfold isErrorRecord. rewrite Hty, eqb_refl. cbn [orb].
  unfold handleErrorRecord, WriteString, Flush. rewrite Hty.
  rewrite bool_decide_eq_true_2 by done.
  unfold markError.
  destruct (isError data); cbn;
    eexists; (split; [reflexivity|]); cbn; rewrite <- ?app_assoc, ?orb_true_r, ?orb_false_r;
    repeat split; try done; by (left + right).
Qed.

(** A record typed "error" whose [is_error] is not true: the error
    flag and the pending candidate stay as they are. *)
Lemma handleJSON_type_error_unflagged (line : string) (st : DrainState)
      (data : gmap string JSON) :
  json_Unmarshal_map line = Some data ->
  as_string (data !! "type") = Some "error" ->
  as_bool (data !! "is_error") <> Some true ->
  d_streamHasError (step_state (handleJSON w line st)) = d_streamHasError st
  /\ d_pendingSID (step_state (handleJSON w line st)) = d_pendingSID st.
Proof.
  intros Hdec Hty Herr. unfold handleJSON. rewrite Hdec. cbv zeta.
  assert (isError data = false) as He.
  { unfold isError. destruct (as_bool (data !! "is_error")) as [[]|]; done. }
  unfold isErrorRecord, markError. rewrite Hty, He, eqb_refl. cbn [orb].
  unfold handleErrorRecord, WriteString, Flush. rewrite Hty.
  rewrite bool_decide_eq_true_2 by done. done.
Qed.

(** The text read from an entry. *)
Lemma text_of_entry (v : option JSON) :
  (forall m, holds_text v m -> default "" (as_string v) = m)
  /\ (no_text v -> default "" (as_string v) = "").
Proof.
  split.
  - by intros m [-> _].
  - intros Hno. destruct v as [[]|]; try done. cbn. by apply Hno.
Qed.

Lemma entry_text_or_not (v : option JSON) : (exists m, holds_text v m) \/ no_text v.
Proof.
  destruct v as [[| | |s| |]|]; try (right; intros m; discriminate).
  destruct (decide (s = "")) as [->|Hs].
  - right. by intros m [= <-].
  - left. by exists s.
Qed.

Lemma holds_text_inj (v : option JSON) (m m' : string) :
  holds_text v m -> holds_text v m' -> m = m'.
Proof. intros [H _] [H' _]. congruence. Qed.

Lemma holds_no_text (v : option JSON) (m : string) : holds_text v m -> no_text v -> False.
Proof. intros [H Hne] Hno. by apply Hne, Hno. Qed.

(** The message of an error record, by the entries of the record: the
    first non-empty string among [.error.message], [.result] and
    [.message], and a fixed text when there is none. *)
Lemma errorMessage_cases (data : gmap string JSON) :
  errorMessage data <> ""
  /\ (forall m, holds_text (nested_error_message data) m -> errorMessage data = m)
  /\ (forall m, no_text (nested_error_message data) ->
                holds_text (data !! "result") m -> errorMessage data = m)
  /\ (forall m, no_text (nested_error_message data) -> no_text (data !! "result") ->
                holds_text (data !! "message") m -> errorMessage data = m)
  /\ (no_text (nested_error_message data) -> no_text (data !! "result") ->
      no_text (data !! "message") -> errorMessage data = "Unknown API error").
Proof.
  unfold errorMessage.
  assert (match as_map (data !! "error") with
          | Some err => default "" (as_string (err !! "message"))
          | None => ""
          end = default "" (as_string (nested_error_message data))) as ->.
  { unfold nested_error_message. by destruct (data !! "error") as [[]|]. }
  destruct (text_of_entry (nested_error_message data)) as [N1 N0].
  destruct (text_of_entry (data !! "result")) as [R1 R0].
  destruct (text_of_entry (data !! "message")) as [M1 M0].
  assert (forall v m, holds_text v m -> GoStrings.eqb m "" = false) as Hne.
  { intros v m [_ H]. by apply eqb_false. }
  destruct (entry_text_or_not (nested_error_message data)) as [[x Hx]|Hx].
  { rewrite (N1 x Hx), !(Hne _ x Hx).
    repeat split; try (intros; exfalso; eauto using holds_no_text; fail).
    - by destruct Hx.
    - intros m Hm. by apply (holds_text_inj _ _ _ Hx Hm). }
  rewrite (N0 Hx), eqb_refl.
  destruct (entry_text_or_not (data !! "result")) as [[y Hy]|Hy].
  { rewrite (R1 y Hy), !(Hne _ y Hy).
    repeat split; try (intros; exfalso; eauto using holds_no_text; fail).
    - by destruct Hy.
    - intros m _ Hm. by apply (holds_text_inj _ _ _ Hy Hm). }
  rewrite (R0 Hy), eqb_refl.
  destruct (entry_text_or_not (data !! "message")) as [[z Hz]|Hz].
  { rewrite (M1 z Hz), !(Hne _ z Hz).
    repeat split; try (intros; exfalso; eauto using holds_no_text; fail).
    - by destruct Hz.
    - intros m _ _ Hm. by apply (holds_text_inj _ _ _ Hz Hm). }
  rewrite (M0 Hz), eqb_refl.
  repeat split; try (intros; exfalso; eauto using holds_no_text; fail); done.
Qed.

(** A record typed "result" that is flagged as an error: nothing is
    written, neither to the sink nor to the log. *)
Lemma handleJSON_result_error (line : string) (st : DrainState) (data : gmap string JSON) :
  json_Unmarshal_map line = Some data ->
  as_string (data !! "type") = Some "result" ->
  as_bool (data !! "is_error") = Some true ->
  handleJSON w line st = Next (set_pending "" (set_error st)).
Proof.
  intros Hdec Hty Herr. apply isError_true in Herr.
  unfold handleJSON. rewrite Hdec. cbv zeta.
  unfold isErrorRecord, markError, handleErrorRecord. rewrite Hty, Herr.
  assert (GoStrings.eqb "result" "error" = false) as -> by by apply eqb_false.
  rewrite eqb_refl. cbn [orb andb].
  rewrite bool_decide_eq_false_2 by (intros [=]). done.
Qed.

(** The error flag is sticky. *)
Lemma handleJSON_sticky (line : string) (st : DrainState) :
  d_streamHasError st = true -> d_streamHasError (step_state (handleJSON w line st)) = true.
Proof.
  intros He. unfold handleJSON.
  destruct (json_Unmarshal_map line) as [data|]; [|done]. cbv zeta.
  assert (d_streamHasError (markError data st) = true) as Hm.
  { unfold markError. by case_match. }
  case_match.
  - unfold handleErrorRecord, WriteString, Flush. by case_match.
  - destruct (extractText data _) as [st1 text] eqn:Hx.
    assert (d_streamHasError st1 = true) as He1.
    { change st1 with (st1, text).1. rewrite <- Hx. rewrite extractText_error.
      by destruct (logSessionLine_fields line data (markError data st)) as [-> _]. }
    rewrite (flushSID_error st1 He1).
    by destruct (writeExtracted_fields text st1) as [-> _].
Qed.

Lemma handleText_error (line : string) (st : DrainState) :
  d_streamHasError (step_state (handleText w line st)) = d_streamHasError st.
Proof. unfold handleText, WriteString, Flush. by repeat case_match. Qed.

Lemma handleOther_error (line : string) (st : DrainState) :
  d_streamHasError (step_state (handleOther w line st)) = d_streamHasError st.
Proof. unfold handleOther, WriteString. by repeat case_match. Qed.

Lemma detect_error (line : string) (st : DrainState) :
  d_streamHasError (step_state (detect w line st)) = d_streamHasError st.
Proof. unfold detect, saveContext. by repeat case_match. Qed.

Lemma dispatch_sticky (line : string) (st : DrainState) :
  d_streamHasError st = true -> d_streamHasError (step_state (dispatch w line st)) = true.
Proof.
  intros He. unfold dispatch. repeat case_match.
  - done.
  - by apply handleJSON_sticky.
  - by rewrite handleText_error.
  - by rewrite handleOther_error.
Qed.

Lemma step_sticky (line : string) (st : DrainState) :
  d_streamHasError st = true -> d_streamHasError (step_state (step w line st)) = true.
Proof.
  intros He. unfold step. case_match.
  - pose proof (detect_error line (next_line st)) as Hd.
    destruct (detect w line (next_line st)) as [st'| |]; cbn in Hd |- *.
    + apply dispatch_sticky. by rewrite Hd.
    + by rewrite Hd.
    + by rewrite Hd.
  - by apply (dispatch_sticky line (next_line st)).
Qed.

(** Format detection when the directory and the log can be set up. *)
Lemma detect_ok (line log3 : string) (st : DrainState) :
  w_mkdir_fails w (DIR (d_ctx st)) = false ->
  Log3 w (d_ctx st) = Ok log3 ->
  w_open_fails w log3 = false ->
  detect w line st =
    Next (set_logFile (Some log3)
            (emit (EvOpenLog log3)
               (emit (EvSaveContext (d_ctx st))
                  (emit (EvMkdirAll (DIR (d_ctx st)))
                     (set_format (detectFormat line) st))))).
Proof.
  intros Hmk Hlog Hop. unfold detect, saveContext.
  cbn [set_format emit d_ctx]. by rewrite Hmk, Hlog, Hop.
Qed.

(** Below the ceiling a structured stream goes to the JSON handler. *)
Lemma dispatch_json (line : string) (st : DrainState) :
  d_totalOutput st < MaxOutputSize ->
  d_format st = "json" ->
  dispatch w line st = handleJSON w line st.
Proof.
  intros Hlt Hf. unfold dispatch. rewrite Hf.
  destruct (Z.leb_spec MaxOutputSize (d_totalOutput st)); [lia|done].
Qed.

(** A stream that consists of one record typed "error". *)
Lemma drain_one_error_record (c : Context) (line log3 : string) (data : gmap string JSON) :
  line <> "" ->
  detectFormat line = "json" ->
  json_Unmarshal_map line = Some data ->
  as_string (data !! "type") = Some "error" ->
  w_mkdir_fails w (DIR c) = false ->
  Log3 w c = Ok log3 ->
  w_open_fails w log3 = false ->
  (forall k, w_sink_fails w k = false) ->
  let r := StreamAndLog_lines w c [line] None in
  sink_of (res_trace r) = errorMessage data +:+ nl
  /\ log_of (res_trace r) = []
  /\ res_ctx r = c
  /\ res_err r = None.
Proof.
  intros Hne Hfmt Hdec Hty Hmk Hlog Hop Hsink. cbv zeta.
  unfold StreamAndLog_lines. cbn [drain].
  unfold step. cbn [initDrain next_line d_format].
  rewrite eqb_refl. apply eqb_false in Hne. rewrite Hne. cbn [negb andb].
  rewrite (detect_ok line log3) by done.
  rewrite dispatch_json by (cbn; done).
  match goal with |- context [handleJSON w line ?st] =>
    destruct (handleJSON_type_error line st data Hdec Hty)
      as (st' & -> & Htr & Hctx & Hsaved & Herr & Hpend) end.
  cbn in Htr, Hctx, Hsaved, Herr.
  unfold finish, Flush, sink_failed. rewrite Hsink. cbn [emit d_streamHasError d_sidSaved].
  rewrite Hsaved, Herr. cbn [negb andb orb].
  unfold deferred, Flush, saveContext.
  assert (GoStrings.eqb (d_pendingSID st') "" = true) as Hp.
  { apply eqb_true. by destruct Hpend. }
  destruct (isError data);
    cbn; rewrite ?Hp; cbn; case_match; cbn; rewrite Htr, ?Hctx;
    rewrite ?sink_of_app, ?log_of_app; cbn; rewrite ?append_nil_r; done.
Qed.

End ErrorRecords.

(** C3 (as stated, refuted): the record typed "error" of the claim
    carries no [is_error]; the code treats it as an explicit error type
    and writes its message, but it neither sets the error flag nor
    discards the pending SessionID candidate, and the session
    identifier of an assistant record that follows it is applied to the
    context and saved. *)
Lemma C3_counterexample :
  json_Unmarshal_map (GoLib := RefLib) error_line = Some error_data
  /\ isErrorRecord error_data = true
  /\ (let s := handleJSON (lib := RefLib) world0 error_line
                 (set_pending sid2 (initDrain ctx_architect)) in
      d_streamHasError (step_state s) = false /\ d_pendingSID (step_state s) = sid2)
  /\ (let r := StreamAndLog (lib := RefLib) world0 ctx_architect
                 (reader_of error_then_assistant) in
      sink_of (res_trace r) = "boom" +:+ nl +:+ "hi"
      /\ SID (res_ctx r) = sid2
      /\ In (EvSaveContext (set_SID ctx_architect sid2)) (res_trace r)).
Proof. vm_compute. repeat split; tauto. Qed.

(** C3 (amended): in structured-format draining, (1) a record whose
    field [is_error] is the boolean true sets the error flag, discards
    the pending SessionID candidate (the outcome does not depend on it,
    and what is pending afterwards is nothing or what this very record
    carries), leaves the context alone and writes no snapshot; (2) the
    flag is sticky; (3) a record typed "error" whose [is_error] is not
    true leaves the flag and the pending candidate as they are; (4) a
    record typed "error" writes its extracted message and a newline to
    the sink and nothing to the log, the message being the first
    non-empty string among [.error.message], [.result] and [.message],
    and "Unknown API error" when there is none, while (5) a record
    typed "result" that is flagged as an error writes nothing at all;
    (6) a stream made of one record typed "error" whose message is the
    string under [.message] leaves that message and a newline in the
    sink, no log record, and the context as it was, in general and (7)
    for the record {"type":"error","message":"boom"} itself. *)
Theorem C3_error_records (lib : GoLib) (w : World) (line : string) (st : DrainState)
        (data : gmap string JSON) :
  json_Unmarshal_map line = Some data ->
  (as_bool (data !! "is_error") = Some true ->
   let s := handleJSON w line st in
   d_streamHasError (step_state s) = true
   /\ handleJSON w line (set_pending "" st) = s
   /\ (d_pendingSID (step_state s) = ""
       \/ Some (d_pendingSID (step_state s)) = observedSID data)
   /\ d_ctx (step_state s) = d_ctx st
   /\ exists evs, d_trace (step_state s) = d_trace st ++ evs /\ snapshots_of evs = [])
  /\ (forall line', d_streamHasError st = true ->
       d_streamHasError (step_state (step w line' st)) = true)
  /\ (as_string (data !! "type") = Some "error" ->
      as_bool (data !! "is_error") <> Some true ->
      d_streamHasError (step_state (handleJSON w line st)) = d_streamHasError st
      /\ d_pendingSID (step_state (handleJSON w line st)) = d_pendingSID st)
  /\ (as_string (data !! "type") = Some "error" ->
      exists st' msg,
        handleJSON w line st = Next st'
        /\ d_trace st' = d_trace st ++ [EvSinkWrite (msg +:+ nl); EvSinkFlush]
        /\ d_ctx st' = d_ctx st
        /\ msg <> ""
        /\ (forall m, holds_text (nested_error_message data) m -> msg = m)
        /\ (forall m, no_text (nested_error_message data) ->
                      holds_text (data !! "result") m -> msg = m)
        /\ (forall m, no_text (nested_error_message data) -> no_text (data !! "result") ->
                      holds_text (data !! "message") m -> msg = m)
        /\ (no_text (nested_error_message data) -> no_text (data !! "result") ->
            no_text (data !! "message") -> msg = "Unknown API error"))
  /\ (as_string (data !! "type") = Some "result" ->
      as_bool (data !! "is_error") = Some true ->
      handleJSON w line st = Next (set_pending "" (set_error st)))
  /\ (forall c log3 msg,
        line <> "" -> detectFormat line = "json" ->
        as_string (data !! "type") = Some "error" ->
        no_text (nested_error_message data) -> no_text (data !! "result") ->
        holds_text (data !! "message") msg ->
        w_mkdir_fails w (DIR c) = false -> Log3 w c = Ok log3 ->
        w_open_fails w log3 = false -> (forall k, w_sink_fails w k = false) ->
        let r := StreamAndLog_lines w c [line] None in
        sink_of (res_trace r) = msg +:+ nl
        /\ log_of (res_trace r) = []
        /\ res_ctx r = c
        /\ res_err r = None)
  /\ (let r := StreamAndLog (lib := RefLib) world0 ctx_architect
                 (reader_of (error_line +:+ nl)) in
      sink_of (res_trace r) = "boom" +:+ nl
      /\ log_of (res_trace r) = []
      /\ SID (res_ctx r) = SID ctx_architect
      /\ res_err r = None).
Proof.
  intros Hdec. split; [|split; [|split; [|split; [|split; [|split]]]]].
  - intros Herr. by apply (handleJSON_is_error w line st data).
  - intros line'. apply step_sticky.
  - intros Hty Herr. by apply (handleJSON_type_error_unflagged w line st data).
  - intros Hty.
    destruct (handleJSON_type_error w line st data Hdec Hty) as (st' & H1 & H2 & H3 & _).
    exists st', (errorMessage data). repeat split; try done; apply errorMessage_cases.
  - intros Hty Herr. by apply (handleJSON_result_error w line st data).
  - intros c log3 msg Hne Hfmt Hty Hn Hr Hm Hmk Hlog Hop Hsink.
    destruct (errorMessage_cases data) as (_ & _ & _ & Hmsg & _).
    rewrite <- (Hmsg msg Hn Hr Hm).
    by apply (drain_one_error_record w c line log3 data).
  - vm_compute. done.
Qed.

(** C3 at a concrete input: the record typed "error" with the message
    "boom", decoded by the reference decoder. *)
Lemma C3_witness :
  json_Unmarshal_map (GoLib := RefLib) error_line = Some error_data
  /\ (let r := StreamAndLog_lines (lib := RefLib) world0 ctx_architect [error_line] None in
      sink_of (res_trace r) = "boom" +:+ nl
      /\ log_of (res_trace r) = []
      /\ res_ctx r = ctx_architect
      /\ res_err r = None).
Proof.
  split; [vm_compute; reflexivity|].
  destruct (C3_error_records RefLib world0 error_line (initDrain ctx_architect) error_data)
    as (_ & _ & _ & _ & _ & H & _); [vm_compute; reflexivity|].
  apply (H ctx_architect log2_architect "boom"); try (vm_compute; reflexivity).
  - vm_compute. discriminate.
  - intros m. vm_compute. discriminate.
  - intros m. vm_compute. discriminate.
  - split; [vm_compute; reflexivity | discriminate].
Defined.

(** ** Streaming response interpreter: session identifiers *)

Section SessionPropagation.
Context {lib : GoLib}.
Variable w : World.

(** While a candidate is pending, a later identifier is not taken. *)
Lemma collectSID_keeps (data : gmap string JSON) (st : DrainState) :
  d_pendingSID st <> "" -> collectSID data st = st.
Proof.
  intros Hp. apply eqb_false in Hp. unfold collectSID. rewrite Hp.
  by destruct (observedSID data).
Qed.

Lemma observedSID_nonempty (data : gmap string JSON) (sid : ID) :
  observedSID data = Some sid -> sid <> "".
Proof.
  unfold observedSID. intros Hobs ->.
  repeat case_match; simplify_eq.
  all: match goal with H : negb (GoStrings.eqb "" "") = true |- _ =>
         by rewrite eqb_refl in H end.
Qed.

(** The first identifier observed on an assistant record is applied to
    the context and persisted while that record is handled, before its
    text reaches the sink. *)
Lemma handleJSON_first_observation (line : string) (st : DrainState) (data : gmap string JSON)
      (sid : ID) :
  json_Unmarshal_map line = Some data ->
  as_string (data !! "type") = Some "assistant" ->
  isError data = false ->
  observedSID data = Some sid ->
  d_pendingSID st = "" ->
  d_streamHasError st = false ->
  sid <> SID (d_ctx st) ->
  let s := handleJSON w line st in
  d_ctx (step_state s) = set_SID (d_ctx st) sid
  /\ d_pendingSID (step_state s) = sid
  /\ exists evs1 evs2,
      d_trace (step_state s)
      = d_trace st ++ evs1 ++ [EvSaveContext (set_SID (d_ctx st) sid)] ++ evs2
      /\ sink_of evs1 = "" /\ snapshots_of evs1 = [] /\ snapshots_of evs2 = [].
Proof.
  intros Hdec Hty Herr Hobs Hp He Hne. cbv zeta.
  pose proof (observedSID_nonempty data sid Hobs) as Hsid.
  unfold handleJSON. rewrite Hdec. cbv zeta.
  unfold markError, isErrorRecord. rewrite Herr, Hty.
  assert (GoStrings.eqb "assistant" "error" = false) as -> by by apply eqb_false.
  rewrite andb_false_r. cbn [orb].
  destruct (logSessionLine_fields line data st) as (Hl1 & Hl2 & evs1 & Hl3 & Hl4 & Hl5).
  pose proof (logSessionLine_ctx line data st) as Hl0.
  set (st1 := logSessionLine line data st) in *.
  unfold extractText. rewrite Hty, bool_decide_eq_true_2 by done.
  set (text := match as_map (data !! "message") with Some msg => contentText msg | None => "" end).
  assert (d_pendingSID (collectSID data st1) = sid
          /\ d_streamHasError (collectSID data st1) = false
          /\ d_ctx (collectSID data st1) = d_ctx st
          /\ d_trace (collectSID data st1) = d_trace st ++ evs1) as (Hc1 & Hc2 & Hc3 & Hc4).
  { rewrite collectSID_error, collectSID_ctx, collectSID_trace.
    rewrite Hl0, Hl1, Hl3. repeat split; try done.
    unfold collectSID. rewrite Hobs, Hl2, Hp, eqb_refl. cbn [andb].
    by destruct (d_sidLogged st1). }
  set (st2 := collectSID data st1) in *.
  assert (flushSID st2 = saveContext (set_sidSaved (set_ctx (set_SID (d_ctx st) sid) st2))) as ->.
  { unfold flushSID. rewrite Hc1, Hc2, Hc3.
    apply eqb_false in Hsid, Hne. by rewrite Hsid, Hne. }
  match goal with |- context [writeExtracted w text ?s] =>
    destruct (writeExtracted_fields w text s) as (_ & Hw2 & _ & evs2 & Hw3 & Hw4 & _);
    rewrite (writeExtracted_ctx w text s), Hw2, Hw3 end.
  cbn. rewrite Hc4. repeat split; try done.
  exists evs1, evs2. by rewrite <- !app_assoc.
Qed.

(** A record that is not an error record and arrives while a candidate
    is pending leaves the candidate as it is: a second identifier is
    not taken up. *)
Lemma handleJSON_second_observation (line : string) (st : DrainState) (data : gmap string JSON) :
  json_Unmarshal_map line = Some data ->
  isError data = false ->
  d_pendingSID st <> "" ->
  d_pendingSID (step_state (handleJSON w line st)) = d_pendingSID st
  /\ (d_pendingSID st = SID (d_ctx st) ->
      d_ctx (step_state (handleJSON w line st)) = d_ctx st).
Proof.
  intros Hdec Herr Hp. unfold handleJSON. rewrite Hdec. cbv zeta.
  unfold markError. rewrite Herr.
  case_match.
  { unfold handleErrorRecord, WriteString, Flush. by case_match. }
  destruct (logSessionLine_fields line data st) as (Hl1 & Hl2 & _).
  pose proof (logSessionLine_ctx line data st) as Hl0.
  assert (extractText data (logSessionLine line data st)
          = (logSessionLine line data st, (extractText data (logSessionLine line data st)).2)) as ->.
  { unfold extractText. repeat case_match; try done; cbn;
      (rewrite collectSID_keeps; [done | by rewrite Hl2]). }
  set (text := (extractText data (logSessionLine line data st)).2).
  set (st1 := logSessionLine line data st) in *.
  assert (d_pendingSID (flushSID st1) = d_pendingSID st) as Hf1.
  { unfold flushSID. by case_match. }
  destruct (writeExtracted_fields w text (flushSID st1)) as (_ & -> & _).
  split; [done|]. intros Heq.
  rewrite writeExtracted_ctx. unfold flushSID.
  rewrite Hl2, Heq, Hl0, eqb_refl. by rewrite andb_false_r.
Qed.

End SessionPropagation.

(** C4 (defect of the code): two assistant records arrive; the first
    carries session [sid2], the second session [sid3].  No error is
    seen.  The first identifier is applied and persisted when its
    record is handled; the second, which differs from the SessionID the
    context then has, is neither applied nor persisted: the drain ends
    with SessionID [sid2] and the snapshots written are the one of
    format detection and the one for [sid2]. *)
Theorem C4_second_identifier_not_applied :
  let r := StreamAndLog (lib := RefLib) world0 ctx_architect (reader_of two_sid_stream) in
  res_err r = None
  /\ SID (res_ctx r) = sid2
  /\ SID <$> snapshots_of (res_trace r) = [cid1; sid2]
  /\ sink_of (res_trace r) = "hiho".
Proof. vm_compute. done. Qed.

(** ** Streaming response interpreter: deferral of the storage operations *)

Lemma storage_events_app (tr1 tr2 : list Event) :
  storage_events (tr1 ++ tr2) = storage_events tr1 ++ storage_events tr2.
Proof. unfold storage_events. apply List.filter_app. Qed.

Section Deferral.
Context {lib : GoLib}.
Variable w : World.

(** A blank line before the format is known goes to the default arm:
    a newline is written and nothing else happens. *)
Lemma step_blank (st : DrainState) :
  d_format st = "" ->
  d_totalOutput st < MaxOutputSize ->
  step w "" st =
    let st1 := emit (EvSinkWrite nl) (add_output 0 (next_line st)) in
    if sink_failed w st then Return st1 EWriteOutput else Next st1.
Proof.
  intros Hf Hlt. unfold step. cbv zeta.
  change (d_format (next_line st)) with (d_format st). rewrite Hf, eqb_refl.
  cbn [negb andb]. unfold dispatch.
  change (d_format (next_line st)) with (d_format st).
  change (d_totalOutput (next_line st)) with (d_totalOutput st). rewrite Hf.
  destruct (Z.leb_spec MaxOutputSize (d_totalOutput st)); [lia|].
  assert (GoStrings.eqb "" "json" = false) as -> by by apply eqb_false.
  assert (GoStrings.eqb "" "text" = false) as -> by by apply eqb_false.
  assert (GoStrings.eqb "" "empty" = false) as -> by by apply eqb_false.
  cbn [orb]. unfold handleOther, WriteString. cbn [String.length Z.of_nat].
  unfold sink_failed. cbn. by case_match.
Qed.

(** No storage operation is performed while only blank lines have been
    read. *)
Lemma drain_blank_lines (lines : list string) (st : DrainState) :
  Forall (fun line => line = "") lines ->
  d_format st = "" ->
  d_totalOutput st < MaxOutputSize ->
  let s := drain w lines st in
  d_format (step_state s) = ""
  /\ d_ctx (step_state s) = d_ctx st
  /\ d_streamHasError (step_state s) = d_streamHasError st
  /\ d_sidSaved (step_state s) = d_sidSaved st
  /\ d_pendingSID (step_state s) = d_pendingSID st
  /\ d_logFile (step_state s) = d_logFile st
  /\ ((forall k, w_sink_fails w k = false) -> s = Next (step_state s))
  /\ exists evs, d_trace (step_state s) = d_trace st ++ evs /\ storage_events evs = [].
Proof.
  intros Hall. revert st. induction Hall as [|line rest -> _ IH]; intros st Hf Hlt; cbv zeta.
  - cbn. repeat split; try done. exists []. by rewrite app_nil_r.
  - cbn [drain]. rewrite step_blank by done. cbv zeta.
    destruct (sink_failed w st) eqn:Hs.
    + cbn. repeat split; try done.
      * intros Hsink. unfold sink_failed in Hs. by rewrite Hsink in Hs.
      * by eexists.
    + match goal with |- context [drain w rest ?s] =>
        destruct (IH s) as (H1 & H2 & H3 & H4 & H5 & H6 & H7 & evs & H8 & H9);
        [done | change (d_totalOutput st + 0 < MaxOutputSize); lia |] end.
      cbn in H2, H3, H4, H5, H6, H8.
      repeat split; try done.
      exists (EvSinkWrite nl :: evs). rewrite H8, <- app_assoc. done.
Qed.

(** A stream without a non-empty line: the loop performs no storage
    operation, the code after the loop writes the snapshot. *)
Lemma StreamAndLog_lines_blank (c : Context) (lines : list string) :
  Forall (fun line => line = "") lines ->
  (forall k, w_sink_fails w k = false) ->
  let r := StreamAndLog_lines w c lines None in
  res_err r = None /\ storage_events (res_trace r) = [EvSaveContext c].
Proof.
  intros Hall Hsink. cbv zeta. unfold StreamAndLog_lines.
  destruct (drain_blank_lines lines (initDrain c) Hall)
    as (H1 & H2 & H3 & H4 & H5 & H6 & H7 & evs & H8 & H9); [done | done |].
  rewrite (H7 Hsink). set (st := step_state (drain w lines (initDrain c))) in *.
  cbn in H2, H3, H4, H5, H6, H8.
  unfold finish, Flush, sink_failed. rewrite Hsink.
  cbn [emit d_streamHasError d_sidSaved d_pendingSID d_ctx].
  rewrite H3, H4, H5. cbn [negb andb]. rewrite eqb_refl. cbn [negb andb].
  unfold deferred, saveContext, Flush. cbn [emit d_logFile d_ctx d_trace].
  rewrite H6. rewrite bool_decide_eq_false_2 by (intros E; by apply E).
  cbn. rewrite H2, H8. split; [done|].
  rewrite <- !app_assoc. rewrite storage_events_app, H9. done.
Qed.

End Deferral.

(** C6 (defect of the code): a stream that delivers nothing.  The
    drain reads no line, and yet the code after the loop writes the
    Context Snapshot: the storage operations of the trace are that one
    write.  (The positive half of the claim holds: while only blank
    lines have been read the loop performs no storage operation.) *)
Theorem C6_snapshot_written_without_output :
  let r := StreamAndLog (lib := RefLib) world0 ctx_architect (reader_of "") in
  res_err r = None
  /\ res_trace r = [EvSinkFlush; EvSaveContext ctx_architect; EvSinkFlush]
  /\ storage_events (res_trace r) = [EvSaveContext ctx_architect].
Proof. vm_compute. done. Qed.

(** ** Streaming response interpreter: the output ceiling *)

Lemma scan_repeat_line (n : nat) :
  scanLines MaxLineLength (repeat_line n "a") = (replicate n "a", false).
Proof.
  unfold scanLines. induction n as [|n IH]; [done|].
  cbn [repeat_line replicate].
  change ("a" +:+ nl +:+ repeat_line n "a")
    with (String "a"%char (String LF (repeat_line n "a"))).
  cbn [scan_go]. change (Ascii.eqb "a" LF) with false. cbn match.
  change (MaxLineLength <=? 0 + 1) with false. cbn match.
  change (Ascii.eqb LF LF) with true. cbn match.
  rewrite IH. done.
Qed.

Lemma length_repeat_line (n : nat) :
  Z.of_nat (String.length (repeat_line n "a")) = 2 * Z.of_nat n.
Proof.
  induction n as [|n IH]; [done|].
  cbn [repeat_line].
  change ("a" +:+ nl +:+ repeat_line n "a")
    with (String "a"%char (String LF (repeat_line n "a"))).
  cbn [String.length]. lia.
Qed.

Lemma sink_of_text_events (c : Context) (line : string) (n : nat) :
  sink_of (text_events c line n) = repeat_line n line.
Proof.
  induction n as [|n IH]; [done|].
  cbn [text_events repeat_line app sink_of]. by rewrite IH, append_assoc.
Qed.

Lemma text_events_no_notice (c : Context) (n : nat) :
  ~ In (EvSinkWrite truncationNotice) (text_events c "a" n).
Proof.
  induction n as [|n IH]; [by intros []|].
  cbn [text_events app]. intros [H|[H|[H|H]]]; try discriminate; by apply IH.
Qed.

Section Ceiling.
Context {lib : GoLib}.
Variable w : World.
Hypothesis sink_ok : forall k, w_sink_fails w k = false.

(** At the ceiling an iteration writes the notice and leaves the loop. *)
Lemma dispatch_at_ceiling (line : string) (st : DrainState) :
  MaxOutputSize <= d_totalOutput st ->
  dispatch w line st = Break (emit (EvSinkWrite truncationNotice) st).
Proof.
  intros Hge. unfold dispatch.
  destruct (Z.leb_spec MaxOutputSize (d_totalOutput st)); [done|lia].
Qed.

(** Once the format is known, an iteration that starts at the ceiling
    writes the notice and ends the loop, whatever lines are left: the
    notice is written once. *)
Lemma drain_at_ceiling (line : string) (rest : list string) (st : DrainState) :
  d_format st <> "" ->
  MaxOutputSize <= d_totalOutput st ->
  drain w (line :: rest) st = Break (emit (EvSinkWrite truncationNotice) (next_line st)).
Proof.
  intros Hf Hge. cbn [drain]. unfold step. cbv zeta.
  change (d_format (next_line st)) with (d_format st).
  apply eqb_false in Hf. rewrite Hf. cbn [andb].
  by rewrite dispatch_at_ceiling.
Qed.

(** Below the ceiling a non-empty plain-text line is written with its
    newline, flushed and logged; its bytes without the newline are
    counted. *)
Lemma step_text_line (line : string) (st : DrainState) :
  line <> "" ->
  d_format st = "text" ->
  d_totalOutput st < MaxOutputSize ->
  step w line st =
    Next (emit (EvLogWrite (LogMessage (mkMessage (SID (d_ctx st)) "assistant" line)))
            (emit EvSinkFlush
               (emit (EvSinkWrite (line +:+ nl))
                  (add_output (Z.of_nat (String.length line)) (next_line st))))).
Proof.
  intros Hne Hf Hlt. unfold step. cbv zeta.
  change (d_format (next_line st)) with (d_format st). rewrite Hf.
  assert (GoStrings.eqb "text" "" = false) as -> by by apply eqb_false.
  cbn [andb]. unfold dispatch.
  change (d_format (next_line st)) with (d_format st).
  change (d_totalOutput (next_line st)) with (d_totalOutput st). rewrite Hf.
  destruct (Z.leb_spec MaxOutputSize (d_totalOutput st)); [lia|].
  assert (GoStrings.eqb "text" "json" = false) as -> by by apply eqb_false.
  rewrite eqb_refl. cbn [orb].
  unfold handleText, WriteString, Flush, sink_failed. rewrite !sink_ok.
  apply eqb_false in Hne. rewrite Hne. done.
Qed.

Lemma drain_text_lines (line : string) (n : nat) (st : DrainState) :
  line <> "" ->
  d_format st = "text" ->
  d_totalOutput st + Z.of_nat n * Z.of_nat (String.length line) <= MaxOutputSize ->
  exists st',
    drain w (replicate n line) st = Next st'
    /\ d_ctx st' = d_ctx st
    /\ d_streamHasError st' = d_streamHasError st
    /\ d_sidSaved st' = d_sidSaved st
    /\ d_pendingSID st' = d_pendingSID st
    /\ d_logFile st' = d_logFile st
    /\ d_trace st' = d_trace st ++ text_events (d_ctx st) line n.
Proof.
  intros Hne. revert st. induction n as [|n IH]; intros st Hf Hle.
  - exists st. cbn. by rewrite app_nil_r.
  - assert (0 < Z.of_nat (String.length line)) as Hpos.
    { destruct line; [done|]. cbn [String.length]. lia. }
    cbn [replicate drain]. rewrite step_text_line by (try done; nia).
    match goal with |- context [drain w _ ?s] =>
      destruct (IH s) as (st' & -> & H2 & H3 & H4 & H5 & H6 & H7) end.
    + done.
    + change (d_totalOutput st + Z.of_nat (String.length line)
              + Z.of_nat n * Z.of_nat (String.length line) <= MaxOutputSize). nia.
    + exists st'. cbn in H2, H3, H4, H5, H6, H7.
      repeat split; try done.
      rewrite H7. cbn [text_events]. by rewrite <- !app_assoc.
Qed.

(** A stream of [n] copies of a non-empty plain-text line whose counted
    bytes stay within the ceiling is passed on whole. *)
Lemma StreamAndLog_lines_text (c : Context) (line log3 : string) (n : nat) :
  line <> "" ->
  detectFormat line = "text" ->
  w_mkdir_fails w (DIR c) = false ->
  Log3 w c = Ok log3 ->
  w_open_fails w log3 = false ->
  (0 < n)%nat ->
  Z.of_nat n * Z.of_nat (String.length line) <= MaxOutputSize ->
  StreamAndLog_lines w c (replicate n line) None =
    mkDrained c
      ([EvMkdirAll (DIR c); EvSaveContext c; EvOpenLog log3]
       ++ text_events c line n
       ++ [EvSinkFlush; EvSaveContext c; EvLogClose; EvSinkFlush])
      None.
Proof.
  intros Hne Hfmt Hmk Hlog Hop Hn Hle.
  destruct n as [|n]; [lia|].
  assert (0 < Z.of_nat (String.length line)) as Hpos.
  { destruct line; [done|]. cbn [String.length]. lia. }
  unfold StreamAndLog_lines. cbn [replicate drain].
  assert (step w line (initDrain c) =
          Next (emit (EvLogWrite (LogMessage (mkMessage (SID c) "assistant" line)))
                  (emit EvSinkFlush
                     (emit (EvSinkWrite (line +:+ nl))
                        (add_output (Z.of_nat (String.length line))
                           (set_logFile (Some log3)
                              (emit (EvOpenLog log3)
                                 (emit (EvSaveContext c)
                                    (emit (EvMkdirAll (DIR c))
                                       (set_format "text" (next_line (initDrain c))))))))))))
    as ->.
  { unfold step. cbv zeta. change (d_format (next_line (initDrain c))) with "".
    rewrite eqb_refl. pose proof Hne as Hne'. apply eqb_false in Hne'. rewrite Hne'.
    cbn [negb andb]. rewrite (detect_ok w line log3) by done. rewrite Hfmt.
    unfold dispatch.
    match goal with |- context [MaxOutputSize <=? ?t] => change t with 0 end.
    change (MaxOutputSize <=? 0) with false. cbv iota.
    match goal with |- context [GoStrings.eqb (d_format ?s) _] =>
      change (d_format s) with "text" end.
    assert (GoStrings.eqb "text" "json" = false) as -> by by apply eqb_false.
    rewrite eqb_refl. cbn [orb].
    unfold handleText, WriteString, Flush, sink_failed. rewrite !sink_ok.
    rewrite Hne'. done. }
  match goal with |- context [drain w _ ?s] =>
    destruct (drain_text_lines line n s) as (st' & -> & H2 & H3 & H4 & H5 & H6 & H7) end.
  - done.
  - done.
  - change (0 + Z.of_nat (String.length line)
            + Z.of_nat n * Z.of_nat (String.length line) <= MaxOutputSize). nia.
  - cbn in H2, H3, H4, H5, H6, H7.
    unfold finish, Flush, sink_failed. rewrite sink_ok.
    cbn [emit d_streamHasError d_sidSaved d_pendingSID d_ctx].
    rewrite H3, H4, H5. cbn [negb andb]. rewrite eqb_refl. cbn [negb andb].
    unfold deferred, saveContext, Flush. cbn [emit d_logFile d_ctx d_trace].
    rewrite H6. rewrite bool_decide_eq_true_2 by done.
    cbn. rewrite H2, H7. cbn [text_events]. f_equal.
    rewrite <- !app_assoc. done.
Qed.

End Ceiling.

(** C5 (defect of the code): eleven megabytes of plain text in
    one-byte lines.  Only the byte before each newline is counted, so
    the count stays below the ceiling: the whole input, 11 MB, reaches
    the sink, more than the 10 MB ceiling, and no truncation notice is
    written. *)
Theorem C5_eleven_megabytes_of_short_lines :
  let input := repeat_line (Z.to_nat 5767168) "a" in
  let r := StreamAndLog (lib := RefLib) world0 ctx_architect (reader_of input) in
  Z.of_nat (String.length input) = 11 * 1024 * 1024
  /\ res_err r = None
  /\ sink_of (res_trace r) = input
  /\ MaxOutputSize < Z.of_nat (String.length (sink_of (res_trace r)))
  /\ ~ In (EvSinkWrite truncationNotice) (res_trace r).
Proof.
  cbv zeta.
  assert (exists n, n = Z.to_nat 5767168 /\ Z.of_nat n = 5767168) as (n & Heq & Hn).
  { eexists; split; [reflexivity | lia]. }
  rewrite <- Heq. clear Heq.
  unfold StreamAndLog, scanReader, reader_of. cbn [rd_data rd_err].
  rewrite scan_repeat_line. cbn [fmap option_fmap option_map].
  rewrite (StreamAndLog_lines_text (lib := RefLib) world0 (fun _ => eq_refl)
             ctx_architect "a" log2_architect n);
    [| done | done | done | vm_compute; reflexivity | done | lia
     | change (Z.of_nat (String.length "a")) with 1; unfold MaxOutputSize; lia].
  cbn [res_err res_trace].
  rewrite !sink_of_app, sink_of_text_events. cbn [sink_of]. rewrite append_nil_r.
  change (sink_of [EvMkdirAll (DIR ctx_architect); EvSaveContext ctx_architect;
                   EvOpenLog log2_architect]) with "".
  rewrite append_nil_l.
  rewrite length_repeat_line. unfold MaxOutputSize.
  repeat split; try done; try lia.
  intros Hin. rewrite !in_app_iff in Hin.
  destruct Hin as [Hin|[Hin|Hin]].
  - cbn in Hin. by destruct Hin as [H|[H|[H|[]]]].
  - by apply text_events_no_notice in Hin.
  - cbn in Hin. by destruct Hin as [H|[H|[H|[H|[]]]]].
Qed.

(** ** Subprocess stream *)

Section CloseTwice.
Variable goos : string.
Variable child : Child.

(** After [Close] the pipe of a started stream is closed. *)
Lemma CommandStream_Close_closed (cs : CommandStream) :
  cs_stdout_closed (CommandStream_Close goos child cs).1.1 = true.
Proof.
  unfold CommandStream_Close, stdout_Close, cmd_Wait.
  repeat case_match; simplify_eq; cbn; done.
Qed.

(** [Close] on a stream whose pipe is closed runs the failure arm. *)
Lemma CommandStream_Close_again (cs : CommandStream) :
  cs_stdout_closed cs = true ->
  (CommandStream_Close goos child cs).1.2 = Some EFileClosed
  /\ (CommandStream_Close goos child cs).2
     = [LPipeClose] ++ killProcessGroup goos ++ [LWait; LCancel].
Proof.
  intros Hc. unfold CommandStream_Close, stdout_Close. rewrite Hc.
  by destruct (cmd_Wait child cs).
Qed.

Lemma close_never_started (l : LazyCommandStream) :
  lcs_once l = false ->
  lcs_stream l = None ->
  let '(r1, r2) := close_twice goos child l in
  r1.1.2 = None /\ r1.2 = [LCancel] /\ r2.1.2 = None /\ r2.2 = [] /\ r2.1.1 = r1.1.1.
Proof.
  intros Ho Hs. unfold close_twice, LazyCommandStream_Close. rewrite Ho, Hs. cbn. done.
Qed.

Lemma LazyCommandStream_Close_started (l : LazyCommandStream) (cs : CommandStream) :
  lcs_once l = true ->
  lcs_stream l = Some cs ->
  LazyCommandStream_Close goos child l =
    (mkLazy (lcs_cmd l) (lcs_timeout l) true
            (Some (CommandStream_Close goos child cs).1.1) (lcs_err l) true,
     (CommandStream_Close goos child cs).1.2,
     (CommandStream_Close goos child cs).2).
Proof.
  intros Ho Hs. unfold LazyCommandStream_Close. rewrite Ho, Hs.
  destruct (CommandStream_Close goos child cs) as [[cs1 e1] ev1]. cbn. by rewrite Ho.
Qed.

Lemma close_started (l : LazyCommandStream) (cs : CommandStream) :
  lcs_once l = true ->
  lcs_stream l = Some cs ->
  let '(r1, r2) := close_twice goos child l in
  r2.1.2 = Some EFileClosed
  /\ r2.2 = [LPipeClose] ++ killProcessGroup goos ++ [LWait; LCancel].
Proof.
  intros Ho Hs. unfold close_twice.
  rewrite (LazyCommandStream_Close_started l cs Ho Hs). cbn [fst snd].
  rewrite (LazyCommandStream_Close_started _ (CommandStream_Close goos child cs).1.1)
    by done.
  cbn [fst snd].
  apply CommandStream_Close_again, CommandStream_Close_closed.
Qed.

End CloseTwice.

(** C7 (as stated, refuted): a stream is started by a first read and
    closed; the child exits cleanly.  The second [Close] returns an
    error and runs the teardown again: pipe close, process-group kill,
    wait. *)
Lemma C7_counterexample :
  lcs_once (started child_ok prepared0) = true
  /\ (close_twice "linux" child_ok (started child_ok prepared0)).1.1.2 = None
  /\ (close_twice "linux" child_ok (started child_ok prepared0)).1.2
     = [LPipeClose; LWait; LCancel]
  /\ (close_twice "linux" child_ok (started child_ok prepared0)).2.1.2
     = Some EFileClosed
  /\ (close_twice "linux" child_ok (started child_ok prepared0)).2.2
     = [LPipeClose; LKillGroup; LWait; LCancel].
Proof. vm_compute. done. Qed.

(** C7 (amended): on a never-started stream [Close] is idempotent: both
    calls return no error, the first only cancels the context and the
    second does nothing.  On a started stream the second [Close] is not
    a no-op: it closes the already closed pipe again, which fails,
    kills the process group, waits again and returns the pipe's
    error. *)
Theorem C7_close_twice (goos : string) (child : Child) (l : LazyCommandStream) :
  (lcs_once l = false -> lcs_stream l = None ->
   let '(r1, r2) := close_twice goos child l in
   r1.1.2 = None /\ r1.2 = [LCancel] /\ r2.1.2 = None /\ r2.2 = [] /\ r2.1.1 = r1.1.1)
  /\ (forall cs, lcs_once l = true -> lcs_stream l = Some cs ->
      let '(r1, r2) := close_twice goos child l in
      r2.1.2 = Some EFileClosed
      /\ r2.2 = [LPipeClose] ++ killProcessGroup goos ++ [LWait; LCancel]).
Proof.
  split.
  - apply close_never_started.
  - intros cs. apply close_started.
Qed.

(** C7 at a concrete input: a prepared stream that was never read. *)
Lemma C7_witness :
  (lcs_once prepared0 = false /\ lcs_stream prepared0 = None)
  /\ (let '(r1, r2) := close_twice "linux" child_ok prepared0 in
      r1.1.2 = None /\ r1.2 = [LCancel] /\ r2.1.2 = None /\ r2.2 = [] /\ r2.1.1 = r1.1.1).
Proof.
  split; [done|].
  apply (C7_close_twice "linux" child_ok prepared0); reflexivity.
Defined.

(* ===================================================================== *)
(** * Further properties *)
(* ===================================================================== *)

Lemma hex_digit_is_hex (n : Z) : 0 <= n < 16 -> is_hex_digit (hex_digit n) = true.
Proof.
  intros H. rewrite <- (Z2Nat.id n) by lia.
  assert (Z.to_nat n < 16)%nat as Hk by lia.
  revert Hk. generalize (Z.to_nat n). intros k Hk.
  do 16 (destruct k as [|k]; [done|]). lia.
Qed.

Lemma byte_nibbles (b : Z) : 0 <= b < 256 -> 0 <= Z.shiftr b 4 < 16 /\ 0 <= Z.land b 15 < 16.
Proof.
  intros H. rewrite Z.shiftr_div_pow2 by lia.
  change 15 with (Z.ones 4). rewrite Z.land_ones by lia.
  change (2 ^ 4) with 16. split; [|apply Z.mod_pos_bound; lia].
  split; [apply Z.div_pos; lia | apply Z.div_lt_upper_bound; lia].
Qed.


Lemma hex_byte_chars (b : Z) :
  is_byte b ->
  exists h l, hex_byte b = String h (String l EmptyString)
              /\ is_hex_digit h = true /\ is_hex_digit l = true.
Proof.
  intros H. destruct (byte_nibbles b H) as [Hh Hl].
  eexists _, _. split; [reflexivity|]. split; by apply hex_digit_is_hex.
Qed.


Lemma land_15_range (x : Z) : 0 <= Z.land x 15 < 16.
Proof. change 15 with (Z.ones 4). rewrite Z.land_ones by lia. apply Z.mod_pos_bound. lia. Qed.

Lemma land_63_range (x : Z) : 0 <= Z.land x 63 < 64.
Proof. change 63 with (Z.ones 6). rewrite Z.land_ones by lia. apply Z.mod_pos_bound. lia. Qed.

(** The version byte: the high digit is 4. *)
Lemma version_byte (x : Z) :
  exists l, hex_byte (Z.lor (Z.land x 15) 64) = String "4"%char (String l EmptyString)
            /\ is_hex_digit l = true.
Proof.
  pose proof (land_15_range x) as H. set (k := Z.land x 15) in *. clearbody k.
  assert (exists n, k = Z.of_nat n /\ (n < 16)%nat) as (n & -> & Hn).
  { exists (Z.to_nat k). lia. }
  do 16 (destruct n as [|n]; [eexists; split; reflexivity|]). lia.
Qed.

(** The variant byte: the high digit is 8, 9, a or b. *)
Lemma variant_byte (x : Z) :
  exists h l, hex_byte (Z.lor (Z.land x 63) 128) = String h (String l EmptyString)
              /\ In h ["8"; "9"; "a"; "b"]%char /\ is_hex_digit l = true.
Proof.
  pose proof (land_63_range x) as H. set (k := Z.land x 63) in *. clearbody k.
  assert (exists n, k = Z.of_nat n /\ (n < 64)%nat) as (n & -> & Hn).
  { exists (Z.to_nat k). lia. }
  do 64 (destruct n as [|n]; [eexists _, _; split; [reflexivity|]; split; [cbn; tauto|reflexivity]|]).
  lia.
Qed.

Lemma formatID_shape (b : list Z) :
  length b = 16%nat -> Forall is_byte b ->
  isValidUUID (formatID b) = true
  /\ String.get 14 (formatID b) = Some "4"%char
  /\ exists v, String.get 19 (formatID b) = Some v /\ In v ["8"; "9"; "a"; "b"]%char.
Proof.
  intros Hlen Hall.
  do 16 (destruct b as [|? b]; [done|]). destruct b; [|done]. clear Hlen.
  repeat match goal with H : Forall _ (_ :: _) |- _ => apply Forall_cons in H as [? H] end.
  unfold formatID. cbn [nth]. cbn [list_insert insert]. cbn [nth].
  unfold slice. cbn [Nat.sub firstn skipn hex_bytes fold_right].
  destruct (version_byte z5) as (l6 & -> & ?).
  destruct (variant_byte z7) as (h8 & l8 & -> & Hv & ?).
  repeat match goal with
         | H : is_byte ?x |- _ =>
             destruct (hex_byte_chars x H) as (? & ? & -> & ? & ?); clear H
         end.
  assert (is_hex_digit h8 = true).
  { destruct Hv as [<-|[<-|[<-|[<-|[]]]]]; done. }
  repeat (rewrite append_cons || rewrite append_nil_l).
  split; [|split; [done|]].
  - unfold isValidUUID. cbn [String.length Nat.eqb negb]. cbn [isValidUUID_go Nat.eqb orb].
    repeat match goal with H : is_hex_digit _ = true |- _ => rewrite H; clear H end.
    done.
  - exists h8. done.
Qed.

(** X1.  An identifier minted by [NewID] from sixteen bytes of entropy
    is accepted by [isValidUUID]; its version digit is 4 and its
    variant digit is 8, 9, a or b; the entropy block is consumed. *)
Theorem X1_NewID_well_formed (b : list Z) (rest : Entropy) :
  length b = 16%nat -> Forall is_byte b ->
  exists id, NewID (b :: rest) = (Ok id, rest)
    /\ isValidUUID id = true
    /\ String.get 14 id = Some "4"%char
    /\ exists v, String.get 19 id = Some v /\ In v ["8"; "9"; "a"; "b"]%char.
Proof.
  intros Hlen Hall. exists (formatID b). split; [done|]. by apply formatID_shape.
Qed.

(** X1 on the block [block1]. *)
Lemma X1_witness :
  exists id, NewID [block1] = (Ok id, [])
    /\ isValidUUID id = true
    /\ String.get 14 id = Some "4"%char
    /\ exists v, String.get 19 id = Some v /\ In v ["8"; "9"; "a"; "b"]%char.
Proof.
  apply (X1_NewID_well_formed block1 []); [reflexivity|].
  unfold block1, is_byte. repeat constructor; lia.
Defined.

(** ** Resolved identifiers *)

Lemma isValidUUID_nonempty (s : string) : isValidUUID s = true -> s <> "".
Proof. by intros H ->. Qed.

Section ResolvedIdentifier.
Context {lib : GoLib}.
Variable w : World.

(** An identifier read from a log is a well-formed UUID. *)
Lemma lastSessionID_valid (path : string) (sid : ID) :
  lastSessionID w path = Ok sid -> isValidUUID sid = true.
Proof.
  unfold lastSessionID. intros H.
  repeat case_match; simplify_eq; try done.
  all: match goal with H : negb (isValidUUID ?s) = false |- _ =>
         by apply negb_false_iff in H end.
Qed.

Lemma savedSID_nonempty (c : Context) (sid : ID) : savedSID w c = Some sid -> sid <> "".
Proof.
  unfold savedSID. intros H. repeat case_match; simplify_eq.
  match goal with H : negb (GoStrings.eqb _ _) = true |- _ =>
    apply negb_true_iff, eqb_false in H end. done.
Qed.

Lemma DetermineSessionID_origin (c c' : Context) (sid : ID) :
  DetermineSessionID w c = (c', Ok sid) ->
  (savedSID w c = Some sid /\ c' = c)
  \/ (isValidUUID sid = true /\ c' = set_SID c sid)
  \/ (sid = CID c /\ c' = c).
Proof.
  unfold DetermineSessionID. intros H.
  repeat case_match; simplify_eq; eauto using lastSessionID_valid.
Qed.

Lemma DetermineSessionID_nonempty (c c' : Context) (sid : ID) :
  CID c <> "" -> DetermineSessionID w c = (c', Ok sid) -> sid <> "".
Proof.
  intros Hc H.
  destruct (DetermineSessionID_origin c c' sid H) as [[Hs _]|[[Hv _]|[-> _]]];
    eauto using savedSID_nonempty, isValidUUID_nonempty.
Qed.

End ResolvedIdentifier.

(** X2.  The identifier the resolver returns comes from the snapshot
    (any non-empty string it holds), or it is a well-formed UUID read
    from a log, in which case it is also stored in the context, or it
    is the conversation identifier.  For a context with a non-empty
    conversation identifier the result is never empty. *)
Theorem X2_resolved_session_never_empty (lib : GoLib) (w : World) (c c' : Context) (sid : ID) :
  CID c <> "" ->
  DetermineSessionID w c = (c', Ok sid) ->
  sid <> ""
  /\ ((savedSID w c = Some sid /\ c' = c)
      \/ (isValidUUID sid = true /\ c' = set_SID c sid)
      \/ (sid = CID c /\ c' = c)).
Proof.
  intros Hc H. split; [by apply (DetermineSessionID_nonempty w c c')|].
  by apply DetermineSessionID_origin.
Qed.

(** X2 on the persona log with a recorded answer. *)
Lemma X2_witness :
  sid3 <> ""
  /\ ((savedSID (lib := RefLib) (world_of fs_answered) ctx_architect = Some sid3
       /\ set_SID ctx_architect sid3 = ctx_architect)
      \/ (isValidUUID sid3 = true /\ set_SID ctx_architect sid3 = set_SID ctx_architect sid3)
      \/ (sid3 = CID ctx_architect /\ set_SID ctx_architect sid3 = ctx_architect)).
Proof.
  apply (X2_resolved_session_never_empty RefLib (world_of fs_answered) ctx_architect
           (set_SID ctx_architect sid3) sid3); vm_compute; [discriminate | reflexivity].
Defined.

(** ** Flag templates and persona variables *)

(** X3.  For a configured genus that has no entry for the persona, the
    persona name is used as the model, and the second model is chosen
    to differ from it. *)
Theorem X3_fallback_models_differ (cfg : Config) (gen md : string) (genus : GenusConfig) :
  Genera cfg !! gen = Some genus ->
  GenusPersonas genus !! md = None ->
  GetGenusPersonaVars cfg gen md !! "model" = Some md
  /\ exists model2, GetGenusPersonaVars cfg gen md !! "model2" = Some model2
                    /\ model2 <> md.
Proof.
  unfold GetGenusPersonaVars. intros -> ->. split; [done|].
  destruct (GoStrings.eqb md "sonnet") eqn:He.
  - apply eqb_true in He as ->. by exists "haiku".
  - apply eqb_false in He. by exists "sonnet".
Qed.

(** X3 for the persona [sonnet] of the [claude] genus, which the
    configuration [config0] does not list. *)
Lemma X3_witness :
  GetGenusPersonaVars config0 "claude" "sonnet" !! "model" = Some "sonnet"
  /\ exists model2, GetGenusPersonaVars config0 "claude" "sonnet" !! "model2" = Some model2
                    /\ model2 <> "sonnet".
Proof.
  apply (X3_fallback_models_differ config0 "claude" "sonnet" claudeGenus); reflexivity.
Defined.

Lemma HasPrefix_app (s p q : string) :
  GoStrings.HasPrefix s (p +:+ q) = true -> GoStrings.HasPrefix s p = true.
Proof.
  revert s. induction p as [|a p IH]; intros s; [by rewrite HasPrefix_nil|].
  rewrite append_cons. destruct s as [|b s]; [done|]. cbn [GoStrings.HasPrefix].
  case_match; [apply IH | done].
Qed.

Lemma Contains_tail (c : ascii) (s sub : string) :
  GoStrings.Contains (String c s) sub = false ->
  GoStrings.HasPrefix (String c s) sub = false /\ GoStrings.Contains s sub = false.
Proof. cbn [GoStrings.Contains]. intros H. by apply orb_false_elim in H. Qed.

(** Nothing is replaced in a string that does not hold the beginning
    of the pattern. *)
Lemma replace_go_absent (old1 old2 new s : string) :
  GoStrings.Contains s old1 = false ->
  GoStrings.replace_go (old1 +:+ old2) new 0 s = s.
Proof.
  induction s as [|c s IH]; [done|]. intros H.
  apply Contains_tail in H as [Hp Hc]. cbn [GoStrings.replace_go].
  destruct (GoStrings.HasPrefix (String c s) (old1 +:+ old2)) eqn:E.
  - apply HasPrefix_app in E. congruence.
  - by rewrite IH.
Qed.

Lemma render_one_absent (vars : gmap string string) (t : string) :
  GoStrings.Contains t "{{" = false -> render_one vars t = t.
Proof.
  intros H. unfold render_one.
  induction (map_to_list vars) as [|[k v] l IH]; [done|].
  cbn [fold_left fst snd]. unfold GoStrings.ReplaceAll.
  rewrite (replace_go_absent "{{" (k +:+ "}}") v t H). apply IH.
Qed.

(** X4.  A list of flags none of which holds two opening braces is
    rendered to itself, whatever the variables are. *)
Theorem X4_RenderFlags_plain_flags (template : list string) (vars : gmap string string) :
  Forall (fun t => GoStrings.Contains t "{{" = false) template ->
  RenderFlags template vars = template.
Proof.
  unfold RenderFlags. induction 1 as [|t l Ht _ IH]; [done|].
  cbn [map]. by rewrite render_one_absent, IH.
Qed.

(** X4 on the output flags of the [claude] genus. *)
Lemma X4_witness :
  RenderFlags (ArgsOutput (Args claudeGenus)) {[ "sid" := sid2 ]}
  = ArgsOutput (Args claudeGenus).
Proof.
  apply (X4_RenderFlags_plain_flags (ArgsOutput (Args claudeGenus)) {[ "sid" := sid2 ]}).
  repeat constructor.
Defined.

Lemma HasPrefix_refl (s : string) : GoStrings.HasPrefix s s = true.
Proof. induction s as [|c s IH]; [done|]. cbn. by rewrite Ascii.eqb_refl. Qed.

Lemma replace_go_skip (old new s : string) (k : nat) :
  (String.length s <= k)%nat -> GoStrings.replace_go old new k s = "".
Proof.
  revert k. induction s as [|c s IH]; intros k Hk; [done|].
  cbn [String.length] in Hk. destruct k as [|k]; [lia|].
  cbn [GoStrings.replace_go]. apply IH. lia.
Qed.

(** A string that is the pattern itself is replaced by the new text. *)
Lemma ReplaceAll_whole (old new : string) :
  old <> "" -> GoStrings.ReplaceAll old old new = new.
Proof.
  intros Hne. unfold GoStrings.ReplaceAll. destruct old as [|c old]; [done|].
  cbn [GoStrings.replace_go]. rewrite HasPrefix_refl.
  cbn [String.length Nat.pred]. rewrite replace_go_skip by done. apply append_nil_r.
Qed.

(** X5.  With a single variable, the flag that is exactly its
    placeholder renders to the value, byte for byte, whatever the value
    holds: this is how the system prompt becomes one argument of the
    child. *)
Theorem X5_RenderFlags_single_placeholder (key val : string) :
  RenderFlags ["{{" +:+ key +:+ "}}"] {[ key := val ]} = [val].
Proof.
  unfold RenderFlags, render_one. cbn [map]. rewrite map_to_list_singleton.
  cbn [fold_left fst snd]. f_equal. apply ReplaceAll_whole. done.
Qed.

(** ** Subprocess preparation *)

Section Preparation.
Context {lib : GoLib}.
Variable w : World.

(** The executable of a configured genus passes the allow-list. *)
Lemma ValidateCommand_configured (cfg : Config) (gen : string) (genus : GenusConfig) :
  w_config w = Ok cfg ->
  Genera cfg !! gen = Some genus ->
  Nat.eqb (length (Exe genus)) 0 = false ->
  ValidateCommand w (index_or_empty (Exe genus) 0) = None.
Proof.
  intros Hc Hg Hl. unfold ValidateCommand. rewrite Hc.
  match goal with |- (if ?b then _ else _) = _ => assert (b = true) as -> end; [|done].
  apply existsb_exists. exists (gen, genus). split.
  - apply list_elem_of_In, elem_of_map_to_list, Hg.
  - cbn [snd]. rewrite eqb_refl, andb_true_r. apply Nat.eqb_neq in Hl.
    apply Z.ltb_lt. lia.
Qed.

(** The errors of [buildSessionFlags]. *)
Lemma buildSessionFlags_errors (rnd : Entropy) (c : Context) (genus : GenusConfig)
      (personaVars : PersonaVars) (e : error) :
  (buildSessionFlags w rnd c genus personaVars).2 = Err e ->
  e = EHomeDir \/ e = EGenerateID.
Proof.
  unfold buildSessionFlags, Log2, Log1, Dir1, homeDir, NewID.
  repeat case_match; cbn; intros; simplify_eq; auto.
Qed.

(** The error of a failing [CallGenus], by the place it comes from. *)
Lemma CallGenus_errors (rnd : Entropy) (c : Context) (cmdArgs : string) (stdin : option string)
      (e : error) :
  (CallGenus w rnd c cmdArgs stdin).2 = Err e ->
  match ValidateCall c with
  | Some b => e = EBlocking b
  | None => e = ELoadConfig \/ e = EUnknownGenus (GEN c) \/ e = ENoExe (GEN c)
            \/ e = EHomeDir \/ e = EGenerateID
  end.
Proof.
  unfold CallGenus.
  destruct (ValidateCall c); [cbn; congruence|].
  destruct (w_config w) as [cfg|] eqn:Hc; [|cbn; intros; simplify_eq; auto].
  unfold GetGenus.
  destruct (Genera cfg !! GEN c) as [genus|] eqn:Hg; [|cbn; intros; simplify_eq; auto].
  destruct (length (Exe genus) =? 0)%nat eqn:Hl; [cbn; intros; simplify_eq; auto|].
  rewrite (ValidateCommand_configured cfg (GEN c) genus Hc Hg Hl).
  match goal with |- context [buildSessionFlags w rnd c genus ?pv] =>
    pose proof (buildSessionFlags_errors rnd c genus pv) as Hf;
    destruct (buildSessionFlags w rnd c genus pv) as [[c1 rnd'] res] end.
  destruct res as [[sessionArgs isNew]|e'].
  - cbv zeta.
    match goal with |- context [match ?x with pair _ _ => _ end] => destruct x end.
    cbn. discriminate.
  - cbn. intros [= <-]. destruct (Hf e' eq_refl) as [->| ->]; auto.
Qed.

(** The timeout of a prepared stream. *)
Lemma CallGenus_timeout (rnd : Entropy) (c : Context) (cmdArgs : string) (stdin : option string)
      (l : LazyCommandStream) :
  (CallGenus w rnd c cmdArgs stdin).2 = Ok l ->
  lcs_timeout l =
    match time_ParseDuration (env_get c "AITIMEOUT") with
    | Some t => if (0 <? t) && negb (GoStrings.eqb (env_get c "AITIMEOUT") "")
                then t else defaultTimeout
    | None => defaultTimeout
    end.
Proof.
  unfold CallGenus.
  destruct (ValidateCall c); [cbn; congruence|].
  destruct (w_config w) as [cfg|] eqn:Hc; [|cbn; congruence].
  unfold GetGenus.
  destruct (Genera cfg !! GEN c) as [genus|] eqn:Hg; [|cbn; congruence].
  destruct (length (Exe genus) =? 0)%nat eqn:Hl; [cbn; congruence|].
  rewrite (ValidateCommand_configured cfg (GEN c) genus Hc Hg Hl).
  match goal with |- context [buildSessionFlags w rnd c genus ?pv] =>
    pose proof (buildSessionFlags_frame w rnd c genus pv) as Hf;
    destruct (buildSessionFlags w rnd c genus pv) as [[c1 rnd'] res] end.
  cbn in Hf.
  destruct res as [[sessionArgs isNew]|e']; [|cbn; congruence].
  cbv zeta.
  match goal with |- context [match ?x with pair _ _ => _ end] => destruct x end.
  cbn [snd]. intros [= <-]. cbn [lcs_timeout].
  assert (forall v, env_get
            (set_ENV c1 (<[ "_AIMUX_NEW_SESSION" := v ]> (ENV c1))) "AITIMEOUT"
          = env_get c "AITIMEOUT") as He.
  { intros v. unfold env_get. cbn [ENV set_ENV]. rewrite lookup_insert_ne by done.
    unfold only_SID in Hf. by rewrite Hf. }
  rewrite !He.
  destruct (GoStrings.eqb (env_get c "AITIMEOUT") ""); cbn [negb];
    destruct (time_ParseDuration _) as [t|]; try done.
  - by rewrite andb_false_r.
  - by rewrite andb_true_r.
Qed.

End Preparation.

(** X6.  Inside [CallGenus] the allow-list cannot reject: the command
    it checks is the executable of the genus it has just looked up in
    the same configuration, so a call never fails with a command that
    is not allowed. *)
Theorem X6_CallGenus_never_rejects_command (lib : GoLib) (w : World) (rnd : Entropy)
        (c : Context) (cmdArgs : string) (stdin : option string) (cmd : string) :
  (CallGenus w rnd c cmdArgs stdin).2 <> Err (ECommandNotAllowed cmd).
Proof.
  intros H. apply CallGenus_errors in H.
  destruct (ValidateCall c); [done|].
  destruct H as [?|[?|[?|[?|?]]]]; discriminate.
Qed.

(** X7.  The timeout of a prepared stream is decided by [AITIMEOUT]
    alone: when the variable is not empty and parses as a positive
    duration, the timeout is that duration; in every other case (unset
    or empty, malformed, zero or negative) it is 30 minutes.  It is
    therefore always positive. *)
Theorem X7_timeout_positive (lib : GoLib) (w : World) (rnd : Entropy) (c : Context)
        (cmdArgs : string) (stdin : option string) (l : LazyCommandStream) :
  (CallGenus w rnd c cmdArgs stdin).2 = Ok l ->
  0 < lcs_timeout l
  /\ (forall t, env_get c "AITIMEOUT" <> "" ->
                time_ParseDuration (env_get c "AITIMEOUT") = Some t ->
                0 < t -> lcs_timeout l = t)
  /\ (env_get c "AITIMEOUT" = "" -> lcs_timeout l = 30 * 60 * 1000000000)
  /\ (time_ParseDuration (env_get c "AITIMEOUT") = None ->
      lcs_timeout l = 30 * 60 * 1000000000)
  /\ (forall t, time_ParseDuration (env_get c "AITIMEOUT") = Some t -> t <= 0 ->
                lcs_timeout l = 30 * 60 * 1000000000).
Proof.
  intros H. apply CallGenus_timeout in H. rewrite H. clear H.
  assert (defaultTimeout = 30 * 60 * 1000000000) as -> by reflexivity.
  destruct (time_ParseDuration (env_get c "AITIMEOUT")) as [t|].
  - destruct (Z.ltb_spec 0 t) as [Hpos|Hneg];
      destruct (GoStrings.eqb (env_get c "AITIMEOUT") "") eqn:He; cbn [andb negb];
      [apply eqb_true in He | apply eqb_false in He
       | apply eqb_true in He | apply eqb_false in He];
      repeat split; intros; simplify_eq; first [done | lia].
  - repeat split; intros; simplify_eq; first [done | lia].
Qed.

(** X7 on a call with [AITIMEOUT] set to 90 seconds: the timeout is 90
    seconds. *)
Lemma X7_witness : lcs_timeout (stream_of call_with_timeout) = 90 * 1000000000.
Proof.
  destruct (X7_timeout_positive RefLib world0 [] ctx_timeout "hello" None
              (stream_of call_with_timeout)) as (_ & H & _); [vm_compute; reflexivity|].
  apply H; [vm_compute; discriminate | vm_compute; reflexivity | lia].
Defined.

(** X8.  The exit status after a failing [CallGenus]: the code of the
    validator when it denies the call (3, 1, 4 or 5), and 1 for every
    other failure. *)
Theorem X8_exit_status_of_failed_call (lib : GoLib) (w : World) (rnd : Entropy) (c : Context)
        (cmdArgs : string) (stdin : option string) (e : error) :
  (CallGenus w rnd c cmdArgs stdin).2 = Err e ->
  handleError e = match ValidateCall c with
                  | Some b => Code b
                  | None => 1
                  end
  /\ In (handleError e) [1; 3; 4; 5].
Proof.
  intros H. apply CallGenus_errors in H.
  destruct (ValidateCall c) as [b|] eqn:Hv.
  - subst e. split; [done|]. cbn [handleError].
    unfold ValidateCall in Hv. repeat case_match; simplify_eq; cbn; tauto.
  - destruct H as [->|[->|[->|[->| ->]]]]; (split; [reflexivity | cbn; tauto]).
Qed.

(** X8 on a call at depth 3: the status is 3. *)
Lemma X8_witness :
  handleError (EBlocking (mkBlockingError 3 "recursive call depth exceeded (3)")) = 3
  /\ In (handleError (EBlocking (mkBlockingError 3 "recursive call depth exceeded (3)")))
        [1; 3; 4; 5].
Proof.
  apply (X8_exit_status_of_failed_call RefLib world0 [] (set_LVL ctx_architect 3) "hello" None
           (EBlocking (mkBlockingError 3 "recursive call depth exceeded (3)"))).
  vm_compute. reflexivity.
Defined.

(** ** Subprocess stream: order of the calls *)

Section StreamCalls.
Variable goos : string.
Variable child : Child.

(** What [Close] does on a [CommandStream], whatever its state. *)
Lemma CommandStream_Close_reaps (cs : CommandStream) :
  let '(cs', err, evs) := CommandStream_Close goos child cs in
  cs_stdout_closed cs' = true
  /\ cs_waited cs' = true
  /\ head evs = Some LPipeClose
  /\ In LWait evs
  /\ last evs = Some LCancel
  /\ ((In LKillGroup evs \/ In LKillProcess evs) <->
      (cs_stdout_closed cs = true \/ ch_exits_in_time child = false)).
Proof.
  unfold CommandStream_Close, stdout_Close, cmd_Wait, killProcessGroup.
  destruct cs as [cmd t closed waited].
  destruct closed, waited, (ch_exits_in_time child), (negb (GoStrings.eqb goos "windows"));
    cbn; repeat split; try done; try tauto; try (intros [?|?]; done);
    try (intros [[?|[?|[?|[?|?]]]]|[?|[?|[?|[?|?]]]]]; done);
    try (intros [[?|[?|[?|?]]]|[?|[?|[?|?]]]]; done);
    try (intros [[?|[?|?]]|[?|[?|?]]]; done).
Qed.

End StreamCalls.

(** X9.  On a stream that was never read, [Close] only cancels the
    context; a [Read] after it does not start the child, finds neither
    an error nor a stream recorded, and dereferences the missing
    stream. *)
Theorem X9_read_after_close (goos : string) (child : Child) (l : LazyCommandStream) :
  lcs_once l = false ->
  lcs_stream l = None ->
  lcs_err l = None ->
  let '(l1, err, evs) := LazyCommandStream_Close goos child l in
  err = None /\ evs = [LCancel]
  /\ LazyCommandStream_Read child l1 = (l1, ReadPanic, []).
Proof.
  destruct l as [cmd t once stream err cancelled]. cbn. by intros -> -> ->.
Qed.

(** X9 on the prepared stream [prepared0]. *)
Lemma X9_witness :
  let '(l1, err, evs) := LazyCommandStream_Close "linux" child_ok prepared0 in
  err = None /\ evs = [LCancel]
  /\ LazyCommandStream_Read child_ok l1 = (l1, ReadPanic, []).
Proof.
  apply (X9_read_after_close "linux" child_ok prepared0); reflexivity.
Defined.

(** X10.  [Close] on a started stream closes the pipe first, always
    waits for the child, and cancels the context last; it kills the
    process (the group, except on Windows) exactly when closing the
    pipe failed or the child did not exit within the bound.  After it
    the pipe is closed and the child reaped. *)
Theorem X10_close_reaps_the_child (goos : string) (child : Child) (l : LazyCommandStream)
        (cs : CommandStream) :
  lcs_stream l = Some cs ->
  let '(l1, err, evs) := LazyCommandStream_Close goos child l in
  (exists cs', lcs_stream l1 = Some cs' /\ cs_stdout_closed cs' = true /\ cs_waited cs' = true)
  /\ In LPipeClose evs
  /\ In LWait evs
  /\ last evs = Some LCancel
  /\ ((In LKillGroup evs \/ In LKillProcess evs) <->
      (cs_stdout_closed cs = true \/ ch_exits_in_time child = false)).
Proof.
  destruct l as [cmd t once stream err0 cancelled]. cbn [lcs_stream]. intros ->.
  unfold LazyCommandStream_Close.
  pose proof (CommandStream_Close_reaps goos child cs) as Hc.
  destruct once; cbn [lcs_stream lcs_once];
    destruct (CommandStream_Close goos child cs) as [[cs' err] evs];
    destruct Hc as (H1 & H2 & H3 & H4 & H5 & H6).
  - cbn [app]. split; [by exists cs'|].
    split; [destruct evs; simplify_eq/=; by left|]. done.
  - split; [by exists cs'|]. cbn [app].
    destruct evs as [|e evs]; [done|]. cbn in H3. simplify_eq.
    split; [right; by left|]. split; [by right|]. split; [done|].
    rewrite <- H6. cbn. clear. intuition discriminate.
Qed.

(** X10 on the stream [prepared0] after a first read. *)
Lemma X10_witness :
  let '(l1, err, evs) := LazyCommandStream_Close "linux" child_ok (started child_ok prepared0) in
  (exists cs', lcs_stream l1 = Some cs' /\ cs_stdout_closed cs' = true /\ cs_waited cs' = true)
  /\ In LPipeClose evs
  /\ In LWait evs
  /\ last evs = Some LCancel
  /\ ((In LKillGroup evs \/ In LKillProcess evs) <->
      (cs_stdout_closed (mkCommandStream (lcs_cmd prepared0) (lcs_timeout prepared0) false false)
       = true \/ ch_exits_in_time child_ok = false)).
Proof.
  apply (X10_close_reaps_the_child "linux" child_ok (started child_ok prepared0)
           (mkCommandStream (lcs_cmd prepared0) (lcs_timeout prepared0) false false)).
  reflexivity.
Defined.

(** ** Streaming response interpreter: plain streams *)

Lemma total_len_nonneg (lines : list string) : 0 <= total_len lines.
Proof. induction lines as [|l ls IH]; cbn [total_len fold_right]; [done|]. fold (total_len ls). lia. Qed.

Lemma storage_events_cons_sink (s : string) (evs : list Event) :
  storage_events (EvSinkWrite s :: evs) = storage_events evs.
Proof. done. Qed.

Section PlainStreams.
Context {lib : GoLib}.
Variable w : World.
Hypothesis sink_ok : forall k, w_sink_fails w k = false.

(** What follows format detection for a line of a stream whose format
    is plain text or unknown to the interpreter, below the ceiling. *)
Lemma dispatch_plain (f line : string) (st : DrainState) :
  f = "text" \/ f = "xml" ->
  d_format st = f ->
  d_totalOutput st < MaxOutputSize ->
  exists st',
    dispatch w line st = Next st'
    /\ d_ctx st' = d_ctx st
    /\ d_format st' = f
    /\ d_totalOutput st' = d_totalOutput st + Z.of_nat (String.length line)
    /\ d_streamHasError st' = d_streamHasError st
    /\ d_sidSaved st' = d_sidSaved st
    /\ d_pendingSID st' = d_pendingSID st
    /\ d_logFile st' = d_logFile st
    /\ exists evs, d_trace st' = d_trace st ++ evs
                   /\ sink_of evs = line +:+ nl
                   /\ log_of evs = plain_log f (SID (d_ctx st)) [line]
                   /\ storage_events evs = [].
Proof.
  intros Hf Hfmt Hlt. unfold dispatch. rewrite Hfmt.
  destruct (Z.leb_spec MaxOutputSize (d_totalOutput st)); [lia|].
  assert (GoStrings.eqb f "json" = false) as -> by (apply eqb_false; by destruct Hf as [->| ->]).
  destruct Hf as [->| ->].
  - rewrite eqb_refl. cbn [orb]. unfold handleText, WriteString, Flush, sink_failed.
    rewrite !sink_ok. unfold plain_log. rewrite eqb_refl. cbn [List.filter map].
    destruct (GoStrings.eqb line "") eqn:He; cbn [negb].
    + eexists. split; [reflexivity|]. cbn. repeat split; try done.
      eexists. rewrite <- app_assoc. split; [reflexivity|]. cbn. by rewrite append_nil_r.
    + eexists. split; [reflexivity|]. cbn. repeat split; try done.
      eexists. rewrite <- !app_assoc. split; [reflexivity|]. cbn. by rewrite append_nil_r.
  - assert (GoStrings.eqb "xml" "text" = false) as -> by by apply eqb_false.
    assert (GoStrings.eqb "xml" "empty" = false) as -> by by apply eqb_false.
    cbn [orb]. unfold handleOther, WriteString, sink_failed. rewrite !sink_ok.
    eexists. split; [reflexivity|]. cbn. repeat split; try done.
    eexists. split; [reflexivity|]. cbn. by rewrite append_nil_r.
Qed.

(** One line of such a stream once the format is known. *)
Lemma step_plain (f line : string) (st : DrainState) :
  f = "text" \/ f = "xml" ->
  d_format st = f ->
  d_totalOutput st < MaxOutputSize ->
  exists st',
    step w line st = Next st'
    /\ d_ctx st' = d_ctx st
    /\ d_format st' = f
    /\ d_totalOutput st' = d_totalOutput st + Z.of_nat (String.length line)
    /\ d_streamHasError st' = d_streamHasError st
    /\ d_sidSaved st' = d_sidSaved st
    /\ d_pendingSID st' = d_pendingSID st
    /\ d_logFile st' = d_logFile st
    /\ exists evs, d_trace st' = d_trace st ++ evs
                   /\ sink_of evs = line +:+ nl
                   /\ log_of evs = plain_log f (SID (d_ctx st)) [line]
                   /\ storage_events evs = [].
Proof.
  intros Hf Hfmt Hlt. unfold step. cbv zeta.
  change (d_format (next_line st)) with (d_format st). rewrite Hfmt.
  assert (GoStrings.eqb f "" = false) as -> by (apply eqb_false; by destruct Hf as [->| ->]).
  cbn [andb]. by apply (dispatch_plain f line (next_line st)).
Qed.

Lemma plain_log_cons (f : string) (sid : ID) (line : string) (lines : list string) :
  plain_log f sid (line :: lines) = plain_log f sid [line] ++ plain_log f sid lines.
Proof.
  unfold plain_log. destruct (GoStrings.eqb f "text"); [|done].
  cbn [List.filter]. by destruct (negb (GoStrings.eqb line "")).
Qed.

(** The lines that follow once the format is known. *)
Lemma drain_plain (f : string) (lines : list string) (st : DrainState) :
  f = "text" \/ f = "xml" ->
  d_format st = f ->
  d_totalOutput st + total_len lines < MaxOutputSize ->
  exists st',
    drain w lines st = Next st'
    /\ d_ctx st' = d_ctx st
    /\ d_streamHasError st' = d_streamHasError st
    /\ d_sidSaved st' = d_sidSaved st
    /\ d_pendingSID st' = d_pendingSID st
    /\ d_logFile st' = d_logFile st
    /\ exists evs, d_trace st' = d_trace st ++ evs
                   /\ sink_of evs = echo lines
                   /\ log_of evs = plain_log f (SID (d_ctx st)) lines
                   /\ storage_events evs = [].
Proof.
  intros Hf. revert st. induction lines as [|line rest IH]; intros st Hfmt Hlt.
  - exists st. cbn. repeat split; try done. exists []. rewrite app_nil_r.
    repeat split; try done. unfold plain_log. by case_match.
  - cbn [total_len fold_right] in Hlt. fold (total_len rest) in Hlt.
    pose proof (total_len_nonneg rest).
    destruct (step_plain f line st Hf Hfmt) as
      (st1 & Hs & C1 & C2 & C3 & C4 & C5 & C6 & C7 & evs1 & T1 & S1 & L1 & G1); [lia|].
    destruct (IH st1) as (st' & Hd & D1 & D4 & D5 & D6 & D7 & evs & T & S & L & G);
      [done | lia |].
    exists st'. cbn [drain]. rewrite Hs. split; [done|].
    repeat split; try congruence.
    exists (evs1 ++ evs). rewrite T, T1, <- app_assoc. split; [done|].
    rewrite sink_of_app, log_of_app, storage_events_app, S1, S, L1, L, G1, G, C1.
    repeat split.
    + cbn [echo fold_right]. by rewrite append_assoc.
    + by rewrite <- plain_log_cons.
Qed.

(** The whole loop on a stream whose first non-empty line is plain. *)
Lemma drain_detect_plain (f log3 : string) (lines : list string) (st : DrainState) :
  f = "text" \/ f = "xml" ->
  d_format st = "" ->
  d_totalOutput st + total_len lines < MaxOutputSize ->
  detectFormat (first_nonempty lines) = f ->
  w_mkdir_fails w (DIR (d_ctx st)) = false ->
  Log3 w (d_ctx st) = Ok log3 ->
  w_open_fails w log3 = false ->
  exists st',
    drain w lines st = Next st'
    /\ d_ctx st' = d_ctx st
    /\ d_streamHasError st' = d_streamHasError st
    /\ d_sidSaved st' = d_sidSaved st
    /\ d_pendingSID st' = d_pendingSID st
    /\ d_logFile st' = Some log3
    /\ exists evs, d_trace st' = d_trace st ++ evs
                   /\ sink_of evs = echo lines
                   /\ log_of evs = plain_log f (SID (d_ctx st)) lines
                   /\ storage_events evs =
                        [EvMkdirAll (DIR (d_ctx st)); EvSaveContext (d_ctx st); EvOpenLog log3].
Proof.
  intros Hf. revert st. induction lines as [|line rest IH];
    intros st Hfmt Hlt Hdet Hmk Hlog Hop.
  - cbn in Hdet. destruct Hf as [->| ->]; discriminate.
  - cbn [total_len fold_right] in Hlt. fold (total_len rest) in Hlt.
    pose proof (total_len_nonneg rest).
    destruct (GoStrings.eqb line "") eqn:He.
    + apply eqb_true in He as ->.
      unfold first_nonempty in Hdet. cbn [List.filter] in Hdet.
      rewrite eqb_refl in Hdet. cbn [negb] in Hdet.
      cbn [drain]. rewrite (step_blank w st Hfmt) by lia. cbv zeta.
      unfold sink_failed. rewrite sink_ok.
      match goal with |- context [drain w rest ?s] =>
        destruct (IH s) as (st' & Hd & D1 & D4 & D5 & D6 & D7 & evs & T & S & L & G) end;
        try done.
      { change (d_totalOutput st + 0 + total_len rest < MaxOutputSize). lia. }
      exists st'. split; [done|]. cbn in D1, D4, D5, D6, T, L, G.
      repeat split; try done.
      exists (EvSinkWrite nl :: evs). rewrite T, <- app_assoc. split; [done|].
      cbn [sink_of log_of]. rewrite storage_events_cons_sink, S, L, G.
      repeat split.
    + unfold first_nonempty in Hdet. cbn [List.filter] in Hdet.
      rewrite He in Hdet. cbn [negb hd] in Hdet.
      cbn [drain]. unfold step. cbv zeta.
      change (d_format (next_line st)) with (d_format st). rewrite Hfmt, eqb_refl, He.
      cbn [negb andb]. rewrite (detect_ok w line log3) by done. rewrite Hdet.
      set (st0 := set_logFile (Some log3) _).
      destruct (dispatch_plain f line st0 Hf) as
        (st1 & Hs & C1 & C2 & C3 & C4 & C5 & C6 & C7 & evs1 & T1 & S1 & L1 & G1);
        [done | subst st0; cbn; lia |].
      rewrite Hs.
      destruct (drain_plain f rest st1 Hf C2) as
        (st' & Hd & D1 & D4 & D5 & D6 & D7 & evs & T & S & L & G).
      { rewrite C3. subst st0. cbn. lia. }
      exists st'. split; [done|]. subst st0. cbn in C1, C4, C5, C6, C7, T1, L1.
      repeat split; try congruence.
      exists ([EvMkdirAll (DIR (d_ctx st)); EvSaveContext (d_ctx st); EvOpenLog log3]
                ++ evs1 ++ evs).
      rewrite T, T1, <- !app_assoc. split; [done|].
      rewrite !sink_of_app, !log_of_app, !storage_events_app, S1, S, L1, L, G1, G, C1.
      cbn. repeat split.
      * by rewrite append_assoc.
      * rewrite (plain_log_cons f _ line rest). done.
Qed.

End PlainStreams.

Section PlainStreamsWhole.
Context {lib : GoLib}.
Variable w : World.
Hypothesis sink_ok : forall k, w_sink_fails w k = false.

(** A whole stream whose first non-empty line is plain. *)
Lemma StreamAndLog_plain (f log3 : string) (c : Context) (r : Reader) (lines : list string) :
  f = "text" \/ f = "xml" ->
  scanReader MaxLineLength r = (lines, None) ->
  detectFormat (first_nonempty lines) = f ->
  total_len lines < MaxOutputSize ->
  w_mkdir_fails w (DIR c) = false ->
  Log3 w c = Ok log3 ->
  w_open_fails w log3 = false ->
  let res := StreamAndLog w c r in
  res_err res = None
  /\ res_ctx res = c
  /\ sink_of (res_trace res) = echo lines
  /\ log_of (res_trace res) = plain_log f (SID c) lines
  /\ storage_events (res_trace res) =
       [EvMkdirAll (DIR c); EvSaveContext c; EvOpenLog log3; EvSaveContext c].
Proof.
  intros Hf Hscan Hdet Hlen Hmk Hlog Hop. cbv zeta.
  unfold StreamAndLog. rewrite Hscan. unfold StreamAndLog_lines.
  destruct (drain_detect_plain w sink_ok f log3 lines (initDrain c) Hf)
    as (st' & -> & D1 & D4 & D5 & D6 & D7 & evs & T & S & L & G); try done.
  cbn in D1, D4, D5, D6, T, L, G.
  unfold finish, Flush, sink_failed. rewrite sink_ok.
  cbn [emit d_streamHasError d_sidSaved d_pendingSID d_ctx].
  rewrite D4, D5, D6. cbn [negb andb]. rewrite eqb_refl. cbn [negb andb].
  unfold deferred, saveContext, Flush. cbn [emit d_logFile d_ctx d_trace].
  rewrite D7. rewrite bool_decide_eq_true_2 by done.
  cbn. rewrite D1, T. cbn [app].
  rewrite <- !app_assoc.
  rewrite sink_of_app, log_of_app, storage_events_app, S, L, G.
  cbn. rewrite append_nil_r, app_nil_r. done.
Qed.

End PlainStreamsWhole.

(** X11.  Plain text passes through.  When the first non-empty line of
    a stream starts with a byte other than an opening brace, bracket or
    angle, the counted bytes stay below the ceiling and no system call
    fails, then every line is written to the sink followed by a
    newline, blank lines included, every non-empty line is appended to
    the log as an assistant message under the session of the context,
    the context is unchanged, and the storage operations are the
    directory, the snapshot, the log file, and the snapshot again. *)
Theorem X11_plain_text_passes_through (lib : GoLib) (w : World) (c : Context) (r : Reader)
        (lines : list string) (log3 : string) :
  (forall k, w_sink_fails w k = false) ->
  scanReader MaxLineLength r = (lines, None) ->
  detectFormat (first_nonempty lines) = "text" ->
  total_len lines < MaxOutputSize ->
  w_mkdir_fails w (DIR c) = false ->
  Log3 w c = Ok log3 ->
  w_open_fails w log3 = false ->
  let res := StreamAndLog w c r in
  res_err res = None
  /\ res_ctx res = c
  /\ sink_of (res_trace res) = echo lines
  /\ log_of (res_trace res) =
       map (fun line => LogMessage (mkMessage (SID c) "assistant" line))
           (List.filter (fun line => negb (GoStrings.eqb line "")) lines)
  /\ storage_events (res_trace res) =
       [EvMkdirAll (DIR c); EvSaveContext c; EvOpenLog log3; EvSaveContext c].
Proof.
  intros Hs Hscan Hdet Hlen Hmk Hlog Hop.
  by apply (StreamAndLog_plain w Hs "text" log3 c r lines); [left|..].
Qed.

(** X11 on two lines of prose with a blank line between them. *)
Lemma X11_witness :
  let res := StreamAndLog (lib := RefLib) world0 ctx_architect (reader_of prose_stream) in
  res_err res = None
  /\ res_ctx res = ctx_architect
  /\ sink_of (res_trace res) = echo ["hello"; ""; "world"]
  /\ log_of (res_trace res) =
       map (fun line => LogMessage (mkMessage (SID ctx_architect) "assistant" line))
           (List.filter (fun line => negb (GoStrings.eqb line "")) ["hello"; ""; "world"])
  /\ storage_events (res_trace res) =
       [EvMkdirAll (DIR ctx_architect); EvSaveContext ctx_architect;
        EvOpenLog log3_architect; EvSaveContext ctx_architect].
Proof.
  apply (X11_plain_text_passes_through RefLib world0 ctx_architect (reader_of prose_stream)
           ["hello"; ""; "world"] log3_architect);
    [intros k; reflexivity | vm_compute; reflexivity ..].
Defined.

(** X12.  A stream in a format the interpreter does not know (its first
    non-empty line starts with an opening angle) is echoed line by line
    like plain text, and the log file is created, but nothing is
    appended to it. *)
Theorem X12_unknown_format_is_not_logged (lib : GoLib) (w : World) (c : Context) (r : Reader)
        (lines : list string) (log3 : string) :
  (forall k, w_sink_fails w k = false) ->
  scanReader MaxLineLength r = (lines, None) ->
  detectFormat (first_nonempty lines) = "xml" ->
  total_len lines < MaxOutputSize ->
  w_mkdir_fails w (DIR c) = false ->
  Log3 w c = Ok log3 ->
  w_open_fails w log3 = false ->
  let res := StreamAndLog w c r in
  res_err res = None
  /\ sink_of (res_trace res) = echo lines
  /\ log_of (res_trace res) = []
  /\ In (EvOpenLog log3) (res_trace res).
Proof.
  intros Hs Hscan Hdet Hlen Hmk Hlog Hop.
  destruct (StreamAndLog_plain w Hs "xml" log3 c r lines) as (H1 & H2 & H3 & H4 & H5);
    [by right | done ..|].
  cbv zeta. repeat split; try done.
  assert (In (EvOpenLog log3) (storage_events (StreamAndLog w c r).(res_trace))) as Hin.
  { rewrite H5. cbn. tauto. }
  unfold storage_events in Hin. by apply filter_In in Hin as [? _].
Qed.

(** X12 on a stream that opens with a tag. *)
Lemma X12_witness :
  let res := StreamAndLog (lib := RefLib) world0 ctx_architect (reader_of markup_stream) in
  res_err res = None
  /\ sink_of (res_trace res) = echo ["<answer>"; "42"; "</answer>"]
  /\ log_of (res_trace res) = []
  /\ In (EvOpenLog log3_architect) (res_trace res).
Proof.
  apply (X12_unknown_format_is_not_logged RefLib world0 ctx_architect (reader_of markup_stream)
           ["<answer>"; "42"; "</answer>"] log3_architect);
    [intros k; reflexivity | vm_compute; reflexivity ..].
Defined.

(** ** Truncation *)

Lemma length_app_string (s t : string) :
  String.length (s +:+ t) = (String.length s + String.length t)%nat.
Proof. induction s as [|c s IH]; [done|]. rewrite append_cons. cbn [String.length]. lia. Qed.

Lemma length_substring_0 (n : nat) (s : string) :
  (n <= String.length s)%nat -> String.length (String.substring 0 n s) = n.
Proof.
  revert n. induction s as [|c s IH]; intros [|n] H; cbn in *; try done; try lia.
  rewrite IH; lia.
Qed.

Lemma HasPrefix_substring_0 (n : nat) (s : string) :
  GoStrings.HasPrefix s (String.substring 0 n s) = true.
Proof.
  revert n. induction s as [|c s IH]; intros [|n]; cbn; try done.
  by rewrite Ascii.eqb_refl.
Qed.

(** X13.  [truncate] with a bound of at least 3: the result is never
    longer than the bound; a string within the bound is returned as it
    is; a longer one is cut to exactly the bound, and the result is a
    prefix of the string followed by three dots. *)
Theorem X13_truncate_within_bound (s : string) (maxLen : Z) :
  3 <= maxLen ->
  Z.of_nat (String.length (truncate s maxLen)) <= maxLen
  /\ (Z.of_nat (String.length s) <= maxLen -> truncate s maxLen = s)
  /\ (maxLen < Z.of_nat (String.length s) ->
      Z.of_nat (String.length (truncate s maxLen)) = maxLen
      /\ exists p, truncate s maxLen = p +:+ "..." /\ GoStrings.HasPrefix s p = true).
Proof.
  intros H3. unfold truncate.
  destruct (Z.leb_spec maxLen 0); [lia|].
  destruct (Z.leb_spec (Z.of_nat (String.length s)) maxLen) as [Hle|Hgt].
  { repeat split; [lia | lia |]. lia. }
  assert (Z.of_nat (String.length
            (if maxLen <=? 3 then "..."
             else String.substring 0 (Z.to_nat (maxLen - 3)) s +:+ "...")) = maxLen) as Hlen.
  { destruct (Z.leb_spec maxLen 3).
    - cbn. lia.
    - rewrite length_app_string, length_substring_0 by lia. cbn. lia. }
  split; [lia|]. split; [lia|]. intros _. split; [done|].
  destruct (Z.leb_spec maxLen 3).
  - exists "". split; [done|]. apply HasPrefix_nil.
  - eexists. split; [reflexivity|]. apply HasPrefix_substring_0.
Qed.

(** X13 on a string of eleven bytes and the bound 8. *)
Lemma X13_witness :
  Z.of_nat (String.length (truncate "hello world" 8)) <= 8
  /\ (Z.of_nat (String.length "hello world") <= 8 -> truncate "hello world" 8 = "hello world")
  /\ (8 < Z.of_nat (String.length "hello world") ->
      Z.of_nat (String.length (truncate "hello world" 8)) = 8
      /\ exists p, truncate "hello world" 8 = p +:+ "..."
                   /\ GoStrings.HasPrefix "hello world" p = true).
Proof. apply (X13_truncate_within_bound "hello world" 8). lia. Defined.

(** ** The call rules in terms of the caller's persona *)

Lemma identifier_no_role (s : string) :
  isValidIdentifier_go s = true -> role_component s = None.
Proof.
  induction s as [|c s IH]; [done|]. cbn [isValidIdentifier_go role_component].
  destruct (is_identifier_char c) eqn:Hc; cbn [negb]; [|done].
  intros H. rewrite (IH H).
  destruct (Ascii.eqb c "~") eqn:E; [|done].
  apply Ascii.eqb_eq in E. by subst c.
Qed.

Lemma isValidIdentifier_spec (s : string) :
  isValidIdentifier s = true -> s <> "" /\ role_component s = None.
Proof.
  unfold isValidIdentifier. destruct s as [|c s]; [done|].
  cbn [String.length Nat.eqb orb]. destruct (64 <? _); [done|].
  intros Hgo. split; [done|]. by apply identifier_no_role.
Qed.

Lemma role_component_tagged (m g : string) :
  role_component m = None -> role_component (m +:+ "~" +:+ g) = Some m.
Proof.
  induction m as [|c m IH]; [done|]. rewrite append_cons. cbn [role_component].
  destruct (Ascii.eqb c "~"); [done|].
  destruct (role_component m); [done|]. intros _. by rewrite IH.
Qed.

(** The role component of the tag of a context whose parameters were
    validated is its persona. *)
Lemma role_component_Tag3 (p : Context) :
  isValidIdentifier (GEN p) = true ->
  MOD p = "" \/ isValidIdentifier (MOD p) = true ->
  Tag3 p <> ""
  /\ role_component (Tag3 p) = if bool_decide (MOD p = "") then None else Some (MOD p).
Proof.
  intros Hg Hm. apply isValidIdentifier_spec in Hg as [Hg1 Hg2]. unfold Tag3.
  destruct (GoStrings.eqb (MOD p) "") eqn:E; cbn [negb].
  - apply eqb_true in E. by rewrite bool_decide_eq_true_2.
  - apply eqb_false in E. rewrite bool_decide_eq_false_2 by done.
    destruct Hm as [?|Hm]; [done|]. apply isValidIdentifier_spec in Hm as [_ Hm].
    split; [|by apply role_component_tagged].
    destruct (MOD p); [done|]. by rewrite append_cons.
Qed.

(** X14.  The call rules in terms of the caller.  Let the caller tag of
    a context be the tag of a caller whose genus and persona passed
    [ValidateContextParams], the depth be below 3 and the callee tag
    differ from the caller tag.  Then validation denies the call with
    code 4 exactly when the caller's persona is [engineer], with code 5
    exactly when the caller has no persona and the callee's persona is
    [engineer], and allows it in every other case. *)
Theorem X14_call_rules_by_caller_persona (lib : GoLib) (p c : Context) :
  isValidIdentifier (GEN p) = true ->
  MOD p = "" \/ isValidIdentifier (MOD p) = true ->
  TOP c = Tag3 p ->
  LVL c < 3 ->
  TAG c <> TOP c ->
  Code <$> ValidateCall c =
    if bool_decide (MOD p = "engineer") then Some 4
    else if bool_decide (MOD p = "" /\ MOD c = "engineer") then Some 5
    else None.
Proof.
  intros Hg Hm Htop Hlvl Htag.
  destruct (role_component_Tag3 p Hg Hm) as [Hne Hrole]. rewrite <- Htop in Hne, Hrole.
  change (Code <$> ValidateCall c) with (validation_exit (ValidateCall c)).
  rewrite ValidateCall_table. unfold validate_table, MaxDepth, terminal_role.
  rewrite bool_decide_eq_false_2 by lia.
  rewrite bool_decide_eq_false_2 by (intros [_ ?]; done).
  rewrite Hrole.
  destruct (bool_decide (MOD p = "")) eqn:E.
  - apply bool_decide_eq_true in E.
    rewrite (bool_decide_eq_false_2 (None = _)) by done.
    rewrite (bool_decide_eq_false_2 (MOD p = "engineer")) by (rewrite E; done).
    destruct (bool_decide (MOD c = "engineer")) eqn:E2.
    + apply bool_decide_eq_true in E2. by rewrite !bool_decide_eq_true_2.
    + apply bool_decide_eq_false in E2.
      rewrite !bool_decide_eq_false_2; [done | tauto | tauto].
  - apply bool_decide_eq_false in E.
    destruct (bool_decide (MOD p = "engineer")) eqn:E2.
    + apply bool_decide_eq_true in E2. rewrite bool_decide_eq_true_2 by congruence. done.
    + apply bool_decide_eq_false in E2.
      rewrite bool_decide_eq_false_2 by congruence.
      rewrite !bool_decide_eq_false_2; [done | tauto | intros (_ & ? & _); done].
Qed.

(** X14 for the architect persona called by the engineer persona. *)
Lemma X14_witness :
  Code <$> ValidateCall (lib := RefLib) ctx_architect_from_engineer =
    if bool_decide (MOD ctx_engineer = "engineer") then Some 4
    else if bool_decide (MOD ctx_engineer = "" /\ MOD ctx_architect_from_engineer = "engineer")
         then Some 5
    else None.
Proof.
  apply (X14_call_rules_by_caller_persona RefLib ctx_engineer ctx_architect_from_engineer).
  - reflexivity.
  - right. reflexivity.
  - reflexivity.
  - reflexivity.
  - discriminate.
Defined.

(** ** Normalised identifiers *)

Ltac by_bytes c := destruct c as [[] [] [] [] [] [] [] []]; vm_compute; try done.

Lemma lower_byte_hex (c : ascii) : is_hex_digit c = true -> is_hex_digit (lower_byte c) = true.
Proof. by_bytes c. Qed.

Lemma hex_is_ascii (c : ascii) : is_hex_digit c = true -> (RuneSelf <=? byte_val c) = false.
Proof. by_bytes c. Qed.

Lemma lower_byte_idem (c : ascii) : lower_byte (lower_byte c) = lower_byte c.
Proof. by_bytes c. Qed.

Lemma lower_byte_ascii (c : ascii) :
  (RuneSelf <=? byte_val c) = false -> (RuneSelf <=? byte_val (lower_byte c)) = false.
Proof. by_bytes c. Qed.

Lemma length_map_bytes (f : ascii -> ascii) (s : string) :
  String.length (map_bytes f s) = String.length s.
Proof. induction s as [|c s IH]; [done|]. cbn. by rewrite IH. Qed.

Lemma map_lower_idem (s : string) :
  map_bytes lower_byte (map_bytes lower_byte s) = map_bytes lower_byte s.
Proof. induction s as [|c s IH]; [done|]. cbn. by rewrite lower_byte_idem, IH. Qed.

Lemma map_lower_ascii (s : string) : isASCII s = true -> isASCII (map_bytes lower_byte s) = true.
Proof.
  induction s as [|c s IH]; [done|]. cbn [isASCII map_bytes].
  destruct (RuneSelf <=? byte_val c) eqn:E; [done|]. rewrite lower_byte_ascii by done. done.
Qed.

Lemma isValidUUID_go_ascii (i : nat) (s : string) :
  isValidUUID_go i s = true -> isASCII s = true.
Proof.
  revert i. induction s as [|c s IH]; intros i; [done|]. cbn [isValidUUID_go isASCII].
  destruct (_ || _).
  - destruct (Ascii.eqb c "-") eqn:E; [|done]. apply Ascii.eqb_eq in E as ->. apply IH.
  - destruct (is_hex_digit c) eqn:E; cbn [negb]; [|done].
    rewrite hex_is_ascii by done. apply IH.
Qed.

Lemma isValidUUID_go_lower (i : nat) (s : string) :
  isValidUUID_go i s = true -> isValidUUID_go i (map_bytes lower_byte s) = true.
Proof.
  revert i. induction s as [|c s IH]; intros i; [done|]. cbn [isValidUUID_go map_bytes].
  destruct (_ || _).
  - destruct (Ascii.eqb c "-") eqn:E; [|done]. apply Ascii.eqb_eq in E as ->. apply IH.
  - destruct (is_hex_digit c) eqn:E; cbn [negb]; [|done].
    rewrite lower_byte_hex by done. apply IH.
Qed.

(** X15.  [NormalizeUUID] maps an identifier that [isValidUUID] accepts
    to one that it accepts, of the same length, and normalising twice
    is normalising once: a normalised conversation identifier passes
    [ValidateContextParams] whenever the one that was typed does. *)
Theorem X15_normalised_identifier_is_valid (uni : GoUnicode) (s : string) :
  isValidUUID s = true ->
  isValidUUID (NormalizeUUID s) = true
  /\ String.length (NormalizeUUID s) = String.length s
  /\ NormalizeUUID (NormalizeUUID s) = NormalizeUUID s.
Proof.
  unfold isValidUUID, NormalizeUUID, strings_ToLower.
  destruct (String.length s =? 36)%nat eqn:El; cbn [negb]; [|done]. intros H.
  pose proof (isValidUUID_go_ascii 0 s H) as Ha. rewrite Ha.
  rewrite map_lower_ascii by done. rewrite length_map_bytes, El. cbn [negb].
  split; [by apply isValidUUID_go_lower|]. split; [done|]. apply map_lower_idem.
Qed.

(** X15 on an identifier typed in upper case. *)
Lemma X15_witness :
  isValidUUID (NormalizeUUID (uni := RefUnicode) "ABCDEF01-2345-4678-9ABC-DEF012345678") = true
  /\ String.length (NormalizeUUID (uni := RefUnicode) "ABCDEF01-2345-4678-9ABC-DEF012345678")
     = String.length "ABCDEF01-2345-4678-9ABC-DEF012345678"
  /\ NormalizeUUID (uni := RefUnicode)
       (NormalizeUUID (uni := RefUnicode) "ABCDEF01-2345-4678-9ABC-DEF012345678")
     = NormalizeUUID (uni := RefUnicode) "ABCDEF01-2345-4678-9ABC-DEF012345678".
Proof.
  apply (X15_normalised_identifier_is_valid RefUnicode "ABCDEF01-2345-4678-9ABC-DEF012345678").
  reflexivity.
Defined.

(** ** Depth written and read back *)

Lemma pretty_N_char_digit (m : N) :
  (m < 10)%N ->
  ((48 <=? byte_val (pretty_N_char m)) && (byte_val (pretty_N_char m) <=? 57)) = true
  /\ byte_val (pretty_N_char m) - 48 = Z.of_N m.
Proof.
  intros H.
  assert (m = 0 \/ m = 1 \/ m = 2 \/ m = 3 \/ m = 4 \/ m = 5 \/ m = 6 \/ m = 7 \/ m = 8 \/ m = 9)%N
    as Hc by lia.
  repeat (destruct Hc as [-> | Hc]; [done|]). by subst.
Qed.

(** Reading the decimal digits that [pretty] wrote. *)
Lemma atoi_digits_pretty_go (x : N) (s : string) :
  exists k, 0 <= k /\ forall acc,
    atoi_digits acc (pretty_N_go x s) = atoi_digits (acc * 10 ^ k + Z.of_N x) s.
Proof.
  revert s. induction (N.lt_wf_0 x) as [x _ IH]; intros s.
  destruct (decide (x = 0%N)) as [->|Hx].
  - exists 0. split; [done|]. intros acc. rewrite pretty_N_go_0. f_equal. lia.
  - rewrite pretty_N_go_step by lia.
    destruct (IH (x `div` 10)%N) with (s := String (pretty_N_char (x `mod` 10)) s)
      as (k & Hk & Heq).
    { apply N.div_lt; lia. }
    exists (k + 1). split; [lia|]. intros acc. rewrite Heq. cbn [atoi_digits].
    destruct (pretty_N_char_digit (x `mod` 10)%N) as [-> ->].
    { apply N.mod_lt. lia. }
    f_equal. rewrite Z.pow_add_r by lia.
    pose proof (N.div_mod x 10) as Hdm.
    assert (Z.of_N x = 10 * Z.of_N (x `div` 10) + Z.of_N (x `mod` 10)) by lia. lia.
Qed.

Lemma pretty_N_go_head (x : N) (s : string) :
  (0 < x)%N ->
  exists d rest, pretty_N_go x s = String d rest
                 /\ ((48 <=? byte_val d) && (byte_val d <=? 57)) = true.
Proof.
  revert s. induction (N.lt_wf_0 x) as [x _ IH]; intros s Hx.
  rewrite pretty_N_go_step by done.
  destruct (decide (x `div` 10 = 0)%N) as [->|Hd].
  - rewrite pretty_N_go_0. eexists _, _. split; [done|].
    apply pretty_N_char_digit, N.mod_lt. lia.
  - apply IH; [apply N.div_lt; lia | by apply N.neq_0_lt_0].
Qed.

Lemma digit_not_sign (d : ascii) :
  ((48 <=? byte_val d) && (byte_val d <=? 57)) = true ->
  Ascii.eqb d "-" = false /\ Ascii.eqb d "+" = false.
Proof. by_bytes d. Qed.

Lemma atoi_pretty_pos (p : positive) :
  exists d rest, pretty (N.pos p) = String d rest
    /\ Ascii.eqb d "-" = false /\ Ascii.eqb d "+" = false
    /\ atoi_digits 0 (String d rest) = Some (Z.pos p).
Proof.
  unfold pretty, pretty_N. rewrite decide_False by done.
  destruct (pretty_N_go_head (N.pos p) "") as (d & rest & Heq & Hd); [lia|].
  exists d, rest. split; [done|]. destruct (digit_not_sign d Hd) as [-> ->].
  split; [done|]. split; [done|]. rewrite <- Heq.
  destruct (atoi_digits_pretty_go (N.pos p) "") as (k & _ & ->). cbn. done.
Qed.

(** [strconv.Atoi] reads back what [%d] printed. *)
Lemma Atoi_pretty (z : Z) :
  - 2 ^ 63 <= z < 2 ^ 63 -> strconv_Atoi (pretty z) = Some z.
Proof.
  intros Hz. destruct z as [|p|p].
  - done.
  - change (pretty (Z.pos p)) with (pretty (N.pos p)).
    destruct (atoi_pretty_pos p) as (d & rest & -> & Hm & Hp & Hv).
    unfold strconv_Atoi. rewrite Hm, Hp.
    assert (GoStrings.eqb (String d rest) "" = false) as -> by by apply eqb_false.
    rewrite Hv.
    destruct (Z.leb_spec (- 2 ^ 63) (Z.pos p)); [|lia].
    destruct (Z.ltb_spec (Z.pos p) (2 ^ 63)); [done|lia].
  - change (pretty (Z.neg p)) with ("-" +:+ pretty (N.pos p)).
    destruct (atoi_pretty_pos p) as (d & rest & -> & Hm & Hp & Hv).
    rewrite append_cons, append_nil_l. unfold strconv_Atoi.
    change (Ascii.eqb "-" "-") with true. cbv iota.
    assert (GoStrings.eqb (String d rest) "" = false) as -> by by apply eqb_false.
    rewrite Hv. change (- Z.pos p) with (Z.neg p).
    destruct (Z.leb_spec (- 2 ^ 63) (Z.neg p)); [|lia].
    destruct (Z.ltb_spec (Z.neg p) (2 ^ 63)); [done|lia].
Qed.

Lemma wrap64_range (z : Z) : - 2 ^ 63 <= wrap64 z < 2 ^ 63.
Proof. unfold wrap64. pose proof (Z.mod_pos_bound (z + 2 ^ 63) (2 ^ 64)). lia. Qed.

Lemma wrap64_small (z : Z) : - 2 ^ 63 <= z < 2 ^ 63 -> wrap64 z = z.
Proof. intros H. unfold wrap64. rewrite Z.mod_small; lia. Qed.

Lemma pretty_Z_nonempty (z : Z) : pretty z <> "".
Proof.
  destruct z as [|p|p]; [done|..].
  - change (pretty (Z.pos p)) with (pretty (N.pos p)).
    by destruct (atoi_pretty_pos p) as (d & rest & -> & _).
  - change (pretty (Z.neg p)) with ("-" +:+ pretty (N.pos p)). by rewrite append_cons.
Qed.

Section Construction.
Context {lib : GoLib}.
Variable w : World.

(** What [InitContext] builds. *)
Lemma InitContext_fields (rnd rnd' : Entropy) (gen model : string) (ctx : Context) :
  InitContext w rnd gen model = (Done ctx, rnd') ->
  ValidateContextParams "" gen model = None
  /\ (exists b, rnd = b :: rnd' /\ CID ctx = formatID b /\ SID ctx = formatID b)
  /\ GEN ctx = gen /\ MOD ctx = model
  /\ TOP ctx = os_Getenv w "AITAG"
  /\ TAG ctx = Tag3 ctx
  /\ LVL ctx = (if negb (GoStrings.eqb (os_Getenv w "AILVL") "")
                then default 0 (strconv_Atoi (os_Getenv w "AILVL")) else 0)
  /\ WTF ctx = false /\ ENV ctx = ∅
  /\ Dir2 w ctx = Ok (DIR ctx).
Proof.
  unfold InitContext.
  destruct (ValidateContextParams "" gen model); [done|].
  destruct rnd as [|b rnd0]; [done|]. cbn [NewID]. cbv zeta.
  set (c1 := if negb (GoStrings.eqb (os_Getenv w "AITAG") "") then _ else _).
  set (c2 := if negb (GoStrings.eqb (os_Getenv w "AILVL") "") then _ else _).
  assert (TOP c1 = os_Getenv w "AITAG" /\ c1 = set_TOP (mkContext (formatID b) (formatID b)
            "" "" gen model 0 false "" ∅) (TOP c1)) as [Ht1 Hc1].
  { subst c1. destruct (GoStrings.eqb (os_Getenv w "AITAG") "") eqn:E; cbn; [|done].
    apply eqb_true in E. by rewrite E. }
  assert (c2 = set_LVL c1 (LVL c2)
          /\ LVL c2 = (if negb (GoStrings.eqb (os_Getenv w "AILVL") "")
                       then default 0 (strconv_Atoi (os_Getenv w "AILVL")) else 0))
    as [Hc2 Hl2].
  { subst c2. rewrite Hc1.
    destruct (GoStrings.eqb (os_Getenv w "AILVL") ""); cbn [negb]; [done|].
    by destruct (strconv_Atoi (os_Getenv w "AILVL")). }
  destruct (Dir2 w (set_TAG c2 (Tag3 c2))) as [dir|e] eqn:Hd; [|done].
  intros [= <- <-]. split; [done|]. rewrite Hc2, Hc1. cbn.
  split; [by exists b|]. repeat split; try done.
  rewrite <- Hd. unfold Dir2, Dir1. rewrite Hc2, Hc1. done.
Qed.

End Construction.

Section Exported.
Context {lib : GoLib}.
Variable w : World.

(** The environment of the command [CallGenus] prepares. *)
Lemma CallGenus_env (rnd rnd1 : Entropy) (c c1 : Context) (cmdArgs : string)
      (stdin : option string) (l : LazyCommandStream) :
  CallGenus w rnd c cmdArgs stdin = (c1, rnd1, Ok l) ->
  ValidateCall c = None
  /\ cmd_Env (lcs_cmd l) =
       w_environ w ++
       [ "AICID=" +:+ CID c; "AISID=" +:+ SID c1; "AIGEN=" +:+ GEN c;
         "AIMOD=" +:+ MOD c; "AITAG=" +:+ TAG c; "AITOP=" +:+ TOP c;
         "AILVL=" +:+ pretty (wrap64 (LVL c + 1)) ] ++
       (if WTF c then ["AIWTF=1"] else []).
Proof.
  unfold CallGenus.
  destruct (ValidateCall c); [done|].
  destruct (w_config w) as [cfg|] eqn:Hc; [|done].
  unfold GetGenus.
  destruct (Genera cfg !! GEN c) as [genus|] eqn:Hg; [|done].
  destruct (length (Exe genus) =? 0)%nat eqn:Hl; [done|].
  destruct (ValidateCommand w _); [done|].
  match goal with |- context [buildSessionFlags w rnd c genus ?pv] =>
    pose proof (buildSessionFlags_frame w rnd c genus pv) as Hf;
    destruct (buildSessionFlags w rnd c genus pv) as [[c0 rnd'] res] end.
  cbn in Hf.
  destruct res as [[sessionArgs isNew]|e']; [|done].
  cbv zeta.
  match goal with |- context [match ?x with pair _ _ => _ end] => destruct x end.
  intros [= <- <- <-]. split; [done|]. cbn.
  unfold only_SID in Hf. rewrite Hf. done.
Qed.

End Exported.

(** X16.  A conversation started where the environment holds no caller
    tag: the context [InitContext] builds has the conversation
    identifier as its session, an empty caller tag and the tag of its
    genus and persona as callee tag, and validation can only deny it
    for its depth (code 3, when [AILVL] holds 3 or more). *)
Theorem X16_fresh_conversation_is_allowed (lib : GoLib) (w : World) (rnd rnd' : Entropy)
        (gen model : string) (ctx : Context) :
  InitContext w rnd gen model = (Done ctx, rnd') ->
  os_Getenv w "AITAG" = "" ->
  SID ctx = CID ctx
  /\ TOP ctx = ""
  /\ TAG ctx = Tag3 ctx
  /\ Code <$> ValidateCall ctx = (if 3 <=? LVL ctx then Some 3 else None).
Proof.
  intros H Henv. apply InitContext_fields in H
    as (_ & (b & _ & Hc & Hs) & _ & _ & Ht & Htag & _).
  rewrite Henv in Ht. repeat split; try congruence.
  unfold ValidateCall. destruct (3 <=? LVL ctx); [done|].
  rewrite Ht, eqb_refl. by destruct (GoStrings.eqb (TAG ctx) "").
Qed.

(** X16 for a conversation started at the terminal. *)
Lemma X16_witness :
  SID (built fresh_conversation.1) = CID (built fresh_conversation.1)
  /\ TOP (built fresh_conversation.1) = ""
  /\ TAG (built fresh_conversation.1) = Tag3 (built fresh_conversation.1)
  /\ Code <$> ValidateCall (lib := RefLib) (built fresh_conversation.1)
     = (if 3 <=? LVL (built fresh_conversation.1) then Some 3 else None).
Proof.
  apply (X16_fresh_conversation_is_allowed RefLib world0 [block1] [] "claude" "architect"
           (built fresh_conversation.1)); vm_compute; reflexivity.
Defined.

(** X17.  The depth is handed down.  The environment [CallGenus]
    prepares for the child ends with the callee tag as [AITAG] and the
    depth plus one as [AILVL]; a process that finds these two values in
    its environment builds, with [InitContext], a context whose caller
    tag is that tag and whose depth is that depth: [strconv.Atoi] reads
    back what was printed.  A call made at depth 2 therefore starts a
    child all of whose own calls are denied with code 3. *)
Theorem X17_depth_is_handed_down (lib : GoLib) (w w' : World) (rnd rnd1 rnd2 rnd3 : Entropy)
        (c c1 ctx : Context) (cmdArgs : string) (stdin : option string)
        (l : LazyCommandStream) (gen model : string) :
  CallGenus w rnd c cmdArgs stdin = (c1, rnd1, Ok l) ->
  os_Getenv w' "AITAG" = TAG c ->
  os_Getenv w' "AILVL" = pretty (wrap64 (LVL c + 1)) ->
  InitContext w' rnd2 gen model = (Done ctx, rnd3) ->
  In ("AITAG=" +:+ TAG c) (cmd_Env (lcs_cmd l))
  /\ In ("AILVL=" +:+ pretty (wrap64 (LVL c + 1))) (cmd_Env (lcs_cmd l))
  /\ TOP ctx = TAG c
  /\ LVL ctx = wrap64 (LVL c + 1)
  /\ (2 <= LVL c -> Code <$> ValidateCall ctx = Some 3).
Proof.
  intros Hcall Htag Hlvl Hinit.
  apply CallGenus_env in Hcall as [Hv ->].
  apply InitContext_fields in Hinit as (_ & _ & _ & _ & Ht & _ & Hl & _).
  rewrite Hlvl in Hl. rewrite (proj2 (eqb_false _ _) (pretty_Z_nonempty _)) in Hl.
  rewrite Atoi_pretty in Hl by apply wrap64_range. cbn in Hl.
  split; [|split]; [rewrite !in_app_iff; right; left; cbn; tauto ..|].
  split; [congruence|]. split; [done|].
  intros H2. assert (LVL c < 3) as H3.
  { unfold ValidateCall in Hv. by destruct (Z.leb_spec 3 (LVL c)). }
  assert (LVL c = 2) as Heq by lia. rewrite Heq in Hl. change (wrap64 (2 + 1)) with 3 in Hl.
  unfold ValidateCall. by rewrite Hl.
Qed.

(** X17 for a call made at depth 2 by the architect persona. *)
Lemma X17_witness :
  In ("AITAG=" +:+ TAG (set_LVL ctx_architect 2)) (cmd_Env (lcs_cmd (stream_of call_at_depth2)))
  /\ In ("AILVL=" +:+ pretty (wrap64 (LVL (set_LVL ctx_architect 2) + 1)))
        (cmd_Env (lcs_cmd (stream_of call_at_depth2)))
  /\ TOP (built child_conversation.1) = TAG (set_LVL ctx_architect 2)
  /\ LVL (built child_conversation.1) = wrap64 (LVL (set_LVL ctx_architect 2) + 1)
  /\ (2 <= LVL (set_LVL ctx_architect 2) ->
      Code <$> ValidateCall (lib := RefLib) (built child_conversation.1) = Some 3).
Proof.
  apply (X17_depth_is_handed_down RefLib world0 child_world [] call_at_depth2.1.2
           [block1] [] (set_LVL ctx_architect 2) call_at_depth2.1.1
           (built child_conversation.1) "hello" None (stream_of call_at_depth2)
           "claude" "engineer"); vm_compute; reflexivity.
Defined.

(** ** Resuming and branching *)

Section Resume.
Context {lib : GoLib}.
Variable w : World.

Lemma DetermineSessionID_frame (c c' : Context) (r : Result ID) :
  DetermineSessionID w c = (c', r) -> only_SID c c'.
Proof.
  unfold DetermineSessionID. intros H.
  repeat case_match; simplify_eq; try apply only_SID_refl; apply only_SID_set.
Qed.

End Resume.

(** X18.  [ResumeContext] succeeds only when [os.Stat] does not
    report the snapshot file of the context as missing, even when the
    logs exist: the file exists, or [os.Stat] failed on it with an error
    other than not-exist.  The context it returns is for the
    conversation, genus and persona asked for, its directory is the one
    [Dir2] computes, and its session is never empty when the
    conversation identifier is not. *)
Theorem X18_resume_needs_the_snapshot (lib : GoLib) (w : World)
        (stat_not_exist : string -> bool) (cid : ID) (gen model : string) (ctx : Context) :
  ResumeContext w stat_not_exist cid gen model = Done ctx ->
  (fileExists w (filepath_Join [DIR ctx; contextFileName]) = true
   \/ stat_not_exist (filepath_Join [DIR ctx; contextFileName]) = false)
  /\ CID ctx = cid /\ GEN ctx = gen /\ MOD ctx = model
  /\ Dir2 w ctx = Ok (DIR ctx)
  /\ (cid <> "" -> SID ctx <> "").
Proof.
  unfold ResumeContext.
  destruct (ValidateContextParams cid gen model); [done|]. cbv zeta.
  set (c1 := if negb (GoStrings.eqb (os_Getenv w "AITAG") "") then _ else _).
  set (c2 := if negb (GoStrings.eqb (os_Getenv w "AILVL") "") then _ else _).
  assert (CID c2 = cid /\ GEN c2 = gen /\ MOD c2 = model) as (Hc & Hg & Hm).
  { subst c2 c1. by repeat case_match. }
  set (c3 := set_TAG c2 (Tag3 c2)).
  destruct (Dir2 w c3) as [dir|e] eqn:Hd; [|done].
  destruct (DetermineSessionID w (set_DIR c3 dir)) as [c4 [sid|e]] eqn:Hs; [|done].
  pose proof (DetermineSessionID_frame w _ _ _ Hs) as Hf.
  assert (SID (set_SID c4 sid) = sid /\ CID (set_SID c4 sid) = cid /\ GEN (set_SID c4 sid) = gen
          /\ MOD (set_SID c4 sid) = model /\ DIR (set_SID c4 sid) = dir) as (E1 & E2 & E3 & E4 & E5).
  { unfold only_SID in Hf. rewrite Hf. subst c3. cbn. done. }
  assert (Dir2 w (set_SID c4 sid) = Ok dir) as Hd'.
  { rewrite <- Hd. unfold Dir2, Dir1. rewrite E2, E3, E4. subst c3. cbn. by rewrite Hc, Hg, Hm. }
  assert (cid <> "" -> sid <> "") as Hne.
  { intros Hcid.
    apply (DetermineSessionID_nonempty w (set_DIR c3 dir) c4 sid); [|done].
    subst c3. cbn. by rewrite Hc. }
  destruct (negb (fileExists w (filepath_Join [DIR (set_SID c4 sid); contextFileName]))
            && stat_not_exist (filepath_Join [DIR (set_SID c4 sid); contextFileName]))
    eqn:Hex; [done|].
  rewrite E5 in Hex.
  intros H.
  assert (exists env wtf, ctx = set_WTF (set_ENV (set_SID c4 sid) env) wtf) as (env & wtf & ->).
  { repeat case_match; simplify_eq.
    - by eexists _, _.
    - exists (ENV (set_SID c4 sid)), (WTF (set_SID c4 sid)). by destruct c4.
    - exists (ENV (set_SID c4 sid)), (WTF (set_SID c4 sid)). by destruct c4. }
  cbn [DIR CID GEN MOD SID set_WTF set_ENV].
  change (DIR (set_SID c4 sid)) with (DIR c4) in *.
  rewrite E5 in *. repeat split; try done.
  apply andb_false_iff in Hex as [Hex|Hex]; [left|by right].
  by apply negb_false_iff.
Qed.

(** X18 for the architect persona whose snapshot is on disk. *)
Lemma X18_witness :
  (fileExists (world_of fs_snapshot)
     (filepath_Join (GoLib := RefLib) [DIR (built resumed_conversation); contextFileName]) = true
   \/ (fun _ : string => true)
        (filepath_Join (GoLib := RefLib) [DIR (built resumed_conversation); contextFileName])
      = false)
  /\ CID (built resumed_conversation) = cid1
  /\ GEN (built resumed_conversation) = "claude"
  /\ MOD (built resumed_conversation) = "architect"
  /\ Dir2 (lib := RefLib) (world_of fs_snapshot) (built resumed_conversation)
     = Ok (DIR (built resumed_conversation))
  /\ (cid1 <> "" -> SID (built resumed_conversation) <> "").
Proof.
  apply (X18_resume_needs_the_snapshot RefLib (world_of fs_snapshot) (fun _ => true)
           cid1 "claude" "architect" (built resumed_conversation)).
  vm_compute. reflexivity.
Defined.

(** X19.  A successful [Branch] draws one identifier and makes it the
    session, resets the depth to 0, keeps every other field but the
    directory, which is the one [Dir2] computes for the conversation,
    and performs two operations: it creates that directory and writes
    the snapshot of the new context into it. *)
Theorem X19_branch_keeps_the_conversation (lib : GoLib) (w : World)
        (writefile_fails : string -> bool) (rnd rnd' : Entropy) (ctx ctx' : Context)
        (evs : list Event) :
  Branch w writefile_fails rnd ctx = (ctx', rnd', evs, None) ->
  (exists b, rnd = b :: rnd'
             /\ ctx' = set_DIR (set_LVL (set_SID ctx (formatID b)) 0) (DIR ctx'))
  /\ Dir2 w ctx = Ok (DIR ctx')
  /\ evs = [EvMkdirAll (DIR ctx'); EvSaveContext ctx'].
Proof.
  unfold Branch. destruct rnd as [|b rnd0]; [done|]. cbn [NewID]. cbv zeta.
  destruct (Dir2 w (set_LVL (set_SID ctx (formatID b)) 0)) as [dir|e] eqn:Hd; [|done].
  destruct (w_mkdir_fails w _); [done|]. destruct (writefile_fails _); [done|].
  intros [= <- <- <-]. split; [by exists b|]. split; [|done].
  cbn [DIR set_DIR]. rewrite <- Hd. done.
Qed.

(** X19 for the architect persona. *)
Lemma X19_witness :
  (exists b, [block1] = b :: branched_conversation.1.1.2
             /\ branched_conversation.1.1.1
                = set_DIR (set_LVL (set_SID ctx_architect (formatID b)) 0)
                          (DIR branched_conversation.1.1.1))
  /\ Dir2 (lib := RefLib) world0 ctx_architect = Ok (DIR branched_conversation.1.1.1)
  /\ branched_conversation.1.2
     = [EvMkdirAll (DIR branched_conversation.1.1.1);
        EvSaveContext branched_conversation.1.1.1].
Proof.
  apply (X19_branch_keeps_the_conversation RefLib world0 (fun _ => false) [block1]
           branched_conversation.1.1.2 ctx_architect branched_conversation.1.1.1
           branched_conversation.1.2).
  vm_compute. reflexivity.
Defined.

(** ** Referenced conversations *)

Section ReferencedFacts.
Context {lib : GoLib} {uni : GoUnicode} {dec : GoDecode}.
Variable w : World.

(** The search stops at the first log that is read without an error,
    and reports the error of the log before it. *)
Lemma loadFirst_found (logPaths : list string) (lastErr lastErr' : option LogError)
      (messages : list Message) :
  loadFirst w logPaths lastErr = (messages, lastErr') ->
  messages <> [] ->
  exists path, In path logPaths /\ loadMessagesFromLog w path = Messages messages.
Proof.
  revert lastErr. induction logPaths as [|p rest IH]; intros lastErr; cbn [loadFirst].
  - by intros [= <- <-].
  - destruct (loadMessagesFromLog w p) as [ms|e] eqn:E.
    + intros [= <- <-] _. exists p. split; [by left | done].
    + intros H Hne. destruct (IH _ H Hne) as (path & Hin & Hp).
      exists path. split; [by right | done].
Qed.

End ReferencedFacts.

(** X20.  [LoadReferencedContext] never returns more messages than it
    was asked for (20 when the number asked for is not positive), and
    never an empty list: what it returns are the last messages of one
    of the three logs of the conversation, in the order of the log. *)
Theorem X20_referenced_messages_bounded (lib : GoLib) (uni : GoUnicode) (dec : GoDecode)
        (w : World) (refCID : ID) (maxMessages : Z) (messages : list Message) :
  LoadReferencedContext w refCID maxMessages = RefMessages messages ->
  messages <> []
  /\ Z.of_nat (length messages) <= (if maxMessages <=? 0 then 20 else maxMessages)
  /\ exists home path earlier,
       w_home w = Some home
       /\ In path
            [ filepath_Join [filepath_Join [home; ".aimux"; "conversations"; refCID; "claude"];
                             "log.jsonl"];
              filepath_Join [filepath_Join [home; ".aimux"; "conversations"; refCID; "claude"];
                             "architect"; "log.jsonl"];
              filepath_Join [filepath_Join [home; ".aimux"; "conversations"; refCID; "claude"];
                             "engineer"; "log.jsonl"] ]
       /\ loadMessagesFromLog w path = Messages (earlier ++ messages).
Proof.
  unfold LoadReferencedContext.
  destruct (GoStrings.eqb refCID ""); [done|]. cbv zeta.
  destruct (w_home w) as [home|]; [|done].
  match goal with |- context [loadFirst w ?ps None] =>
    destruct (loadFirst w ps None) as [ms lastErr] eqn:Hl end.
  destruct (bool_decide (ms = [])) eqn:Hnil; [done|]. apply bool_decide_eq_false in Hnil.
  destruct (loadFirst_found w _ _ _ _ Hl Hnil) as (path & Hin & Hp).
  set (n := if maxMessages <=? 0 then 20 else maxMessages).
  assert (0 < n) as Hn. { subst n. destruct (Z.leb_spec maxMessages 0); lia. }
  destruct (Z.ltb_spec n (Z.of_nat (length ms))) as [Hlt|Hge]; intros [= <-].
  - split.
    + intros E. apply (f_equal length) in E. rewrite length_skipn in E. cbn in E. lia.
    + split; [rewrite length_skipn; lia|].
      exists home, path, (firstn (Z.to_nat (Z.of_nat (length ms) - n)) ms).
      by rewrite firstn_skipn.
  - split; [done|]. split; [lia|]. by exists home, path, [].
Qed.

(** X20 on a log of three messages of which two are asked for. *)
Lemma X20_witness :
  loaded last_two_messages <> []
  /\ Z.of_nat (length (loaded last_two_messages)) <= (if 2 <=? 0 then 20 else 2)
  /\ exists home path earlier,
       w_home (world_of fs_three_messages) = Some home
       /\ In path
            [ filepath_Join (GoLib := RefLib)
                [filepath_Join (GoLib := RefLib) [home; ".aimux"; "conversations"; cid1; "claude"];
                 "log.jsonl"];
              filepath_Join (GoLib := RefLib)
                [filepath_Join (GoLib := RefLib) [home; ".aimux"; "conversations"; cid1; "claude"];
                 "architect"; "log.jsonl"];
              filepath_Join (GoLib := RefLib)
                [filepath_Join (GoLib := RefLib) [home; ".aimux"; "conversations"; cid1; "claude"];
                 "engineer"; "log.jsonl"] ]
       /\ loadMessagesFromLog (uni := RefUnicode) (dec := RefDecode)
            (world_of fs_three_messages) path = Messages (earlier ++ loaded last_two_messages).
Proof.
  apply (X20_referenced_messages_bounded RefLib RefUnicode RefDecode
           (world_of fs_three_messages) cid1 2 (loaded last_two_messages)).
  vm_compute. reflexivity.
Defined.

(** X21.  The first log that can be read ends the search, even when it
    holds no message: if the undifferentiated log of the conversation
    is read without an error and no line of it decodes to a message,
    [LoadReferencedContext] fails, and the logs of the personas are not
    consulted. *)
Theorem X21_empty_first_log_hides_the_others (lib : GoLib) (uni : GoUnicode) (dec : GoDecode)
        (w : World) (refCID : ID) (maxMessages : Z) (home : string) :
  refCID <> "" ->
  w_home w = Some home ->
  loadMessagesFromLog w
    (filepath_Join [filepath_Join [home; ".aimux"; "conversations"; refCID; "claude"];
                    "log.jsonl"]) = Messages [] ->
  LoadReferencedContext w refCID maxMessages = RefFailed (ENoLogs None).
Proof.
  intros Hne Hhome Hfirst. unfold LoadReferencedContext.
  apply eqb_false in Hne. rewrite Hne, Hhome. cbv zeta. cbn [loadFirst]. by rewrite Hfirst.
Qed.

(** X21 where the first log holds a blank line and the log of the
    architect persona holds a message. *)
Lemma X21_witness :
  loadMessagesFromLog (uni := RefUnicode) (dec := RefDecode) (world_of fs_blank_first_log)
    ref_log_architect
  = Messages [mkMessage sid2 "assistant" "plan"]
  /\ LoadReferencedContext (lib := RefLib) (uni := RefUnicode) (dec := RefDecode)
       (world_of fs_blank_first_log) cid1 10 = RefFailed (ENoLogs None).
Proof.
  split; [vm_compute; reflexivity|].
  apply (X21_empty_first_log_hides_the_others RefLib RefUnicode RefDecode
           (world_of fs_blank_first_log) cid1 10 "/home/u");
    [discriminate | reflexivity | vm_compute; reflexivity].
Defined.

(** ** Analysis of the prompt *)

Lemma count_go_nonneg (sub : string) (k : nat) (s : string) : 0 <= count_go sub k s.
Proof.
  revert k. induction s as [|c s IH]; intros k; cbn [count_go]; [done|].
  destruct k; [|apply IH]. case_match; [|apply IH]. specialize (IH (Nat.pred (String.length sub))). lia.
Qed.

(** Every occurrence of two asterisks that is counted accounts for two
    asterisks of its own. *)
Lemma count_bold_stars (s : string) :
  2 * count_go "**" 0 s <= count_go "*" 0 s
  /\ 2 * count_go "**" 1 s <= count_go "*" 0 s
  /\ (GoStrings.HasPrefix s "*" = true -> 2 * count_go "**" 1 s + 1 <= count_go "*" 0 s).
Proof.
  induction s as [|c s (IH0 & IH1 & IH2)]; [done|].
  assert (count_go "*" 0 (String c s)
          = (if Ascii.eqb "*" c then 1 else 0) + count_go "*" 0 s) as Hstar.
  { cbn [count_go GoStrings.HasPrefix]. destruct (Ascii.eqb "*" c); [|done].
    rewrite HasPrefix_nil. done. }
  assert (count_go "**" 1 (String c s) = count_go "**" 0 s) as H1 by done.
  assert (count_go "**" 0 (String c s)
          = if Ascii.eqb "*" c && GoStrings.HasPrefix s "*"
            then 1 + count_go "**" 1 s else count_go "**" 0 s) as H0.
  { cbn [count_go GoStrings.HasPrefix]. destruct (Ascii.eqb "*" c); [|done].
    cbn [andb]. destruct s as [|d s]; [done|]. cbn [GoStrings.HasPrefix].
    destruct (Ascii.eqb "*" d); [|done]. by rewrite HasPrefix_nil. }
  rewrite Hstar, H1, H0.
  assert (GoStrings.HasPrefix (String c s) "*" = Ascii.eqb "*" c) as ->.
  { cbn [GoStrings.HasPrefix]. destruct (Ascii.eqb "*" c); [apply HasPrefix_nil | done]. }
  destruct (Ascii.eqb "*" c); cbn [andb].
  - destruct (GoStrings.HasPrefix s "*") eqn:E.
    + specialize (IH2 eq_refl). lia.
    + lia.
  - repeat split; lia.
Qed.

Lemma length_substring_le (n : nat) (s : string) :
  (String.length (String.substring 0 n s) <= n)%nat.
Proof.
  revert n. induction s as [|c s IH]; intros [|n]; cbn; try lia.
  specialize (IH n). lia.
Qed.

Section PromptFacts.
Context {uni : GoUnicode} {re : GoRegexp}.

Lemma extractGoal_length (text : string) : Z.of_nat (String.length (extractGoal text)) <= 100.
Proof.
  unfold extractGoal. cbv zeta.
  destruct (negb (GoStrings.eqb (firstMatch _ text) "")); [|cbn; lia].
  destruct (Z.ltb_spec 100 (Z.of_nat (String.length (strings_TrimSpace (firstMatch
      [ "(?i)goal:\s*(.+?)(?:\n|$)";
        "(?i)(?:I|we)\s+want\s+to\s+(.+?)(?:\n|$)";
        "(?i)(?:let'?s|lets)\s+(.+?)(?:\n|$)";
        "(?i)objective:\s*(.+?)(?:\n|$)" ] text))))); [|lia].
  rewrite length_app_string. cbn [String.length].
  pose proof (length_substring_le 97 (strings_TrimSpace (firstMatch
      [ "(?i)goal:\s*(.+?)(?:\n|$)";
        "(?i)(?:I|we)\s+want\s+to\s+(.+?)(?:\n|$)";
        "(?i)(?:let'?s|lets)\s+(.+?)(?:\n|$)";
        "(?i)objective:\s*(.+?)(?:\n|$)" ] text))). lia.
Qed.

(** The temperature hint of [InferFlowHints]. *)
Lemma InferFlowHints_temperature (prompt : string) :
  InferFlowHints prompt !! "TEMP_HINT" =
    if 2 <=? boldCount prompt then Some "high"
    else if (boldCount prompt =? 1) || (1 <=? italicCount prompt) then Some "medium"
    else None.
Proof.
  unfold InferFlowHints. cbv zeta.
  set (h1 := if 3 <=? _ then _ else _).
  assert (h1 !! "TEMP_HINT" = None) as Hh1.
  { subst h1. repeat case_match; by simplify_map_eq. }
  set (h2 := if 2 <=? boldCount prompt then _ else _).
  assert (h2 !! "TEMP_HINT" =
          if 2 <=? boldCount prompt then Some "high"
          else if (boldCount prompt =? 1) || (1 <=? italicCount prompt) then Some "medium"
          else None) as Hh2.
  { subst h2. repeat case_match; by simplify_map_eq. }
  rewrite <- Hh2. repeat case_match; by simplify_map_eq.
Qed.

End PromptFacts.

(** X22.  The temperature hint is decided by two counts: it is [high]
    when the prompt holds at least four non-overlapping occurrences of
    two asterisks, else [medium] when it holds at least two asterisks,
    else absent.  The asterisks the bold pairs leave over are never
    fewer than none, so the guard against a negative number in
    [InferFlowHints] never applies. *)
Theorem X22_temperature_by_asterisks (uni : GoUnicode) (re : GoRegexp) (prompt : string) :
  InferFlowHints prompt !! "TEMP_HINT" =
    (if 4 <=? strings_Count prompt "**" then Some "high"
     else if 2 <=? strings_Count prompt "*" then Some "medium"
     else None)
  /\ 0 <= remainingAsterisks prompt.
Proof.
  rewrite InferFlowHints_temperature.
  unfold italicCount, remainingAsterisks, boldCount, strings_Count.
  pose proof (count_bold_stars prompt) as (Hb & _ & _).
  pose proof (count_go_nonneg "**" 0 prompt) as H2.
  set (c2 := count_go "**" 0 prompt) in *. set (c1 := count_go "*" 0 prompt) in *.
  rewrite (Z.quot_div_nonneg c2 2) by lia.
  assert (c2 = 2 * (c2 / 2) + c2 mod 2) as Hdiv by (apply Z.div_mod; lia).
  pose proof (Z.mod_pos_bound c2 2 ltac:(lia)) as Hmod.
  set (q := c2 / 2) in *.
  split; [|lia].
  destruct (Z.leb_spec 2 q), (Z.leb_spec 4 c2); try lia; [done|].
  destruct (Z.eqb_spec q 1); cbn [orb].
  - destruct (Z.leb_spec 2 c1); [done|lia].
  - assert (q = 0) as Hq by lia. rewrite Hq. rewrite Z.mul_0_l, Z.sub_0_r.
    destruct (Z.ltb_spec c1 0); [lia|].
    rewrite (Z.quot_div_nonneg c1 2) by lia.
    assert (c1 = 2 * (c1 / 2) + c1 mod 2) as Hd1 by (apply Z.div_mod; lia).
    pose proof (Z.mod_pos_bound c1 2 ltac:(lia)).
    destruct (Z.leb_spec 1 (c1 / 2)), (Z.leb_spec 2 c1); try lia; done.
Qed.

(** X23.  The goal [extractGoal] returns is at most 100 bytes long,
    whatever the expression engine matched, and so is the goal hint of
    [InferFlowHints]. *)
Theorem X23_goal_hint_bounded (uni : GoUnicode) (re : GoRegexp) (text : string) :
  Z.of_nat (String.length (extractGoal text)) <= 100
  /\ forall goal, InferFlowHints text !! "GOAL_HINT" = Some goal ->
                  goal <> "" /\ Z.of_nat (String.length goal) <= 100.
Proof.
  split; [apply extractGoal_length|]. intros goal.
  unfold InferFlowHints. cbv zeta.
  set (h3 := if negb (GoStrings.eqb (extractCIDReference _) "") then _ else _).
  assert (h3 !! "GOAL_HINT" = None) as Hh3.
  { subst h3. repeat case_match; by simplify_map_eq. }
  destruct (GoStrings.eqb (extractGoal (stripCodeBlocks text)) "") eqn:E; cbn [negb].
  - by rewrite Hh3.
  - rewrite lookup_insert. intros [= <-]. apply eqb_false in E. split; [done|].
    apply extractGoal_length.
Qed.

(** ** The address line *)

Lemma token_char_ascii (c : ascii) : is_token_char c = true -> (RuneSelf <=? byte_val c) = false.
Proof. by_bytes c. Qed.

Lemma token_char_not_space (c : ascii) : is_token_char c = true -> asciiSpace c = false.
Proof. by_bytes c. Qed.

Lemma address_char_ascii (c : ascii) :
  (is_token_char c || Ascii.eqb c " " || Ascii.eqb c TAB) = true ->
  (RuneSelf <=? byte_val c) = false.
Proof. by_bytes c. Qed.

Lemma address_char_token (c : ascii) :
  (is_token_char c || Ascii.eqb c " " || Ascii.eqb c TAB) = true ->
  asciiSpace c = false -> is_token_char c = true.
Proof. by_bytes c. Qed.

Lemma stripPunctuation_chars (s : string) :
  string_forall is_token_char (stripPunctuation s) = true.
Proof.
  induction s as [|c s IH]; [done|]. cbn [stripPunctuation].
  destruct (is_token_char c) eqn:E; [|done]. cbn [string_forall]. by rewrite E.
Qed.

Lemma stripPunctuation_clean (s : string) :
  string_forall is_token_char s = true -> stripPunctuation s = s.
Proof.
  induction s as [|c s IH]; [done|]. cbn [string_forall stripPunctuation].
  intros [-> H]%andb_true_iff. by rewrite IH.
Qed.

Lemma token_chars_ascii (s : string) : string_forall is_token_char s = true -> isASCII s = true.
Proof.
  induction s as [|c s IH]; [done|]. cbn [string_forall isASCII].
  intros [Hc H]%andb_true_iff. rewrite token_char_ascii by done. by apply IH.
Qed.

Lemma length_stripPunctuation (s : string) :
  (String.length (stripPunctuation s) <= String.length s)%nat.
Proof.
  induction s as [|c s IH]; [done|]. cbn [stripPunctuation].
  destruct (is_token_char c); cbn [String.length]; lia.
Qed.

(** X24.  [stripPunctuation] returns the letters, digits and hyphens of
    its argument and nothing else: the result is ASCII, it is not
    longer than the argument, a string of such bytes is returned as it
    is, and stripping twice is stripping once. *)
Theorem X24_stripPunctuation_keeps_token_bytes (s : string) :
  string_forall is_token_char (stripPunctuation s) = true
  /\ isASCII (stripPunctuation s) = true
  /\ (String.length (stripPunctuation s) <= String.length s)%nat
  /\ stripPunctuation (stripPunctuation s) = stripPunctuation s
  /\ (string_forall is_token_char s = true <-> stripPunctuation s = s).
Proof.
  pose proof (stripPunctuation_chars s) as H.
  repeat split.
  - done.
  - by apply token_chars_ascii.
  - apply length_stripPunctuation.
  - by apply stripPunctuation_clean.
  - apply stripPunctuation_clean.
  - intros E. by rewrite <- E.
Qed.

(** The part of a line before its first byte that is not a letter, a
    digit, a hyphen, a space or a tab. *)
Lemma addressPart_chars (line : string) (i : Z) :
  let d := delimIdx_go i line in
  let part := if i <=? d then String.substring 0 (Z.to_nat (d - i)) line else line in
  (d = -1 \/ i <= d)
  /\ (0 <= i ->
      string_forall (fun c => is_token_char c || Ascii.eqb c " " || Ascii.eqb c TAB) part = true).
Proof.
  revert i. induction line as [|c line IH]; intros i; cbv zeta.
  - cbn [delimIdx_go]. split; [by left|]. intros Hi.
    destruct (Z.leb_spec i (-1)); [lia|done].
  - cbn [delimIdx_go].
    destruct (is_token_char c || Ascii.eqb c " " || Ascii.eqb c TAB) eqn:Ec; cbn [negb].
    + destruct (IH (i + 1)) as [Hd Hall]. cbv zeta in Hall. split; [lia|]. intros Hi.
      specialize (Hall ltac:(lia)).
      destruct (Z.leb_spec (i + 1) (delimIdx_go (i + 1) line)) as [Hle|Hgt].
      * destruct (Z.leb_spec i (delimIdx_go (i + 1) line)); [|lia].
        replace (Z.to_nat (delimIdx_go (i + 1) line - i))
          with (S (Z.to_nat (delimIdx_go (i + 1) line - (i + 1)))) by lia.
        cbn [String.substring string_forall]. by rewrite Ec.
      * destruct Hd as [Hd|Hd]; [|lia]. rewrite Hd.
        destruct (Z.leb_spec i (-1)); [lia|]. cbn [string_forall]. by rewrite Ec.
    + split; [right; lia|]. intros Hi. rewrite Z.leb_refl, Z.sub_diag. done.
Qed.

Lemma address_chars_ascii (s : string) :
  string_forall (fun c => is_token_char c || Ascii.eqb c " " || Ascii.eqb c TAB) s = true ->
  isASCII s = true.
Proof.
  induction s as [|c s IH]; [done|]. cbn [string_forall isASCII].
  intros [Hc H]%andb_true_iff. rewrite address_char_ascii by done. by apply IH.
Qed.

Lemma string_forall_app (p : ascii -> bool) (s t : string) :
  string_forall p (s +:+ t) = string_forall p s && string_forall p t.
Proof.
  induction s as [|c s IH]; [done|]. rewrite append_cons. cbn [string_forall].
  by rewrite IH, andb_assoc.
Qed.

(** The fields of an address part are non-empty strings of letters,
    digits and hyphens. *)
Lemma fields_go_tokens (cur s : string) :
  string_forall is_token_char cur = true ->
  string_forall (fun c => is_token_char c || Ascii.eqb c " " || Ascii.eqb c TAB) s = true ->
  Forall (fun t => t <> "" /\ string_forall is_token_char t = true) (fields_go cur s).
Proof.
  revert cur. induction s as [|c s IH]; intros cur Hcur Hs; cbn [fields_go].
  - destruct (GoStrings.eqb cur "") eqn:E; [done|]. apply eqb_false in E. by repeat constructor.
  - cbn [string_forall] in Hs. apply andb_true_iff in Hs as [Hc Hs].
    destruct (asciiSpace c) eqn:Esp.
    + destruct (GoStrings.eqb cur "") eqn:E; [by apply IH|].
      apply eqb_false in E. constructor; [done|]. by apply IH.
    + apply IH; [|done]. rewrite string_forall_app, Hcur. cbn.
      by rewrite (address_char_token c Hc Esp).
Qed.

Lemma map_lower_nonempty (s : string) : s <> "" -> map_bytes lower_byte s <> "".
Proof. by destruct s. Qed.

Section AddressFacts.
Context {uni : GoUnicode}.

(** What a token of the address part is normalised to. *)
Lemma normalized_token (t : string) :
  t <> "" -> string_forall is_token_char t = true ->
  strings_ToLower (stripPunctuation t) <> "".
Proof.
  intros Hne Hall. rewrite stripPunctuation_clean by done.
  unfold strings_ToLower. rewrite token_chars_ascii by done. by apply map_lower_nonempty.
Qed.

Lemma classifyToken_genus (cfg : Config) (token : string) :
  GoStrings.eqb (classifyToken cfg token) "genus" = true -> is_Some (Genera cfg !! token).
Proof.
  unfold classifyToken. destruct (bool_decide (is_Some (Genera cfg !! token))) eqn:E.
  - intros _. by apply bool_decide_eq_true in E.
  - repeat case_match; intros Heq; by apply eqb_true in Heq.
Qed.

Lemma inferGenus_configured (cfg : Config) (modelName : string) :
  inferGenus cfg modelName = "" \/ is_Some (Genera cfg !! inferGenus cfg modelName).
Proof.
  unfold inferGenus. destruct (List.find _ _) as [[k g]|] eqn:E; [|by left].
  right. apply find_some in E as [Hin _]. cbn [fst].
  apply list_elem_of_In, elem_of_map_to_list in Hin. by rewrite Hin.
Qed.

(** The genus the loop over the tokens holds is empty or configured. *)
Lemma classify_step_genus (cfg : Config) (st : string * string * string) (token : string) :
  (st.1.2 = "" \/ is_Some (Genera cfg !! st.1.2)) ->
  ((classify_step cfg st token).1.2 = ""
   \/ is_Some (Genera cfg !! (classify_step cfg st token).1.2)).
Proof.
  destruct st as [[p g] m]. cbn [fst snd]. intros Hg. unfold classify_step.
  destruct (GoStrings.eqb (classifyToken cfg _) "genus") eqn:E1.
  { cbn [fst snd]. destruct (GoStrings.eqb g "") eqn:Eg; [|done].
    right. by apply classifyToken_genus. }
  destruct (GoStrings.eqb (classifyToken cfg _) "global_persona"); [done|].
  destruct (GoStrings.eqb (classifyToken cfg _) "model_name"); [|done].
  cbn [fst snd]. destruct (GoStrings.eqb g ""); [|done]. apply inferGenus_configured.
Qed.

Lemma fold_classify_genus (cfg : Config) (tokens : list string) (st : string * string * string) :
  (st.1.2 = "" \/ is_Some (Genera cfg !! st.1.2)) ->
  ((fold_left (classify_step cfg) tokens st).1.2 = ""
   \/ is_Some (Genera cfg !! (fold_left (classify_step cfg) tokens st).1.2)).
Proof.
  revert st. induction tokens as [|t ts IH]; intros st H; [done|].
  cbn [fold_left]. by apply IH, classify_step_genus.
Qed.

End AddressFacts.

(** X25.  What [parseHUDLine] returns.  Either the three results are
    empty, or the genus is a key of the configured genera and the
    persona is not empty: once a genus is found a persona always is, so
    that the command line never takes over a genus without a
    persona. *)
Theorem X25_address_line_result (uni : GoUnicode) (cfg : Config) (line : string)
        (persona genus modelOverride : string) :
  parseHUDLine cfg line = (persona, genus, modelOverride) ->
  (persona = "" /\ genus = "" /\ modelOverride = "")
  \/ (genus <> "" /\ is_Some (Genera cfg !! genus) /\ persona <> "").
Proof.
  unfold parseHUDLine. cbv zeta.
  destruct (GoStrings.eqb (strings_TrimSpace line) ""); [intros [= <- <- <-]; by left|].
  set (l := strings_TrimSpace line).
  pose proof (addressPart_chars l 0) as [_ Hall]. cbv zeta in Hall.
  specialize (Hall ltac:(done)). rewrite Z.sub_0_r in Hall.
  set (part := if 0 <=? delimIdx_go 0 l then _ else _) in *.
  unfold strings_Fields. rewrite (address_chars_ascii part Hall).
  pose proof (fields_go_tokens "" part eq_refl Hall) as Htok.
  destruct (fields_go "" part) as [|t0 ts] eqn:Ef; [intros [= <- <- <-]; by left|].
  cbn [length Nat.eqb].
  pose proof (fold_classify_genus cfg (t0 :: ts) ("", "", "") (or_introl eq_refl)) as Hg.
  destruct (fold_left (classify_step cfg) (t0 :: ts) ("", "", "")) as [[p g] m].
  cbn [fst snd] in Hg.
  destruct (GoStrings.eqb g "") eqn:Eg; [intros [= <- <- <-]; by left|].
  apply eqb_false in Eg. destruct Hg as [?|Hg]; [done|].
  destruct (GoStrings.eqb p "") eqn:Ep; cbn [andb].
  - destruct (GoStrings.eqb m "") eqn:Em; cbn [negb]; intros [= <- <- <-]; right.
    + repeat split; try done. cbn [index_or_empty nth].
      apply Forall_inv in Htok as [? ?]. by apply normalized_token.
    + apply eqb_false in Em. done.
  - apply eqb_false in Ep. intros [= <- <- <-]. by right.
Qed.

(** X25 on a line that addresses the architect of the [claude] genus. *)
Lemma X25_witness :
  parseHUDLine (uni := RefUnicode) config0 address_line = ("architect", "claude", "architect")
  /\ ("claude" <> "" /\ is_Some (Genera config0 !! "claude") /\ "architect" <> "").
Proof.
  split; [vm_compute; reflexivity|].
  destruct (X25_address_line_result RefUnicode config0 address_line
              "architect" "claude" "architect") as [[? _]|H];
    [vm_compute; reflexivity | discriminate | exact H].
Defined.

(** ** Loading the configuration *)

(** The merge loop computes the union in which the configuration has
    priority. *)
Lemma mergeMissing_union {A : Type} (defaults cfg : gmap string A) :
  mergeMissing defaults cfg = cfg ∪ defaults.
Proof.
  unfold mergeMissing. rewrite <- (list_to_map_to_list defaults) at 2.
  generalize (map_to_list defaults) as l. intros l. revert cfg.
  induction l as [|[k v] l IH]; intros cfg.
  - cbn. by rewrite (right_id ∅ (∪)).
  - cbn [fold_left list_to_map foldr fst snd]. rewrite IH.
    assert ((if bool_decide (is_Some (cfg !! k)) then cfg else <[k:=v]> cfg)
            = cfg ∪ {[ k := v ]}) as ->.
    { apply map_eq. intros i. rewrite lookup_union.
      destruct (cfg !! k) as [x|] eqn:E.
      - rewrite bool_decide_eq_true_2 by done.
        destruct (decide (i = k)) as [->|Hne]; simplify_map_eq; [reflexivity|].
        destruct (cfg !! i); reflexivity.
      - rewrite bool_decide_eq_false_2 by (intros [? ?]; congruence).
        destruct (decide (i = k)) as [->|Hne]; simplify_map_eq; [by rewrite E|].
        destruct (cfg !! i); reflexivity. }
    rewrite <- (assoc_L (∪)). by rewrite <- insert_union_singleton_l.
Qed.

(** X26.  [LoadConfig] merges.  When the directories can be created
    and the configuration file is read and decodes, the result holds
    every persona and every genus of the file and, under the keys the
    file does not have, those of the embedded configuration: an entry
    of the file is never replaced by an embedded one.  Nothing is
    written but the two directories. *)
Theorem X26_LoadConfig_merges_defaults (lib : GoLib) (dec : GoDecode) (w : World)
        (defaultConfigJSON : string) (writefile_fails : string -> bool)
        (home data : string) (raw : RawConfig) (defaults : Config) :
  w_home w = Some home ->
  w_mkdir_fails w (filepath_Join [home; aimuxDir]) = false ->
  w_mkdir_fails w (filepath_Join [filepath_Join [home; aimuxDir]; templatesDir]) = false ->
  ReadFile w (filepath_Join [filepath_Join [home; aimuxDir]; configFile]) = Some data ->
  json_Unmarshal_Config data = Some raw ->
  DefaultConfig defaultConfigJSON = Loaded defaults ->
  LoadConfig w defaultConfigJSON writefile_fails =
    ([CfgMkdirAll (filepath_Join [home; aimuxDir]);
      CfgMkdirAll (filepath_Join [filepath_Join [home; aimuxDir]; templatesDir])],
     Loaded (mkConfig (Personas (initConfigMaps raw) ∪ Personas defaults)
                      (Genera (initConfigMaps raw) ∪ Genera defaults))).
Proof.
  intros Hhome Hmk1 Hmk2 Hread Hdec Hdef. unfold LoadConfig.
  rewrite Hhome, Hmk1. cbv zeta. rewrite Hmk2.
  assert (fileExists w (filepath_Join [filepath_Join [home; aimuxDir]; configFile]) = true) as ->.
  { unfold fileExists. unfold ReadFile in Hread. by destruct (w_fs w !! _). }
  cbn [negb andb]. rewrite Hread, Hdec, Hdef. by rewrite !mergeMissing_union.
Qed.

(** X26 on a file that replaces the executable of one genus. *)
Lemma X26_witness :
  LoadConfig (lib := RefLib) (dec := RefDecode) (world_of fs_user_config) embedded_config
             (fun _ => false) =
    ([CfgMkdirAll "/home/u/.aimux"; CfgMkdirAll "/home/u/.aimux/templates"],
     Loaded (mkConfig
               (Personas (initConfigMaps (raw_of user_config))
                ∪ Personas (loaded_config (DefaultConfig (dec := RefDecode) embedded_config)))
               (Genera (initConfigMaps (raw_of user_config))
                ∪ Genera (loaded_config (DefaultConfig (dec := RefDecode) embedded_config)))))
  /\ Exe <$> (Genera (initConfigMaps (raw_of user_config))
              ∪ Genera (loaded_config (DefaultConfig (dec := RefDecode) embedded_config)))
             !! "claude" = Some ["my-claude"]
  /\ Exe <$> (Genera (initConfigMaps (raw_of user_config))
              ∪ Genera (loaded_config (DefaultConfig (dec := RefDecode) embedded_config)))
             !! "bash" = Some ["bash"].
Proof.
  split; [|split; vm_compute; reflexivity].
  apply (X26_LoadConfig_merges_defaults RefLib RefDecode (world_of fs_user_config)
           embedded_config (fun _ => false) "/home/u" user_config (raw_of user_config)
           (loaded_config (DefaultConfig (dec := RefDecode) embedded_config)));
    vm_compute; reflexivity.
Defined.

(** X27.  The first run.  When the configuration file does not exist
    and can be written, [LoadConfig] writes the embedded bytes to it
    and returns the embedded configuration itself. *)
Theorem X27_first_run_writes_the_defaults (lib : GoLib) (dec : GoDecode) (w : World)
        (defaultConfigJSON : string) (writefile_fails : string -> bool)
        (home : string) (defaults : Config) :
  w_home w = Some home ->
  w_mkdir_fails w (filepath_Join [home; aimuxDir]) = false ->
  w_mkdir_fails w (filepath_Join [filepath_Join [home; aimuxDir]; templatesDir]) = false ->
  fileExists w (filepath_Join [filepath_Join [home; aimuxDir]; configFile]) = false ->
  writefile_fails (filepath_Join [filepath_Join [home; aimuxDir]; configFile]) = false ->
  DefaultConfig defaultConfigJSON = Loaded defaults ->
  LoadConfig w defaultConfigJSON writefile_fails =
    ([CfgMkdirAll (filepath_Join [home; aimuxDir]);
      CfgMkdirAll (filepath_Join [filepath_Join [home; aimuxDir]; templatesDir]);
      CfgWriteFile (filepath_Join [filepath_Join [home; aimuxDir]; configFile])
                   defaultConfigJSON],
     Loaded defaults).
Proof.
  intros Hhome Hmk1 Hmk2 Hex Hwr Hdef. unfold LoadConfig.
  rewrite Hhome, Hmk1. cbv zeta. rewrite Hmk2, Hex, Hwr. cbn [negb andb app].
  pose proof Hdef as Hdef'. unfold DefaultConfig in Hdef'.
  destruct (json_Unmarshal_Config defaultConfigJSON) as [raw|]; [|done].
  rewrite Hdef. injection Hdef' as <-. rewrite !mergeMissing_union.
  rewrite !(idemp_L (∪)). done.
Qed.

(** X27 in a home directory without a configuration file. *)
Lemma X27_witness :
  LoadConfig (lib := RefLib) (dec := RefDecode) world0 embedded_config (fun _ => false) =
    ([CfgMkdirAll "/home/u/.aimux"; CfgMkdirAll "/home/u/.aimux/templates";
      CfgWriteFile "/home/u/.aimux/config.json" embedded_config],
     Loaded (loaded_config (DefaultConfig (dec := RefDecode) embedded_config))).
Proof.
  apply (X27_first_run_writes_the_defaults RefLib RefDecode world0 embedded_config
           (fun _ => false) "/home/u"
           (loaded_config (DefaultConfig (dec := RefDecode) embedded_config)));
    vm_compute; reflexivity.
Defined.

(** ** From the prompt to the call *)

(** X28.  The prompt is logged before the call is validated.  For a
    context that [ValidateCall] denies, [main] has, by the time
    [CallGenus] returns the blocking error, created the directory of
    the log and appended the user's prompt to it: a denied call leaves
    a record of the user and no answer in the log.  Nothing else
    happens: no entropy is drawn and the exit status is the code of the
    denial. *)
Theorem X28_denied_call_is_logged (lib : GoLib) (uni : GoUnicode) (re : GoRegexp)
        (pth : GoPath) (w : World) (append_fails : string -> bool) (rnd : Entropy)
        (ctx : Context) (cmdArgs : string) (stdinReader : option string)
        (b : BlockingError) (log3 : string) :
  ValidateCall ctx = Some b ->
  Log3 w ctx = Ok log3 ->
  w_mkdir_fails w (filepath_Dir log3) = false ->
  w_open_fails w log3 = false ->
  let '(ops, ctx', rnd', r) := main_call w append_fails rnd ctx cmdArgs stdinReader in
  ops = [EvMkdirAll (filepath_Dir log3); EvOpenLog log3;
         EvLogWrite (LogMessage (mkMessage (SID ctx) "user" (loggedPrompt cmdArgs stdinReader)));
         EvLogClose]
  /\ r = Err (EBlocking b)
  /\ handleError (EBlocking b) = Code b
  /\ rnd' = rnd.
Proof.
  intros Hv Hlog Hmk Hop. unfold main_call. cbv zeta.
  set (env := fold_left _ _ _).
  unfold AppendMessage.
  change (Log3 w (set_ENV ctx env)) with (Log3 w ctx). rewrite Hlog. cbv zeta.
  rewrite Hmk, Hop.
  assert (CallGenus w rnd (set_ENV ctx env) cmdArgs stdinReader
          = (set_ENV ctx env, rnd, Err (EBlocking b))) as Hcall.
  { unfold CallGenus.
    change (ValidateCall (set_ENV ctx env)) with (ValidateCall ctx). by rewrite Hv. }
  destruct (append_fails log3); rewrite Hcall; done.
Qed.

(** X28 on a call at depth 3. *)
Lemma X28_witness :
  let '(ops, ctx', rnd', r) := denied_call in
  ops = [EvMkdirAll (filepath_Dir (GoPath := RefPath) log3_architect); EvOpenLog log3_architect;
         EvLogWrite (LogMessage (mkMessage (SID ctx_too_deep) "user" (loggedPrompt "hello" None)));
         EvLogClose]
  /\ r = Err (EBlocking (mkBlockingError 3 "recursive call depth exceeded (3)"))
  /\ handleError (EBlocking (mkBlockingError 3 "recursive call depth exceeded (3)")) = 3
  /\ rnd' = [].
Proof.
  apply (X28_denied_call_is_logged RefLib RefUnicode RefRegexp RefPath world0 (fun _ => false)
           [] ctx_too_deep "hello" None
           (mkBlockingError 3 "recursive call depth exceeded (3)") log3_architect);
    vm_compute; reflexivity.
Defined.

(** ** Streaming response interpreter: the log file *)

Lemma log_events_app (tr1 tr2 : list Event) :
  log_events (tr1 ++ tr2) = log_events tr1 ++ log_events tr2.
Proof. unfold log_events. apply List.filter_app. Qed.

Lemma log_extends_refl (st : DrainState) : log_extends st st.
Proof. repeat split. exists []. by rewrite app_nil_r. Qed.

Lemma log_extends_trans (st1 st2 st3 : DrainState) :
  log_extends st1 st2 -> log_extends st2 st3 -> log_extends st1 st3.
Proof.
  intros (F1 & L1 & ws1 & T1 & W1 & E1) (F2 & L2 & ws2 & T2 & W2 & E2).
  repeat split; try congruence.
  exists (ws1 ++ ws2). rewrite T2, T1, <- app_assoc. split; [done|].
  split; [by apply Forall_app|]. intros Hf. rewrite E1 by done. rewrite E2 by congruence. done.
Qed.

(** An event that is not an operation on the log file. *)
Lemma log_extends_emit (e : Event) (st : DrainState) :
  is_log_event e = false -> log_extends st (emit e st).
Proof.
  intros He. repeat split. exists []. cbn [emit d_trace].
  rewrite log_events_app, app_nil_r. unfold log_events at 2. cbn. rewrite He.
  by rewrite app_nil_r.
Qed.

(** A write to the log file once the format is known. *)
Lemma log_extends_write (d : LogData) (st : DrainState) :
  d_format st <> "" -> log_extends st (emit (EvLogWrite d) st).
Proof.
  intros Hf. repeat split. exists [EvLogWrite d]. cbn [emit d_trace].
  rewrite log_events_app. split; [done|]. split; [by repeat constructor | done].
Qed.

Ltac log_step :=
  first [ apply log_extends_refl
        | eapply log_extends_trans; [|apply log_extends_emit; reflexivity] ].

Section LogFile.
Context {lib : GoLib}.
Variable w : World.

Lemma handleErrorRecord_log (data : gmap string JSON) (st : DrainState) :
  log_extends st (step_state (handleErrorRecord w data st)).
Proof.
  unfold handleErrorRecord, WriteString, Flush. case_match; cbn [step_state]; repeat log_step.
Qed.

Lemma markError_log (data : gmap string JSON) (st : DrainState) :
  log_extends st (markError data st).
Proof. unfold markError. case_match; [|apply log_extends_refl]. repeat split. exists []. by rewrite app_nil_r. Qed.

Lemma logSessionLine_log (line : string) (data : gmap string JSON) (st : DrainState) :
  d_format st <> "" -> log_extends st (logSessionLine line data st).
Proof.
  intros Hf. unfold logSessionLine. case_match; [by apply log_extends_write | apply log_extends_refl].
Qed.

Lemma collectSID_log (data : gmap string JSON) (st : DrainState) :
  log_extends st (collectSID data st).
Proof.
  unfold collectSID. repeat case_match; try apply log_extends_refl;
    repeat split; exists []; by rewrite app_nil_r.
Qed.

Lemma extractText_log (data : gmap string JSON) (st : DrainState) :
  log_extends st (extractText data st).1.
Proof.
  unfold extractText. repeat case_match; cbn [fst]; try apply log_extends_refl;
    apply collectSID_log.
Qed.

Lemma flushSID_log (st : DrainState) : log_extends st (flushSID st).
Proof.
  unfold flushSID, saveContext. case_match; [|apply log_extends_refl].
  eapply log_extends_trans; [|apply log_extends_emit; reflexivity].
  repeat split. exists []. by rewrite app_nil_r.
Qed.

Lemma writeExtracted_log (text : string) (st : DrainState) :
  log_extends st (step_state (writeExtracted w text st)).
Proof.
  unfold writeExtracted, WriteString, Flush.
  assert (log_extends st (add_output (Z.of_nat (String.length text)) st)) as Ha.
  { repeat split. exists []. by rewrite app_nil_r. }
  repeat case_match; simplify_eq; cbn [step_state fst]; try apply log_extends_refl;
    repeat (eapply log_extends_trans; [|apply log_extends_emit; reflexivity]); exact Ha.
Qed.

Lemma handleJSON_log (line : string) (st : DrainState) :
  d_format st <> "" -> log_extends st (step_state (handleJSON w line st)).
Proof.
  intros Hf. unfold handleJSON.
  destruct (json_Unmarshal_map line) as [data|]; [|apply log_extends_refl].
  cbv zeta. pose proof (markError_log data st) as H1.
  case_match.
  - eapply log_extends_trans; [exact H1 | apply handleErrorRecord_log].
  - assert (d_format (markError data st) <> "") as Hf1.
    { destruct H1 as [-> _]. done. }
    pose proof (logSessionLine_log line data _ Hf1) as H2.
    pose proof (extractText_log data (logSessionLine line data (markError data st))) as H3.
    destruct (extractText data _) as [st1 text]. cbn [fst] in H3.
    eapply log_extends_trans; [exact H1|].
    eapply log_extends_trans; [exact H2|].
    eapply log_extends_trans; [exact H3|].
    eapply log_extends_trans; [apply flushSID_log | apply writeExtracted_log].
Qed.

Lemma handleText_log (line : string) (st : DrainState) :
  d_format st <> "" -> log_extends st (step_state (handleText w line st)).
Proof.
  intros Hf. unfold handleText, WriteString, Flush.
  assert (log_extends st (add_output (Z.of_nat (String.length line)) st)) as Ha.
  { repeat split. exists []. by rewrite app_nil_r. }
  repeat case_match; simplify_eq; cbn [step_state].
  - eapply log_extends_trans; [|apply log_extends_emit; reflexivity]. exact Ha.
  - eapply log_extends_trans; [|apply log_extends_write; done].
    repeat (eapply log_extends_trans; [|apply log_extends_emit; reflexivity]). exact Ha.
  - repeat (eapply log_extends_trans; [|apply log_extends_emit; reflexivity]). exact Ha.
Qed.

Lemma handleOther_log (line : string) (st : DrainState) :
  log_extends st (step_state (handleOther w line st)).
Proof.
  unfold handleOther, WriteString.
  assert (log_extends st (add_output (Z.of_nat (String.length line)) st)) as Ha.
  { repeat split. exists []. by rewrite app_nil_r. }
  repeat case_match; simplify_eq; cbn [step_state];
    (eapply log_extends_trans; [|apply log_extends_emit; reflexivity]); exact Ha.
Qed.

Lemma dispatch_log (line : string) (st : DrainState) :
  log_extends st (step_state (dispatch w line st)).
Proof.
  unfold dispatch, WriteString. case_match.
  { cbn [step_state fst]. apply log_extends_emit. reflexivity. }
  destruct (GoStrings.eqb (d_format st) "json") eqn:E1.
  { apply handleJSON_log. apply eqb_true in E1. by rewrite E1. }
  destruct (GoStrings.eqb (d_format st) "text" || GoStrings.eqb (d_format st) "empty") eqn:E2.
  { apply handleText_log. apply orb_true_iff in E2 as [E|E]; apply eqb_true in E; by rewrite E. }
  apply handleOther_log.
Qed.

Lemma detectFormat_known (line : string) : detectFormat line <> "".
Proof. unfold detectFormat. by repeat case_match. Qed.

Lemma log_open_extends (st st' : DrainState) :
  log_open w st -> log_extends st st' -> log_open w st'.
Proof.
  intros [(Hf & Hl & Ht)|(Hf & p & ws & Hl & Hp & Ht & Hw)] (F & L & ws' & T & W & E).
  - left. rewrite F, L, T, Ht, (E Hf). done.
  - right. split; [congruence|]. exists p, (ws ++ ws'). rewrite L, T, Ht.
    repeat split; try done. by apply Forall_app.
Qed.

Lemma log_open_settled (st : DrainState) : log_open w st -> log_settled w st.
Proof.
  intros [(Hf & Hl & Ht)|(Hf & p & ws & Hl & Hp & Ht & Hw)].
  - left. split; [done|]. by left.
  - right. by exists p, ws.
Qed.

Lemma log_after_dispatch (line : string) (st : DrainState) :
  log_open w st -> log_after w (dispatch w line st).
Proof.
  intros Ho. pose proof (log_open_extends st _ Ho (dispatch_log line st)) as H.
  destruct (dispatch w line st); cbn [step_state log_after] in *;
    [done | done | by apply log_open_settled].
Qed.

Lemma detect_log (line : string) (st : DrainState) :
  d_format st = "" -> d_logFile st = None -> log_events (d_trace st) = [] ->
  log_after w (detect w line st).
Proof.
  intros Hf Hl Ht. unfold detect, saveContext. cbv zeta.
  cbn [d_ctx emit set_format].
  destruct (w_mkdir_fails w (DIR (d_ctx st))).
  { unfold log_after, log_settled. cbn - [log_events].
    left. split; [done|]. left. by rewrite log_events_app, Ht. }
  destruct (Log3 w (d_ctx st)) as [log3|e].
  - destruct (w_open_fails w log3) eqn:Hop.
    + unfold log_after, log_settled. cbn - [log_events].
      left. split; [done|]. right. exists log3.
      rewrite !log_events_app, Ht. done.
    + unfold log_after, log_open. cbn - [log_events].
      right. split; [apply detectFormat_known|]. exists log3, [].
      rewrite !log_events_app, Ht. done.
  - unfold log_after, log_settled. cbn - [log_events].
    left. split; [done|]. left. by rewrite !log_events_app, Ht.
Qed.

Lemma step_log (line : string) (st : DrainState) :
  log_open w st -> log_after w (step w line st).
Proof.
  intros Ho. unfold step. cbv zeta.
  assert (log_open w (next_line st)) as Hn.
  { apply (log_open_extends st); [done|]. repeat split. exists []. by rewrite app_nil_r. }
  destruct (GoStrings.eqb (d_format (next_line st)) "" && negb (GoStrings.eqb line "")) eqn:E.
  - apply andb_true_iff in E as [Ef _]. apply eqb_true in Ef.
    destruct Hn as [(_ & Hl & Ht)|(Hf & _)]; [|done].
    pose proof (detect_log line (next_line st) Ef Hl Ht) as Hd.
    destruct (detect w line (next_line st)); cbn [log_after] in Hd |- *; try done.
    by apply log_after_dispatch.
  - by apply log_after_dispatch.
Qed.

Lemma drain_log (lines : list string) (st : DrainState) :
  log_open w st -> log_after w (drain w lines st).
Proof.
  revert st. induction lines as [|line rest IH]; intros st Ho; cbn [drain]; [done|].
  pose proof (step_log line st Ho) as Hs.
  destruct (step w line st); cbn [log_after] in Hs |- *; try done. by apply IH.
Qed.

(** The code after the loop does not touch the log file. *)
Lemma finish_log (scanErr : option ScanError) (st : DrainState) :
  d_logFile (finish w scanErr st).1 = d_logFile st
  /\ log_events (d_trace (finish w scanErr st).1) = log_events (d_trace st).
Proof.
  unfold finish, Flush, saveContext.
  repeat case_match; simplify_eq; cbn; rewrite ?log_events_app; cbn;
    by rewrite ?app_nil_r.
Qed.

Lemma log_settled_same (st st' : DrainState) :
  d_logFile st' = d_logFile st -> log_events (d_trace st') = log_events (d_trace st) ->
  log_settled w st -> log_settled w st'.
Proof. unfold log_settled. intros -> ->. done. Qed.

(** The deferred calls close the log file when it was opened. *)
Lemma deferred_log (st : DrainState) :
  log_settled w st ->
  log_events (d_trace (deferred w st)) = []
  \/ (exists p, log_events (d_trace (deferred w st)) = [EvOpenLog p] /\ w_open_fails w p = true)
  \/ (exists p writes,
        log_events (d_trace (deferred w st)) = EvOpenLog p :: writes ++ [EvLogClose]
        /\ Forall (fun e => is_log_write e = true) writes
        /\ w_open_fails w p = false).
Proof.
  unfold deferred, Flush.
  intros [(Hl & Ht)|(p & ws & Hl & Hp & Ht & Hw)]; rewrite Hl.
  - rewrite bool_decide_eq_false_2 by (intros E; by apply E). cbn.
    rewrite log_events_app. cbn. rewrite app_nil_r.
    destruct Ht as [Ht|(p & Ht & Hp)]; [by left|]. right. left. by exists p.
  - rewrite bool_decide_eq_true_2 by done. cbn.
    rewrite !log_events_app, Ht. cbn. rewrite app_nil_r.
    right. right. by exists p, ws.
Qed.

End LogFile.

(** X29.  The log file is used in order.  In every run of
    [StreamAndLog], whatever the stream holds and whichever system call
    fails, the operations on the log file are one of: none at all; one
    attempt to open it, which failed; or one successful opening,
    followed by writes only, followed by exactly one close.  The log is
    never written before it is opened or after it is closed, and never
    left open. *)
Theorem X29_log_file_protocol (lib : GoLib) (w : World) (c : Context) (r : Reader) :
  let trace := res_trace (StreamAndLog w c r) in
  log_events trace = []
  \/ (exists p, log_events trace = [EvOpenLog p] /\ w_open_fails w p = true)
  \/ (exists p writes,
        log_events trace = EvOpenLog p :: writes ++ [EvLogClose]
        /\ Forall (fun e => is_log_write e = true) writes
        /\ w_open_fails w p = false).
Proof.
  cbv zeta. unfold StreamAndLog.
  destruct (scanReader MaxLineLength r) as [lines scanErr]. unfold StreamAndLog_lines.
  assert (log_open w (initDrain c)) as Hi by (by left).
  pose proof (drain_log w lines (initDrain c) Hi) as Hd.
  destruct (drain w lines (initDrain c)) as [st|st|st e]; cbn [log_after] in Hd.
  - destruct (finish_log w scanErr st) as [Hl Ht].
    destruct (finish w scanErr st) as [st' err]. cbn [fst] in Hl, Ht. cbn [res_trace].
    apply deferred_log. eapply log_settled_same; [exact Hl | exact Ht |].
    by apply log_open_settled.
  - destruct (finish_log w None st) as [Hl Ht].
    destruct (finish w None st) as [st' err]. cbn [fst] in Hl, Ht. cbn [res_trace].
    apply deferred_log. eapply log_settled_same; [exact Hl | exact Ht |].
    by apply log_open_settled.
  - cbn [res_trace]. by apply deferred_log.
Qed.
